(** * HDFS cost advisor: metadata classifier, cost calculator and plan builder

    A shallow embedding of [hdfs_cost_advisor/hdfs/analyzer.py],
    [hdfs_cost_advisor/cost/calculator.py] and the plan-building part of
    [hdfs_cost_advisor/endpoints/{scan,optimize}.py], followed by the
    properties established about them.

    Conventions of the embedding:
    - Python [int] is [Z]; Python [float] is an exact rational [Q] (rounding is
      not modelled), and [float('inf')] is the extra constructor of [xfloat];
      what is stated of a float is an expression of the code itself or an
      ordering, wherever the property allows it;
    - a Python [str] is a [string] of ASCII characters, on which [lower] is
      [str.lower()];
    - a Python exception is the [Raise] constructor of [result]; every [/]
      whose divisor is not a non-zero literal goes through [truediv], which
      raises [ZeroDivisionError] on a zero divisor exactly as Python does;
    - [dict.get(key, default)] on an input record is an [option] field read
      through [default];
    - [datetime.now()] reads an explicit clock, threaded through the [M] monad. *)

From Stdlib Require Import ZArith QArith Qpower Qminmax Qabs String Ascii List.
From Stdlib Require Import Lia Lqa.
From Stdlib Require Import Sorting Permutation.
From stdpp Require Import gmap strings list.

Open Scope Q_scope.

(** ** Python primitives *)

Module Py.

Inductive exn : Type :=
| ZeroDivisionError
| ValueError (msg : string)
| KeyError (key : string).

Inductive result (A : Type) : Type :=
| Ok (a : A)
| Raise (e : exn).
Arguments Ok {A} a.
Arguments Raise {A} e.

#[global] Instance result_ret : MRet result := fun A a => Ok a.
#[global] Instance result_bind : MBind result :=
  fun A B f m => match m with Ok a => f a | Raise e => Raise e end.

(** [x / y] on numbers, one of which is a float. *)
Definition truediv (x y : Q) : result Q :=
  if Qeq_dec y 0 then Raise ZeroDivisionError else Ok (x / y).

(** [min(a, b)]: the first argument unless the second is strictly smaller. *)
Definition py_min (a b : Q) : Q :=
  if Qlt_le_dec b a then b else a.

(** [float('inf')] next to the finite floats. *)
Inductive xfloat : Type :=
| Finite (q : Q)
| Inf.

(** *** Strings *)

(** [s.split(sep)] for a one-character separator. *)
Fixpoint split (sep : ascii) (s : string) : list string :=
  match s with
  | EmptyString => [EmptyString]
  | String c s' =>
      if Ascii.eqb c sep then EmptyString :: split sep s'
      else match split sep s' with
           | [] => [String c EmptyString]
           | seg :: segs => String c seg :: segs
           end
  end.

(** [sep.join(segments)]. *)
Definition join (sep : string) (segments : list string) : string :=
  String.concat sep segments.

(** [l[:-1]]. *)
Definition but_last {A} (l : list A) : list A := removelast l.

(** [pattern in s]. *)
Fixpoint contains (pattern s : string) : bool :=
  String.prefix pattern s
  || match s with
     | EmptyString => false
     | String _ s' => contains pattern s'
     end.

Definition lower_ascii (c : ascii) : ascii :=
  let n := nat_of_ascii c in
  if (65 <=? n)%nat && (n <=? 90)%nat then ascii_of_nat (n + 32) else c.

(** [s.lower()] on ASCII text. *)
Fixpoint lower (s : string) : string :=
  match s with
  | EmptyString => EmptyString
  | String c s' => String (lower_ascii c) (lower s')
  end.

(** *** [list.sort(key=..., reverse=True)]

    The sort is stable, also under [reverse=True]: the result is descending by
    key and records with equal keys keep their input order.  That output is
    unique, so an insertion sort describes it. *)
Section Sort.
Context {A K : Type} (key : A -> K) (ltb : K -> K -> bool).

Fixpoint insert_desc (x : A) (l : list A) : list A :=
  match l with
  | [] => [x]
  | y :: l' =>
      if ltb (key x) (key y) then y :: insert_desc x l' else x :: y :: l'
  end.

Fixpoint sort_reverse (l : list A) : list A :=
  match l with
  | [] => []
  | x :: l' => insert_desc x (sort_reverse l')
  end.

(** [x] may stand before [y] in a descending list. *)
Definition not_below (x y : A) : Prop := ltb (key x) (key y) = false.
End Sort.

(** [d[k].append(v)] on an insertion-ordered dict of lists, a missing key
    starting from the empty list. *)
Fixpoint dict_append {K V} (eqb : K -> K -> bool) (k : K) (v : V)
    (d : list (K * list V)) : list (K * list V) :=
  match d with
  | [] => [(k, [v])]
  | (k', vs) :: rest =>
      if eqb k' k then (k', vs ++ [v]) :: rest
      else (k', vs) :: dict_append eqb k v rest
  end.

Definition Qltb (x y : Q) : bool := if Qlt_le_dec x y then true else false.

(** Tuples of two ints compare lexicographically. *)
Definition pair_ltb (a b : Z * Z) : bool :=
  (fst a <? fst b)%Z || ((fst a =? fst b)%Z && (snd a <? snd b)%Z).

End Py.
Import Py.

(** ** The metadata analyzer ([hdfs/analyzer.py]) *)

Module Analyzer.

(** A file-metadata mapping as the HDFS client yields it.  Every field is
    read with [.get(key, default)], so every field may be missing. *)
Record file_info : Type := {
  path : option string;
  size : option Z;
  replication : option Z;
  access_time : option Z;
  modification_time : option Z;
  block_size : option Z;
  owner : option string;
  group : option string
}.

Definition get_path (f : file_info) : string := default EmptyString (path f).
Definition get_size (f : file_info) : Z := default 0%Z (size f).
Definition get_replication (f : file_info) : Z := default 1%Z (replication f).
Definition get_access_time (f : file_info) : Z := default 0%Z (access_time f).
Definition get_modification_time (f : file_info) : Z :=
  default 0%Z (modification_time f).
Definition get_block_size (f : file_info) : Z := default 0%Z (block_size f).

(** *** The clock

    [datetime.now().timestamp() * 1000]: each call of [now_ms] takes the next
    reading of the clock, in milliseconds. *)
Record clock : Type := {
  reading : nat -> Q;
  samples : nat
}.

Definition M (A : Type) : Type := clock -> result A * clock.

#[global] Instance M_ret : MRet M := fun A a w => (Ok a, w).
#[global] Instance M_bind : MBind M :=
  fun A B f m w =>
    match m w with
    | (Ok a, w') => f a w'
    | (Raise e, w') => (Raise e, w')
    end.

Definition now_ms : M Q :=
  fun w => (Ok (reading w (samples w)),
            {| reading := reading w; samples := S (samples w) |}).

Definition lift {A} (r : result A) : M A := fun w => (r, w).

(** [24 * 60 * 60 * 1000]. *)
Definition ms_per_day : Z := 24 * 60 * 60 * 1000.

(** *** identify_cold_data *)

Record cold_record : Type := {
  cold_file : file_info;
  cold_classification : string;
  days_since_access : Q;
  cold_score : Q
}.

(** The loop body and the loop of [identify_cold_data], after the clock has
    been read. *)
Fixpoint cold_loop (current_time cold_threshold : Q) (cold_threshold_days : Z)
    (file_metadata : list file_info) : result (list cold_record) :=
  match file_metadata with
  | [] => Ok []
  | file_info :: rest =>
      let access_time := get_access_time file_info in
      if Qlt_le_dec (inject_Z access_time) cold_threshold then
        let days := (current_time - inject_Z access_time) / inject_Z ms_per_day in
        ratio ← truediv days (inject_Z cold_threshold_days);
        cold_data ← cold_loop current_time cold_threshold cold_threshold_days rest;
        Ok ({| cold_file := file_info;
               cold_classification := "cold";
               days_since_access := days;
               cold_score := py_min ratio 1 |} :: cold_data)
      else cold_loop current_time cold_threshold cold_threshold_days rest
  end.

Definition identify_cold_data_at (current_time : Q)
    (file_metadata : list file_info) (cold_threshold_days : Z)
    : result (list cold_record) :=
  let cold_threshold :=
    current_time - inject_Z (cold_threshold_days * 24 * 60 * 60 * 1000) in
  cold_data ← cold_loop current_time cold_threshold cold_threshold_days
                file_metadata;
  Ok (sort_reverse cold_score Qltb cold_data).

Definition identify_cold_data (file_metadata : list file_info)
    (cold_threshold_days : Z) : M (list cold_record) :=
  current_time ← now_ms;
  lift (identify_cold_data_at current_time file_metadata cold_threshold_days).

(** *** detect_duplicate_candidates *)

Record duplicate_record : Type := {
  dup_file : file_info;
  dup_classification : string;
  group_size : Z;
  filename : string;
  duplicate_score : Q
}.

Definition len {A} (l : list A) : Z := Z.of_nat (length l).

Definition size_groups (file_metadata : list file_info)
    : list (Z * list file_info) :=
  fold_left
    (fun groups f =>
       if (0 <? get_size f)%Z then dict_append Z.eqb (get_size f) f groups
       else groups)
    file_metadata [].

Definition duplicate_of (files : list file_info) (f : file_info)
    : duplicate_record :=
  let p := get_path f in
  {| dup_file := f;
     dup_classification := "potential_duplicate";
     group_size := len files;
     filename := if String.eqb p "" then ""
                 else List.last (split "/" p) ""%string;
     duplicate_score := inject_Z (len files) / 10 |}.

Definition detect_duplicate_candidates (file_metadata : list file_info)
    : list duplicate_record :=
  let duplicate_candidates :=
    flat_map
      (fun g : Z * list file_info =>
         if (1 <? len (snd g))%Z then List.map (duplicate_of (snd g)) (snd g)
         else [])
      (size_groups file_metadata) in
  sort_reverse duplicate_score Qltb duplicate_candidates.

(** *** analyze_file_efficiency *)

Record small_record : Type := {
  small_file : file_info;
  small_classification : string;
  small_efficiency_impact : string;
  size_mb : Q
}.

Record empty_record : Type := {
  empty_file : file_info;
  empty_classification : string;
  empty_efficiency_impact : string
}.

Record overrep_record : Type := {
  overrep_file : file_info;
  overrep_classification : string;
  current_replication : Z;
  suggested_replication : Z;
  excess_replicas : Z
}.

Record efficiency_summary : Type := {
  critical_issues : Z;
  moderate_issues : Z;
  storage_waste_factor : Q
}.

Record efficiency : Type := {
  eff_total_files : Z;
  eff_small_files : list small_record;
  small_files_count : Z;
  small_files_percentage : Q;
  eff_empty_files : list empty_record;
  empty_files_count : Z;
  inefficient_replication : list overrep_record;
  over_replicated_count : Z;
  over_replicated_percentage : Q;
  eff_summary : efficiency_summary
}.

Definition mk_empty (f : file_info) : empty_record :=
  {| empty_file := f;
     empty_classification := "empty_file";
     empty_efficiency_impact := "medium" |}.

Definition mk_small (f : file_info) : small_record :=
  {| small_file := f;
     small_classification := "small_file";
     small_efficiency_impact :=
       if (get_size f <? 1024 * 1024)%Z then "high" else "medium";
     size_mb := inject_Z (get_size f) / inject_Z (1024 * 1024) |}.

Definition mk_overrep (f : file_info) : overrep_record :=
  {| overrep_file := f;
     overrep_classification := "over_replicated";
     current_replication := get_replication f;
     suggested_replication := 3;
     excess_replicas := get_replication f - 3 |}.

(** The single pass filling the three lists. *)
Fixpoint efficiency_loop (file_metadata : list file_info)
    : list small_record * list overrep_record * list empty_record :=
  match file_metadata with
  | [] => ([], [], [])
  | f :: rest =>
      let '(small_files, inefficient, empty_files) := efficiency_loop rest in
      let '(small_files, empty_files) :=
        if (get_size f =? 0)%Z then (small_files, mk_empty f :: empty_files)
        else if (get_size f <? 64 * 1024 * 1024)%Z
             then (mk_small f :: small_files, empty_files)
             else (small_files, empty_files) in
      let inefficient :=
        if (3 <? get_replication f)%Z then mk_overrep f :: inefficient
        else inefficient in
      (small_files, inefficient, empty_files)
  end.

(** [(count / total_files) * 100 if total_files > 0 else 0]. *)
Definition percentage (count total : Z) : result Q :=
  if (0 <? total)%Z then
    r ← truediv (inject_Z count) (inject_Z total); Ok (r * 100)
  else Ok 0.

Definition analyze_file_efficiency (file_metadata : list file_info)
    : result efficiency :=
  let total_files := len file_metadata in
  let '(small_files, inefficient, empty_files) :=
    efficiency_loop file_metadata in
  small_pct ← percentage (len small_files) total_files;
  over_pct ← percentage (len inefficient) total_files;
  Ok {| eff_total_files := total_files;
        eff_small_files := small_files;
        small_files_count := len small_files;
        small_files_percentage := small_pct;
        eff_empty_files := empty_files;
        empty_files_count := len empty_files;
        inefficient_replication := inefficient;
        over_replicated_count := len inefficient;
        over_replicated_percentage := over_pct;
        eff_summary :=
          {| critical_issues :=
               len empty_files
               + len (List.filter
                        (fun f => String.eqb (small_efficiency_impact f) "high")
                        small_files);
             moderate_issues :=
               len (List.filter
                      (fun f => String.eqb (small_efficiency_impact f) "medium")
                      small_files);
             storage_waste_factor :=
               inject_Z (len small_files) * 0.1
               + inject_Z (len inefficient) * 0.2 |} |}.

(** *** identify_orphaned_temp_files *)

Record orphan_record : Type := {
  orphan_file : file_info;
  orphan_classification : string;
  age_days : Q;
  cleanup_priority : string;
  temp_pattern : string
}.

Definition temp_patterns : list string :=
  ["/tmp/"; "/var/tmp/"; "/_temporary/"; "/temp/";
   ".tmp"; ".temp"; ".bak"; ".backup"; "_tmp"; "_temp"]%string.

Definition is_temp (p : string) : bool :=
  existsb (fun pattern => contains pattern (lower p)) temp_patterns.

Definition orphan_of (current_time : Q) (f : file_info)
    : option orphan_record :=
  let p := get_path f in
  if is_temp p then
    let file_age_days :=
      (current_time - inject_Z (get_modification_time f))
      / inject_Z ms_per_day in
    if Qlt_le_dec 7 file_age_days then
      let cleanup_priority : string :=
        if Qlt_le_dec 30 file_age_days then "high" else "medium" in
      let cleanup_priority : string :=
        if Qlt_le_dec 90 file_age_days then "critical" else cleanup_priority in
      Some {| orphan_file := f;
              orphan_classification := "orphaned_temp";
              age_days := file_age_days;
              cleanup_priority := cleanup_priority;
              temp_pattern :=
                default "unknown"%string
                  (List.find (fun pattern => contains pattern (lower p))
                     temp_patterns) |}
    else None
  else None.

Fixpoint orphan_loop (current_time : Q) (file_metadata : list file_info)
    : list orphan_record :=
  match file_metadata with
  | [] => []
  | f :: rest =>
      match orphan_of current_time f with
      | Some o => o :: orphan_loop current_time rest
      | None => orphan_loop current_time rest
      end
  end.

Definition identify_orphaned_temp_files_at (current_time : Q)
    (file_metadata : list file_info) : list orphan_record :=
  sort_reverse age_days Qltb (orphan_loop current_time file_metadata).

Definition identify_orphaned_temp_files (file_metadata : list file_info)
    : M (list orphan_record) :=
  current_time ← now_ms;
  mret (identify_orphaned_temp_files_at current_time file_metadata).

(** *** analyze_directory_structure *)

Record dir_stats : Type := {
  file_count : Z;
  total_size : Z;
  dir_small_files : Z;
  dir_large_files : Z;
  avg_file_size : Q;
  small_file_ratio : option Q
}.

Record problematic_directory : Type := {
  directory : string;
  issue : string;
  problem_small_file_ratio : Q;
  problem_file_count : Z;
  total_size_mb : Q;
  optimization_potential : string
}.

Record directory_analysis : Type := {
  directory_stats : list (string * dir_stats);
  problematic_directories : list problematic_directory;
  total_directories : Z;
  consolidation_candidates : Z
}.

(** The [defaultdict] factory. *)
Definition fresh_stats : dir_stats :=
  {| file_count := 0; total_size := 0; dir_small_files := 0;
     dir_large_files := 0; avg_file_size := 0; small_file_ratio := None |}.

(** [d[k] = f(d[k])] on an insertion-ordered [defaultdict]. *)
Fixpoint dict_alter (f : dir_stats -> dir_stats) (k : string)
    (d : list (string * dir_stats)) : list (string * dir_stats) :=
  match d with
  | [] => [(k, f fresh_stats)]
  | (k', v) :: rest =>
      if String.eqb k' k then (k', f v) :: rest
      else (k', v) :: dict_alter f k rest
  end.

Fixpoint dict_get (k : string) (d : list (string * dir_stats))
    : option dir_stats :=
  match d with
  | [] => None
  | (k', v) :: rest => if String.eqb k' k then Some v else dict_get k rest
  end.

(** ["/".join(path.split("/")[:-1]) if "/" in path else "/"]. *)
Definition directory_of (p : string) : string :=
  if contains "/" p then join "/" (but_last (split "/" p)) else "/".

Definition count_file (sz : Z) (st : dir_stats) : dir_stats :=
  {| file_count := file_count st + 1;
     total_size := total_size st + sz;
     dir_small_files :=
       if (sz <? 64 * 1024 * 1024)%Z then dir_small_files st + 1
       else dir_small_files st;
     dir_large_files :=
       if (sz <? 64 * 1024 * 1024)%Z then dir_large_files st
       else dir_large_files st + 1;
     avg_file_size := avg_file_size st;
     small_file_ratio := small_file_ratio st |}.

Definition accumulate_directories (file_metadata : list file_info)
    : list (string * dir_stats) :=
  fold_left
    (fun stats f =>
       dict_alter (count_file (get_size f)) (directory_of (get_path f)) stats)
    file_metadata [].

(** The second loop: averages, ratios and the problematic directories. *)
Fixpoint summarize_directories (stats : list (string * dir_stats))
    : result (list (string * dir_stats) * list problematic_directory) :=
  match stats with
  | [] => Ok ([], [])
  | (d, st) :: rest =>
      if (0 <? file_count st)%Z then
        avg ← truediv (inject_Z (total_size st)) (inject_Z (file_count st));
        ratio ← truediv (inject_Z (dir_small_files st))
                  (inject_Z (file_count st));
        let st' :=
          {| file_count := file_count st; total_size := total_size st;
             dir_small_files := dir_small_files st;
             dir_large_files := dir_large_files st;
             avg_file_size := avg; small_file_ratio := Some ratio |} in
        '(stats', problems) ← summarize_directories rest;
        if Qltb 0.7 ratio && (10 <? file_count st)%Z then
          Ok ((d, st') :: stats',
              {| directory := d;
                 issue := "high_small_file_ratio";
                 problem_small_file_ratio := ratio;
                 problem_file_count := file_count st;
                 total_size_mb :=
                   inject_Z (total_size st) / inject_Z (1024 * 1024);
                 optimization_potential := "file_consolidation" |}
              :: problems)
        else Ok ((d, st') :: stats', problems)
      else
        '(stats', problems) ← summarize_directories rest;
        Ok ((d, st) :: stats', problems)
  end.

Definition analyze_directory_structure (file_metadata : list file_info)
    : result directory_analysis :=
  '(stats, problems) ←
    summarize_directories (accumulate_directories file_metadata);
  Ok {| directory_stats := stats;
        problematic_directories := problems;
        total_directories := len stats;
        consolidation_candidates := len problems |}.

(** *** calculate_storage_waste *)

Record storage_waste : Type := {
  total_size_bytes : Z;
  waste_total_size_gb : Q;
  replication_waste_bytes : Z;
  replication_waste_gb : Q;
  empty_file_waste_bytes : Z;
  small_file_overhead_bytes : Z;
  total_waste_bytes : Z;
  waste_percentage : Q
}.

Definition sumZ (l : list Z) : Z := fold_right Z.add 0%Z l.

Definition calculate_storage_waste (file_metadata : list file_info)
    : result storage_waste :=
  let total_size := sumZ (List.map get_size file_metadata) in
  let replication_waste :=
    sumZ (List.map
            (fun f => (get_size f * (get_replication f - 3))%Z)
            (List.filter (fun f => (3 <? get_replication f)%Z) file_metadata)) in
  let empty_file_waste :=
    sumZ (List.map get_block_size
            (List.filter (fun f => (get_size f =? 0)%Z) file_metadata)) in
  let small_file_overhead :=
    (len (List.filter (fun f => (get_size f <? 64 * 1024 * 1024)%Z)
            file_metadata) * 150)%Z in
  let total_waste :=
    (replication_waste + empty_file_waste + small_file_overhead)%Z in
  pct ← (if (0 <? total_size)%Z then
           r ← truediv (inject_Z total_waste) (inject_Z total_size);
           Ok (r * 100)
         else Ok 0);
  Ok {| total_size_bytes := total_size;
        waste_total_size_gb := inject_Z total_size / inject_Z (1024 ^ 3);
        replication_waste_bytes := replication_waste;
        replication_waste_gb := inject_Z replication_waste / inject_Z (1024 ^ 3);
        empty_file_waste_bytes := empty_file_waste;
        small_file_overhead_bytes := small_file_overhead;
        total_waste_bytes := total_waste;
        waste_percentage := pct |}.

(** *** generate_optimization_priority *)

Record optimization : Type := {
  opt_type : string;
  priority : string;
  impact : string;
  affected_files : Z;
  potential_savings_gb : Q;
  description : string
}.

(** [priority_order[tag]] on the literal dict of the source. *)
Definition priority_order (tag : string) : result Z :=
  if String.eqb tag "high" then Ok 3%Z
  else if String.eqb tag "medium" then Ok 2%Z
  else if String.eqb tag "low" then Ok 1%Z
  else Raise (KeyError tag).

(** The sort key [(priority_order[x["priority"]], priority_order[x["impact"]])]. *)
Definition priority_key (x : optimization) : result (Z * Z) :=
  p ← priority_order (priority x);
  i ← priority_order (impact x);
  Ok (p, i).

(** [list.sort] computes every key once, before it compares. *)
Fixpoint decorate (l : list optimization)
    : result (list ((Z * Z) * optimization)) :=
  match l with
  | [] => Ok []
  | x :: l' =>
      k ← priority_key x;
      rest ← decorate l';
      Ok ((k, x) :: rest)
  end.

Definition sort_by_priority (l : list optimization)
    : result (list optimization) :=
  decorated ← decorate l;
  Ok (List.map snd (sort_reverse fst pair_ltb decorated)).

Definition cold_data_migration (cold_data : list cold_record) : optimization :=
  {| opt_type := "cold_data_migration";
     priority := "high";
     impact := "high";
     affected_files := len cold_data;
     potential_savings_gb :=
       inject_Z (sumZ (List.map (fun r => get_size (cold_file r)) cold_data))
       / inject_Z (1024 ^ 3) * 0.7;
     description := "Migrate cold data to cheaper storage tiers" |}.

Definition small_file_consolidation (e : efficiency) : optimization :=
  {| opt_type := "small_file_consolidation";
     priority := "high";
     impact := "medium";
     affected_files := small_files_count e;
     potential_savings_gb := inject_Z (small_files_count e) * 0.001;
     description := "Consolidate small files to reduce metadata overhead" |}.

Definition orphaned_file_cleanup (orphaned : list orphan_record)
    : optimization :=
  {| opt_type := "orphaned_file_cleanup";
     priority := "medium";
     impact := "medium";
     affected_files := len orphaned;
     potential_savings_gb :=
       inject_Z (sumZ (List.map (fun r => get_size (orphan_file r)) orphaned))
       / inject_Z (1024 ^ 3);
     description := "Remove orphaned temporary files" |}.

Definition replication_optimization (e : efficiency) (w : storage_waste)
    : optimization :=
  {| opt_type := "replication_optimization";
     priority := "medium";
     impact := "high";
     affected_files := over_replicated_count e;
     potential_savings_gb := replication_waste_gb w;
     description := "Optimize replication factors to reduce storage waste" |}.

(** The list [optimizations] as the four [if] statements build it. *)
Definition opportunities (cold_data : list cold_record) (e : efficiency)
    (orphaned : list orphan_record) (w : storage_waste) : list optimization :=
  (match cold_data with [] => [] | _ => [cold_data_migration cold_data] end)
  ++ (if (0 <? small_files_count e)%Z then [small_file_consolidation e] else [])
  ++ (match orphaned with [] => [] | _ => [orphaned_file_cleanup orphaned] end)
  ++ (if (0 <? over_replicated_count e)%Z
      then [replication_optimization e w] else []).

Definition generate_optimization_priority (file_metadata : list file_info)
    : M (list optimization) :=
  cold_data ← identify_cold_data file_metadata 180;
  efficiency_analysis ← lift (analyze_file_efficiency file_metadata);
  orphaned_files ← identify_orphaned_temp_files file_metadata;
  let duplicates := detect_duplicate_candidates file_metadata in
  waste_analysis ← lift (calculate_storage_waste file_metadata);
  lift (sort_by_priority
          (opportunities cold_data efficiency_analysis orphaned_files
             waste_analysis)).

End Analyzer.
Import Analyzer.

(** ** Scan results and plan actions: the mappings passed between the endpoints

    Keys that some producer leaves out are [option] fields.  The messages, the
    timestamps and the cluster metrics, which nothing below reads, are left
    out. *)

Module Scan.

(** The ["efficiency_analysis"] sub-mapping as [execute_scan] writes it, with
    the ["inefficient_replication"] key that the calculator looks up there. *)
Record scan_efficiency : Type := {
  se_small_files_count : Z;
  se_small_files_percentage : Q;
  se_empty_files_count : Z;
  se_over_replicated_count : Z;
  se_over_replicated_percentage : Q;
  se_efficiency_summary : efficiency_summary;
  se_inefficient_replication : option (list overrep_record)
}.

Record scan_results : Type := {
  scan_id : string;
  status : option string;
  total_files : option Z;
  scan_total_size_bytes : option Z;
  total_size_gb : option Q;
  cold_data : option (list cold_record);
  duplicate_candidates : option (list duplicate_record);
  small_files : option (list small_record);
  empty_files : option (list empty_record);
  orphaned_files : option (list orphan_record);
  over_replicated_files : option (list overrep_record);
  efficiency_analysis : option scan_efficiency;
  scan_directory_analysis : option directory_analysis;
  waste_analysis : option storage_waste;
  optimization_priorities : option (list optimization)
}.

(** The per-file entries of a plan action. *)
Inductive plan_file : Type :=
| MigrateFile (p : option string) (sz : Z) (size_gb : Q) (days : Q)
    (current_storage_policy : string)
| ReplicationFile (p : option string) (sz : Z) (size_gb : Q)
    (current suggested : Z)
| OrphanedFile (p : option string) (sz : Z) (size_gb : Q) (age : Q)
    (cleanup : string)
| EmptyFile (p : option string) (sz : Z) (cleanup : string).

Definition file_size_gb (f : plan_file) : Q :=
  match f with
  | MigrateFile _ _ g _ _ => g
  | ReplicationFile _ _ g _ _ => g
  | OrphanedFile _ _ g _ _ => g
  | EmptyFile _ _ _ => 0
  end.

Record small_entry : Type := {
  entry_path : string;
  entry_size : Z;
  entry_size_gb : Q
}.

Record plan_directory : Type := {
  dir_path : string;
  dir_entries : list small_entry;
  dir_file_count : Z;
  dir_total_size_gb : Q
}.

Inductive payload : Type :=
| Files (l : list plan_file)
| Directories (l : list plan_directory)
| Steps (l : list string).

(** One element of a plan's ["optimizations"] list. *)
Record action : Type := {
  category : string;
  title : string;
  action_description : string;
  targets : payload;
  estimated_monthly_savings : Q;
  affected_data_gb : Q;
  implementation_complexity : string;
  timeline : string
}.

End Scan.
Import Scan.

(** ** The cost calculator ([cost/calculator.py]) *)

Module Calculator.

Record StorageCosts : Type := {
  standard_storage_cost_per_gb : Q;
  cold_storage_cost_per_gb : Q;
  archive_storage_cost_per_gb : Q;
  replication_multiplier : Q;
  metadata_cost_per_file : Q;
  network_cost_per_gb : Q
}.

(** The dataclass defaults. *)
Definition default_costs : StorageCosts :=
  {| standard_storage_cost_per_gb := 0.04;
     cold_storage_cost_per_gb := 0.01;
     archive_storage_cost_per_gb := 0.005;
     replication_multiplier := 1.0;
     metadata_cost_per_file := 0.0001;
     network_cost_per_gb := 0.01 |}.

Record OptimizationSavings : Type := {
  os_category : string;
  current_cost : Q;
  optimized_cost : Q;
  savings : Q;
  savings_percent : Q;
  os_affected_data_gb : Q;
  implementation_cost : Q;
  annual_savings : Q
}.

Record current_costs : Type := {
  storage_cost : Q;
  metadata_cost : Q;
  small_file_overhead : Q;
  network_cost : Q;
  total_monthly_cost : Q;
  total_annual_cost : Q;
  cost_per_gb : Q
}.

Definition sumQ (l : list Q) : Q := fold_right Qplus 0 l.

(** [sum(file.get("size", 0) for file in files) / (1024 ** 3)]. *)
Definition size_gb_of {A} (file_of : A -> file_info) (files : list A) : Q :=
  inject_Z (sumZ (List.map (fun r => get_size (file_of r)) files))
  / inject_Z (1024 ^ 3).

Section WithCosts.
Variable costs : StorageCosts.

Definition calculate_current_costs (scan : scan_results)
    : result current_costs :=
  let total_size_gb := default 0 (total_size_gb scan) in
  let total_files := default 0%Z (total_files scan) in
  let replication_factor := 3 in
  let storage_cost :=
    total_size_gb * standard_storage_cost_per_gb costs * replication_factor in
  let metadata_cost := inject_Z total_files * metadata_cost_per_file costs in
  let small_files := default [] (small_files scan) in
  let small_file_overhead := inject_Z (len small_files) * 0.001 in
  let network_cost := total_size_gb * 0.005 in
  let total_cost :=
    storage_cost + metadata_cost + small_file_overhead + network_cost in
  per_gb ← (if Qlt_le_dec 0 total_size_gb
            then truediv total_cost total_size_gb else Ok 0);
  Ok {| storage_cost := storage_cost;
        metadata_cost := metadata_cost;
        small_file_overhead := small_file_overhead;
        network_cost := network_cost;
        total_monthly_cost := total_cost;
        total_annual_cost := total_cost * 12;
        cost_per_gb := per_gb |}.

(** [(savings / current_cost) * 100 if current_cost > 0 else 0]. *)
Definition guarded_percent (savings current_cost : Q) : result Q :=
  if Qlt_le_dec 0 current_cost then
    r ← truediv savings current_cost; Ok (r * 100)
  else Ok 0.

Definition _calculate_cold_data_savings (scan : scan_results)
    : result OptimizationSavings :=
  let cold_data := default [] (cold_data scan) in
  let cold_data_size_gb := size_gb_of cold_file cold_data in
  let current_cost :=
    cold_data_size_gb * standard_storage_cost_per_gb costs * 3 in
  let optimized_cost :=
    cold_data_size_gb * cold_storage_cost_per_gb costs * 1.5 in
  let implementation_cost := cold_data_size_gb * network_cost_per_gb costs in
  let savings := current_cost - optimized_cost in
  savings_percent ← guarded_percent savings current_cost;
  Ok {| os_category := "cold_data";
        current_cost := current_cost;
        optimized_cost := optimized_cost;
        savings := savings;
        savings_percent := savings_percent;
        os_affected_data_gb := cold_data_size_gb;
        implementation_cost := implementation_cost;
        annual_savings := savings * 12 |}.

Definition _calculate_small_file_savings (scan : scan_results)
    : result OptimizationSavings :=
  let small_files := default [] (small_files scan) in
  let small_file_count := inject_Z (len small_files) in
  let small_file_size_gb := size_gb_of small_file small_files in
  let current_metadata_cost :=
    small_file_count * metadata_cost_per_file costs * 100 in
  let current_storage_cost :=
    small_file_size_gb * standard_storage_cost_per_gb costs * 3 in
  let current_cost := current_metadata_cost + current_storage_cost in
  let optimized_file_count := small_file_count * 0.1 in
  let optimized_metadata_cost :=
    optimized_file_count * metadata_cost_per_file costs * 100 in
  let optimized_storage_cost :=
    small_file_size_gb * standard_storage_cost_per_gb costs * 3 in
  let optimized_cost := optimized_metadata_cost + optimized_storage_cost in
  let implementation_cost := small_file_count * 0.0001 in
  let savings := current_cost - optimized_cost in
  savings_percent ← guarded_percent savings current_cost;
  Ok {| os_category := "small_files";
        current_cost := current_cost;
        optimized_cost := optimized_cost;
        savings := savings;
        savings_percent := savings_percent;
        os_affected_data_gb := small_file_size_gb;
        implementation_cost := implementation_cost;
        annual_savings := savings * 12 |}.

Definition _calculate_replication_savings (scan : scan_results)
    : result OptimizationSavings :=
  let over_replicated :=
    match efficiency_analysis scan with
    | Some e => default [] (se_inefficient_replication e)
    | None => []
    end in
  let total_size_gb :=
    fold_left
      (fun acc r =>
         acc + inject_Z (get_size (overrep_file r)) / inject_Z (1024 ^ 3))
      over_replicated 0 in
  let current_cost := total_size_gb * standard_storage_cost_per_gb costs * 4 in
  let optimized_cost :=
    total_size_gb * standard_storage_cost_per_gb costs * 3 in
  let savings := current_cost - optimized_cost in
  savings_percent ← guarded_percent savings current_cost;
  Ok {| os_category := "replication";
        current_cost := current_cost;
        optimized_cost := optimized_cost;
        savings := savings;
        savings_percent := savings_percent;
        os_affected_data_gb := total_size_gb;
        implementation_cost := 0;
        annual_savings := savings * 12 |}.

Definition _calculate_cleanup_savings (scan : scan_results)
    : result OptimizationSavings :=
  let orphaned_files := default [] (orphaned_files scan) in
  let orphaned_size_gb := size_gb_of orphan_file orphaned_files in
  let current_storage_cost :=
    orphaned_size_gb * standard_storage_cost_per_gb costs * 3 in
  let current_metadata_cost :=
    inject_Z (len orphaned_files) * metadata_cost_per_file costs in
  let current_cost := current_storage_cost + current_metadata_cost in
  let optimized_cost := 0 in
  let savings := current_cost - optimized_cost in
  let savings_percent := 100.0 in
  Ok {| os_category := "cleanup";
        current_cost := current_cost;
        optimized_cost := optimized_cost;
        savings := savings;
        savings_percent := savings_percent;
        os_affected_data_gb := orphaned_size_gb;
        implementation_cost := 0;
        annual_savings := savings * 12 |}.

Definition _calculate_compression_savings (scan : scan_results)
    : result OptimizationSavings :=
  let total_size_gb := default 0 (total_size_gb scan) in
  let compression_ratio := 0.3 in
  let compressed_size_gb := total_size_gb * (1 - compression_ratio) in
  let current_cost := total_size_gb * standard_storage_cost_per_gb costs * 3 in
  let optimized_cost :=
    compressed_size_gb * standard_storage_cost_per_gb costs * 3 in
  let implementation_cost := total_size_gb * 0.002 in
  let savings := current_cost - optimized_cost in
  savings_percent ← guarded_percent savings current_cost;
  Ok {| os_category := "compression";
        current_cost := current_cost;
        optimized_cost := optimized_cost;
        savings := savings;
        savings_percent := savings_percent;
        os_affected_data_gb := total_size_gb;
        implementation_cost := implementation_cost;
        annual_savings := savings * 12 |}.

(** The category dispatch; [None] is the [continue] of the source. *)
Definition savings_for (scan : scan_results) (cat : string)
    : option (result OptimizationSavings) :=
  if String.eqb cat "cold_data" then Some (_calculate_cold_data_savings scan)
  else if String.eqb cat "small_files"
       then Some (_calculate_small_file_savings scan)
  else if String.eqb cat "replication"
       then Some (_calculate_replication_savings scan)
  else if String.eqb cat "cleanup" then Some (_calculate_cleanup_savings scan)
  else if String.eqb cat "compression"
       then Some (_calculate_compression_savings scan)
  else None.

Fixpoint calculate_optimization_savings (scan : scan_results)
    (optimizations : list action) : result (list OptimizationSavings) :=
  match optimizations with
  | [] => Ok []
  | optimization :: rest =>
      match savings_for scan (category optimization) with
      | Some r =>
          saving ← r;
          savings_list ← calculate_optimization_savings scan rest;
          Ok (saving :: savings_list)
      | None => calculate_optimization_savings scan rest
      end
  end.

(** *** generate_cost_report *)

Record breakdown_entry : Type := {
  be_category : string;
  be_monthly_savings : Q;
  be_annual_savings : Q;
  be_savings_percent : Q;
  be_affected_data_gb : Q;
  be_implementation_cost : Q;
  be_payback_months : xfloat
}.

Record report_summary : Type := {
  rs_total_monthly_savings : Q;
  rs_total_annual_savings : Q;
  rs_total_implementation_cost : Q;
  roi_percent : xfloat;
  payback_months : xfloat;
  optimized_monthly_cost : Q;
  cost_reduction_percent : Q
}.

Record cost_report : Type := {
  report_current_costs : current_costs;
  optimization_breakdown : list breakdown_entry;
  summary : report_summary
}.

(** [a / b if b > 0 else float('inf')]. *)
Definition ratio_or_inf (a b : Q) : result xfloat :=
  if Qlt_le_dec 0 b then r ← truediv a b; Ok (Finite r) else Ok Inf.

Fixpoint breakdown (l : list OptimizationSavings)
    : result (list breakdown_entry) :=
  match l with
  | [] => Ok []
  | saving :: rest =>
      payback ← ratio_or_inf (implementation_cost saving) (savings saving);
      entries ← breakdown rest;
      Ok ({| be_category := os_category saving;
             be_monthly_savings := savings saving;
             be_annual_savings := annual_savings saving;
             be_savings_percent := savings_percent saving;
             be_affected_data_gb := os_affected_data_gb saving;
             be_implementation_cost := implementation_cost saving;
             be_payback_months := payback |} :: entries)
  end.

Definition generate_cost_report (scan : scan_results)
    (optimizations : list action) : result cost_report :=
  costs_now ← calculate_current_costs scan;
  optimization_savings ← calculate_optimization_savings scan optimizations;
  let total_savings := sumQ (List.map savings optimization_savings) in
  let total_implementation_cost :=
    sumQ (List.map implementation_cost optimization_savings) in
  let total_annual_savings :=
    sumQ (List.map annual_savings optimization_savings) in
  let total_current_cost := total_monthly_cost costs_now in
  roi_months ← ratio_or_inf total_implementation_cost total_savings;
  roi_pct ← (if Qlt_le_dec 0 total_implementation_cost
             then r ← truediv total_annual_savings total_implementation_cost;
                  Ok (Finite (r * 100))
             else Ok Inf);
  entries ← breakdown optimization_savings;
  reduction ← guarded_percent total_savings total_current_cost;
  Ok {| report_current_costs := costs_now;
        optimization_breakdown := entries;
        summary :=
          {| rs_total_monthly_savings := total_savings;
             rs_total_annual_savings := total_annual_savings;
             rs_total_implementation_cost := total_implementation_cost;
             roi_percent := roi_pct;
             payback_months := roi_months;
             optimized_monthly_cost := total_current_cost - total_savings;
             cost_reduction_percent := reduction |} |}.

(** *** estimate_storage_growth *)

Record projection : Type := {
  year : Z;
  projected_size_gb : Q;
  projected_monthly_cost : Q;
  projected_annual_cost : Q
}.

Record growth_estimate : Type := {
  current_size_gb : Q;
  growth_rate_percent : Q;
  projections : list projection;
  three_year_total_cost : Q
}.

(** The body of [for year in range(1, 4)], over the years still to do. *)
Fixpoint project_years (current_size_gb rate monthly_cost : Q)
    (years : list Z) : result (list projection) :=
  match years with
  | [] => Ok []
  | y :: rest =>
      let projected_size := current_size_gb * (1 + rate / 100) ^ y in
      ratio ← truediv projected_size current_size_gb;
      let projected_monthly_cost := ratio * monthly_cost in
      projections ← project_years current_size_gb rate monthly_cost rest;
      Ok ({| year := y;
             projected_size_gb := projected_size;
             projected_monthly_cost := projected_monthly_cost;
             projected_annual_cost := projected_monthly_cost * 12 |}
          :: projections)
  end.

Definition estimate_storage_growth (scan : scan_results) (rate : Q)
    : result growth_estimate :=
  let current_size_gb := default 0 (total_size_gb scan) in
  costs_now ← calculate_current_costs scan;
  projections ←
    project_years current_size_gb rate (total_monthly_cost costs_now)
      [1; 2; 3]%Z;
  Ok {| current_size_gb := current_size_gb;
        growth_rate_percent := rate;
        projections := projections;
        three_year_total_cost :=
          sumQ (List.map projected_annual_cost projections) |}.

End WithCosts.

End Calculator.
Import Calculator.

(** ** The endpoints ([endpoints/scan.py], [endpoints/optimize.py]) *)

Module Endpoints.

(** What the advisory client returns. *)
Record recommendation : Type := {
  rec_title : option string;
  rec_description : option string;
  rec_category : option string;
  rec_estimated_savings_gb : option Q;
  rec_implementation_complexity : option string;
  rec_timeline : option string;
  rec_steps : option (list string)
}.

Record llm_analysis : Type := {
  recommendations : option (list recommendation)
}.

Record optimization_plan : Type := {
  plan_id : string;
  optimizations : list action;
  total_monthly_savings : Q;
  total_annual_savings : Q;
  plan_affected_data_gb : Q;
  estimated_implementation_time : string
}.

Record results_summary : Type := {
  sum_total_monthly_savings : Q;
  sum_total_annual_savings : Q;
  sum_total_implementation_cost : Q;
  roi_months : xfloat;
  sum_affected_data_gb : Q
}.

Record completed_optimization : Type := {
  co_optimization_id : string;
  co_scan_id : string;
  co_status : string;
  co_llm_analysis : llm_analysis;
  co_current_costs : current_costs;
  co_optimization_plan : optimization_plan;
  co_optimization_savings : list OptimizationSavings;
  co_cost_report : cost_report;
  co_summary : results_summary
}.

Inductive optimization_results : Type :=
| Completed (r : completed_optimization)
| Failed (optimization_id scan_id status error : string).

Record stored_plan : Type := {
  sp_plan : optimization_plan;
  sp_status : string
}.

(** The process-wide dictionaries of the three endpoint modules, and the
    clock. *)
Record server : Type := {
  the_clock : clock;
  scan_results_storage : gmap string scan_results;
  optimization_results_storage : gmap string optimization_results;
  script_storage : gmap string stored_plan
}.

Definition E (A : Type) : Type := server -> result A * server.

#[global] Instance E_ret : MRet E := fun A a st => (Ok a, st).
#[global] Instance E_bind : MBind E :=
  fun A B f m st =>
    match m st with
    | (Ok a, st') => f a st'
    | (Raise e, st') => (Raise e, st')
    end.

Definition raise {A} (e : exn) : E A := fun st => (Raise e, st).
Definition pure {A} (r : result A) : E A := fun st => (r, st).

Definition with_clock {A} (m : M A) : E A :=
  fun st =>
    let '(r, w) := m (the_clock st) in
    (r, {| the_clock := w;
           scan_results_storage := scan_results_storage st;
           optimization_results_storage := optimization_results_storage st;
           script_storage := script_storage st |}).

(** [str(e)]. *)
Definition str_of_exn (e : exn) : string :=
  match e with
  | ZeroDivisionError => "division by zero"
  | ValueError msg => msg
  | KeyError k => "'" ++ k ++ "'"
  end.

(** [try: body except Exception as e: handler(e); raise]. *)
Definition try_except_reraise {A} (body : E A) (handler : exn -> server -> server)
    : E A :=
  fun st =>
    match body st with
    | (Ok a, st') => (Ok a, st')
    | (Raise e, st') => (Raise e, handler e st')
    end.

(** *** scan.py *)

Definition store_scan (id : string) (r : scan_results) : E unit :=
  fun st =>
    (Ok tt,
     {| the_clock := the_clock st;
        scan_results_storage := <[id := r]> (scan_results_storage st);
        optimization_results_storage := optimization_results_storage st;
        script_storage := script_storage st |}).

Definition empty_scan (id : string) : scan_results :=
  {| scan_id := id; status := Some "completed"%string;
     total_files := Some 0%Z; scan_total_size_bytes := None;
     total_size_gb := Some 0;
     cold_data := Some []; duplicate_candidates := Some [];
     small_files := Some []; empty_files := None;
     orphaned_files := Some []; over_replicated_files := None;
     efficiency_analysis := None; scan_directory_analysis := None;
     waste_analysis := None; optimization_priorities := None |}.

Definition failed_scan (id : string) (e : exn) : scan_results :=
  {| scan_id := id; status := Some "failed"%string;
     total_files := Some 0%Z; scan_total_size_bytes := None;
     total_size_gb := Some 0;
     cold_data := Some []; duplicate_candidates := Some [];
     small_files := Some []; empty_files := None;
     orphaned_files := Some []; over_replicated_files := None;
     efficiency_analysis := None; scan_directory_analysis := None;
     waste_analysis := None; optimization_priorities := None |}.

(** [execute_scan] from the point where the HDFS client has delivered
    [all_files]; [id] is the [uuid4] drawn at the start. *)
Definition execute_scan (id : string) (all_files : list file_info)
    : E scan_results :=
  try_except_reraise
    (match all_files with
     | [] => mret (empty_scan id)
     | _ =>
         cold ← with_clock (identify_cold_data all_files 180);
         let duplicates := detect_duplicate_candidates all_files in
         eff ← pure (analyze_file_efficiency all_files);
         orphaned ← with_clock (identify_orphaned_temp_files all_files);
         dirs ← pure (analyze_directory_structure all_files);
         waste ← pure (calculate_storage_waste all_files);
         priorities ← with_clock (generate_optimization_priority all_files);
         let total := sumZ (List.map get_size all_files) in
         let results :=
           {| scan_id := id; status := Some "completed"%string;
              total_files := Some (len all_files);
              scan_total_size_bytes := Some total;
              total_size_gb := Some (inject_Z total / inject_Z (1024 ^ 3));
              cold_data := Some cold;
              duplicate_candidates := Some duplicates;
              small_files := Some (eff_small_files eff);
              empty_files := Some (eff_empty_files eff);
              orphaned_files := Some orphaned;
              over_replicated_files := Some (inefficient_replication eff);
              efficiency_analysis :=
                Some {| se_small_files_count := small_files_count eff;
                        se_small_files_percentage := small_files_percentage eff;
                        se_empty_files_count := empty_files_count eff;
                        se_over_replicated_count := over_replicated_count eff;
                        se_over_replicated_percentage :=
                          over_replicated_percentage eff;
                        se_efficiency_summary := eff_summary eff;
                        se_inefficient_replication := None |};
              scan_directory_analysis := Some dirs;
              waste_analysis := Some waste;
              optimization_priorities := Some priorities |} in
         _ ← store_scan id results;
         mret results
     end)
    (fun e st =>
       {| the_clock := the_clock st;
          scan_results_storage :=
            <[id := failed_scan id e]> (scan_results_storage st);
          optimization_results_storage := optimization_results_storage st;
          script_storage := script_storage st |}).

Definition get_scan_results (id : string) : E scan_results :=
  fun st =>
    match scan_results_storage st !! id with
    | Some r => (Ok r, st)
    | None => (Raise (ValueError ("Scan results not found for ID: " ++ id)), st)
    end.

(** *** optimize.py: the plan builder *)

Definition savings_gb (r : recommendation) : Q :=
  default 0 (rec_estimated_savings_gb r).

Definition gb (sz : Z) : Q := inject_Z sz / inject_Z (1024 ^ 3).

Definition _create_cold_data_optimization (scan : scan_results)
    (r : recommendation) : option action :=
  let cold := default [] (cold_data scan) in
  let files_to_migrate :=
    List.map
      (fun f =>
         MigrateFile (path (cold_file f)) (get_size (cold_file f))
           (gb (get_size (cold_file f))) (days_since_access f) "HOT")
      (List.filter (fun f => Qltb 90 (days_since_access f)) cold) in
  match files_to_migrate with
  | [] => None
  | _ =>
      Some {| category := "cold_data";
              title := default "Cold Data Migration"%string (rec_title r);
              action_description :=
                default "Migrate cold data to cheaper storage"%string
                  (rec_description r);
              targets := Files files_to_migrate;
              estimated_monthly_savings := savings_gb r * 0.03;
              affected_data_gb := sumQ (List.map file_size_gb files_to_migrate);
              implementation_complexity :=
                default "medium"%string (rec_implementation_complexity r);
              timeline := default "1-2 weeks"%string (rec_timeline r) |}
  end.

(** The directory grouping of [_create_small_files_optimization]; unlike the
    analyzer it joins the split path without looking for a ["/"] first. *)
Definition directory_groups (small : list small_record)
    : list (string * list small_entry) :=
  fold_left
    (fun groups f =>
       let p := get_path (small_file f) in
       dict_append String.eqb (join "/" (but_last (split "/" p)))
         {| entry_path := p;
            entry_size := get_size (small_file f);
            entry_size_gb := gb (get_size (small_file f)) |}
         groups)
    small [].

Definition _create_small_files_optimization (scan : scan_results)
    (r : recommendation) : option action :=
  let small := default [] (small_files scan) in
  let directories_to_consolidate :=
    List.map
      (fun g : string * list small_entry =>
         {| dir_path := fst g;
            dir_entries := snd g;
            dir_file_count := len (snd g);
            dir_total_size_gb := sumQ (List.map entry_size_gb (snd g)) |})
      (List.filter (fun g : string * list small_entry => (10 <=? len (snd g))%Z)
         (directory_groups small)) in
  match directories_to_consolidate with
  | [] => None
  | _ =>
      Some {| category := "small_files";
              title := default "Small Files Consolidation"%string (rec_title r);
              action_description :=
                default "Consolidate small files to reduce overhead"%string
                  (rec_description r);
              targets := Directories directories_to_consolidate;
              estimated_monthly_savings := inject_Z (len small) * 0.001;
              affected_data_gb :=
                sumQ (List.map dir_total_size_gb directories_to_consolidate);
              implementation_complexity :=
                default "high"%string (rec_implementation_complexity r);
              timeline := default "1 month"%string (rec_timeline r) |}
  end.

Definition _create_replication_optimization (scan : scan_results)
    (r : recommendation) : option action :=
  let over_replicated := default [] (over_replicated_files scan) in
  let files_to_optimize :=
    List.map
      (fun f =>
         ReplicationFile (path (overrep_file f)) (get_size (overrep_file f))
           (gb (get_size (overrep_file f)))
           (current_replication f) (suggested_replication f))
      over_replicated in
  match files_to_optimize with
  | [] => None
  | _ =>
      Some {| category := "replication";
              title := default "Replication Optimization"%string (rec_title r);
              action_description :=
                default "Optimize replication factors"%string
                  (rec_description r);
              targets := Files files_to_optimize;
              estimated_monthly_savings := savings_gb r * 0.04;
              affected_data_gb := sumQ (List.map file_size_gb files_to_optimize);
              implementation_complexity :=
                default "low"%string (rec_implementation_complexity r);
              timeline := default "immediate"%string (rec_timeline r) |}
  end.

Definition _create_cleanup_optimization (scan : scan_results)
    (r : recommendation) : option action :=
  let orphaned := default [] (orphaned_files scan) in
  let empty := default [] (empty_files scan) in
  let files_to_delete :=
    List.map
      (fun f =>
         OrphanedFile (path (orphan_file f)) (get_size (orphan_file f))
           (gb (get_size (orphan_file f))) (age_days f) (cleanup_priority f))
      orphaned
    ++ List.map
         (fun f =>
            EmptyFile (path (empty_file f)) (get_size (empty_file f)) "low")
         empty in
  match files_to_delete with
  | [] => None
  | _ =>
      Some {| category := "cleanup";
              title := default "File Cleanup"%string (rec_title r);
              action_description :=
                default "Remove unnecessary files"%string (rec_description r);
              targets := Files files_to_delete;
              estimated_monthly_savings :=
                sumQ (List.map file_size_gb files_to_delete) * 0.04 * 3;
              affected_data_gb := sumQ (List.map file_size_gb files_to_delete);
              implementation_complexity :=
                default "low"%string (rec_implementation_complexity r);
              timeline := default "immediate"%string (rec_timeline r) |}
  end.

Definition _create_generic_optimization (scan : scan_results)
    (r : recommendation) : option action :=
  Some {| category := default "generic"%string (rec_category r);
          title := default "Generic Optimization"%string (rec_title r);
          action_description := default ""%string (rec_description r);
          targets := Steps (default [] (rec_steps r));
          estimated_monthly_savings := savings_gb r * 0.04;
          affected_data_gb := savings_gb r;
          implementation_complexity :=
            default "medium"%string (rec_implementation_complexity r);
          timeline := default "1-2 weeks"%string (rec_timeline r) |}.

Definition complexity_weight (tag : string) : Z :=
  if String.eqb tag "low" then 1
  else if String.eqb tag "medium" then 2
  else if String.eqb tag "high" then 3
  else 2.

Definition _estimate_implementation_time (l : list action) : string :=
  let total_complexity :=
    sumZ (List.map (fun a => complexity_weight (implementation_complexity a)) l) in
  if (total_complexity <=? 3)%Z then "1-2 weeks"
  else if (total_complexity <=? 6)%Z then "1 month"
  else "2-3 months".

Definition action_for (scan : scan_results) (r : recommendation)
    : option action :=
  let cat := default "unknown"%string (rec_category r) in
  if String.eqb cat "cold_data" then _create_cold_data_optimization scan r
  else if String.eqb cat "small_files"
       then _create_small_files_optimization scan r
  else if String.eqb cat "replication"
       then _create_replication_optimization scan r
  else if String.eqb cat "cleanup" then _create_cleanup_optimization scan r
  else _create_generic_optimization scan r.

(** [id] is the [uuid4] drawn for the plan. *)
Definition _create_optimization_plan (id : string) (scan : scan_results)
    (analysis : llm_analysis) : optimization_plan :=
  let llm_recommendations := default [] (recommendations analysis) in
  let actions := omap (action_for scan) llm_recommendations in
  let total := sumQ (List.map estimated_monthly_savings actions) in
  {| plan_id := id;
     optimizations := actions;
     total_monthly_savings := total;
     total_annual_savings := total * 12;
     plan_affected_data_gb := sumQ (List.map affected_data_gb actions);
     estimated_implementation_time := _estimate_implementation_time actions |}.

Definition _calculate_roi_months (l : list OptimizationSavings)
    : result xfloat :=
  let total_savings := sumQ (List.map savings l) in
  let total_implementation_cost := sumQ (List.map implementation_cost l) in
  if Qlt_le_dec 0 total_savings then
    r ← truediv total_implementation_cost total_savings; Ok (Finite r)
  else Ok Inf.

(** *** optimize.py: generate_recommendations *)

Definition store_results (id : string) (r : optimization_results) : E unit :=
  fun st =>
    (Ok tt,
     {| the_clock := the_clock st;
        scan_results_storage := scan_results_storage st;
        optimization_results_storage :=
          <[id := r]> (optimization_results_storage st);
        script_storage := script_storage st |}).

Definition store_optimization_plan (id : string) (plan : optimization_plan)
    : E unit :=
  fun st =>
    (Ok tt,
     {| the_clock := the_clock st;
        scan_results_storage := scan_results_storage st;
        optimization_results_storage := optimization_results_storage st;
        script_storage :=
          <[id := {| sp_plan := plan; sp_status := "ready" |}]>
            (script_storage st) |}).

Section WithCollaborators.
(** The configured calculator and the advisory client, whose answer (or
    failure) is outside the program. *)
Variable costs : StorageCosts.
Variable analyze_hdfs_cost_optimization : scan_results -> result llm_analysis.

(** [optimization_id] and [new_plan_id] are the two [uuid4] draws.  The
    [created_at] stamps and the unordered [optimization_categories] list of
    the summary are left out. *)
Definition generate_recommendations (id optimization_id new_plan_id : string)
    : E optimization_results :=
  try_except_reraise
    (scan ← get_scan_results id;
     if negb (bool_decide (status scan = Some "completed"%string)) then
       raise (ValueError ("Scan " ++ id ++ " is not completed or failed"))
     else
       costs_now ← pure (calculate_current_costs costs scan);
       analysis ← pure (analyze_hdfs_cost_optimization scan);
       let plan := _create_optimization_plan new_plan_id scan analysis in
       optimization_savings ←
         pure (calculate_optimization_savings costs scan (optimizations plan));
       report ← pure (generate_cost_report costs scan (optimizations plan));
       roi ← pure (_calculate_roi_months optimization_savings);
       let results :=
         Completed
           {| co_optimization_id := optimization_id;
              co_scan_id := id;
              co_status := "completed";
              co_llm_analysis := analysis;
              co_current_costs := costs_now;
              co_optimization_plan := plan;
              co_optimization_savings := optimization_savings;
              co_cost_report := report;
              co_summary :=
                {| sum_total_monthly_savings :=
                     sumQ (List.map savings optimization_savings);
                   sum_total_annual_savings :=
                     sumQ (List.map annual_savings optimization_savings);
                   sum_total_implementation_cost :=
                     sumQ (List.map implementation_cost optimization_savings);
                   roi_months := roi;
                   sum_affected_data_gb :=
                     sumQ (List.map os_affected_data_gb
                             optimization_savings) |} |} in
       _ ← store_results optimization_id results;
       _ ← store_optimization_plan optimization_id plan;
       mret results)
    (fun e st =>
       {| the_clock := the_clock st;
          scan_results_storage := scan_results_storage st;
          optimization_results_storage :=
            <[optimization_id :=
                Failed optimization_id id "failed" (str_of_exn e)]>
              (optimization_results_storage st);
          script_storage := script_storage st |}).

End WithCollaborators.

End Endpoints.
Import Endpoints.

(** ** Looking results up again ([scan.py], [optimize.py], [generate_script.py]) *)

Module Stores.

(** [optimize.get_optimization_results]. *)
Definition get_optimization_results (optimization_id : string)
    : E optimization_results :=
  fun st =>
    match optimization_results_storage st !! optimization_id with
    | Some r => (Ok r, st)
    | None =>
        (Raise (ValueError ("Optimization results not found for ID: "
                            ++ optimization_id)), st)
    end.

(** [HDFSScriptGenerator.get_optimization_plan]. *)
Definition get_optimization_plan (id : string) : E optimization_plan :=
  fun st =>
    match script_storage st !! id with
    | Some stored => (Ok (sp_plan stored), st)
    | None => (Raise (ValueError ("Optimization plan not found: " ++ id)), st)
    end.

(** [scan.delete_scan_results]. *)
Definition delete_scan_results (id : string) : E bool :=
  fun st =>
    match scan_results_storage st !! id with
    | Some _ =>
        (Ok true,
         {| the_clock := the_clock st;
            scan_results_storage := delete id (scan_results_storage st);
            optimization_results_storage := optimization_results_storage st;
            script_storage := script_storage st |})
    | None => (Ok false, st)
    end.

End Stores.
Import Stores.

(** ** Efficiency metrics of the summary ([endpoints/summary.py]) *)

Module Summary.

(** [max(a, b)]: the first argument unless the second is strictly greater. *)
Definition py_max (a b : Q) : Q := if Qlt_le_dec a b then b else a.

Definition _get_file_size_recommendation (avg_file_size_mb : Q) : string :=
  if Qlt_le_dec avg_file_size_mb 1 then "Consider consolidating small files"
  else if Qlt_le_dec avg_file_size_mb 64
       then "File sizes are below optimal range"
  else if Qle_bool avg_file_size_mb 1024 then "File sizes are in optimal range"
  else "Consider splitting large files".

(** The result of [_calculate_efficiency_metrics]; of the
    ["storage_utilization"] entry only the recommendation is kept, the
    formatted average and the constant range text are left out. *)
Record efficiency_metrics : Type := {
  average_file_size_mb : Q;
  efficiency_score : Q;
  em_small_files_percentage : Q;
  em_over_replicated_percentage : Q;
  em_empty_files_count : Z;
  em_recommendation : string
}.

Definition _calculate_efficiency_metrics (scan : scan_results)
    : result efficiency_metrics :=
  let total_files := default 0%Z (total_files scan) in
  let total_size_gb := default 0 (total_size_gb scan) in
  let small_pct :=
    match efficiency_analysis scan with
    | Some e => se_small_files_percentage e | None => 0
    end in
  let over_pct :=
    match efficiency_analysis scan with
    | Some e => se_over_replicated_percentage e | None => 0
    end in
  let empty_count :=
    match efficiency_analysis scan with
    | Some e => se_empty_files_count e | None => 0%Z
    end in
  avg_file_size_mb ←
    (if (0 <? total_files)%Z
     then truediv (total_size_gb * 1024) (inject_Z total_files) else Ok 0);
  let small_file_penalty := py_min small_pct 50 in
  let over_replication_penalty := py_min over_pct 30 in
  let score := py_max 0 (100 - small_file_penalty - over_replication_penalty) in
  Ok {| average_file_size_mb := avg_file_size_mb;
        efficiency_score := score;
        em_small_files_percentage := small_pct;
        em_over_replicated_percentage := over_pct;
        em_empty_files_count := empty_count;
        em_recommendation := _get_file_size_recommendation avg_file_size_mb |}.

End Summary.
Import Summary.

(** ** Batches of the directory scan ([hdfs/client.py]) *)

Module Client.

(** The loop of [scan_directory_batch] over the outcomes of
    [analyze_file_metadata] for the walked files, in walk order: [None] is the
    empty mapping of a file whose status could not be read.  [results] is the
    batch being filled; the list returned is the sequence of yielded batches. *)
Fixpoint batch_loop {A} (results : list A) (infos : list (option A))
    : list (list A) :=
  match infos with
  | [] => match results with [] => [] | _ => [results] end
  | None :: rest => batch_loop results rest
  | Some file_info :: rest =>
      if (1000 <=? len (results ++ [file_info]))%Z
      then (results ++ [file_info]) :: batch_loop [] rest
      else batch_loop (results ++ [file_info]) rest
  end.

Definition scan_directory_batch {A} (infos : list (option A)) : list (list A) :=
  batch_loop [] infos.

(** [for batch in ...: all_files.extend(batch)] in [execute_scan]. *)
Definition extend_all {A} (batches : list (list A)) : list A :=
  fold_left (fun all_files batch => all_files ++ batch) batches [].

End Client.
Import Client.

(** ** Vocabulary of the statements *)

Module Spec.

(** The clock after one more reading. *)
Definition tick (w : clock) : clock :=
  {| reading := reading w; samples := S (samples w) |}.

(** The reading the next [now_ms] returns. *)
Definition next_reading (w : clock) : Q := reading w (samples w).

(** [access_time < now_ms - threshold_days * ms_per_day]. *)
Definition is_cold (now : Q) (threshold_days : Z) (f : file_info) : bool :=
  Qltb (inject_Z (get_access_time f))
    (now - inject_Z (threshold_days * ms_per_day)).

Definition days_since (now : Q) (f : file_info) : Q :=
  (now - inject_Z (get_access_time f)) / inject_Z ms_per_day.

(** A cold record whose score is capped at [1.0]. *)
Definition capped_cold (now : Q) (f : file_info) : cold_record :=
  {| cold_file := f;
     cold_classification := "cold";
     days_since_access := days_since now f;
     cold_score := 1 |}.

(** *** Sample inputs *)

Definition mk_file (p : string) (sz rep atime mtime : Z) : file_info :=
  {| path := Some p; size := Some sz; replication := Some rep;
     access_time := Some atime; modification_time := Some mtime;
     block_size := None; owner := None; group := None |}.

(** A clock that shows [t] at every reading. *)
Definition steady_clock (t : Q) : clock :=
  {| reading := fun _ => t; samples := 0 |}.

(** A clock that starts at [t] and advances by [step] between readings. *)
Definition running_clock (t step : Q) : clock :=
  {| reading := fun n => t + inject_Z (Z.of_nat n) * step; samples := 0 |}.

(** *** Ranks of the priority and impact tags *)

Definition tag_rank (tag : string) : Z :=
  match priority_order tag with Ok z => z | Raise _ => 0%Z end.

Definition rank (o : optimization) : Z * Z :=
  (tag_rank (priority o), tag_rank (impact o)).

Definition same_rank (k : Z * Z) (o : optimization) : bool :=
  (fst (rank o) =? fst k)%Z && (snd (rank o) =? snd k)%Z.

Definition tagged (o : optimization) (ty pr im : string) : Prop :=
  opt_type o = ty /\ priority o = pr /\ impact o = im.

(** The entry of a category, present only when the category is non-empty. *)
Definition entry (present : bool) (o : optimization) : list optimization :=
  if present then [o] else [].

Definition nonempty {A} (l : list A) : bool :=
  match l with [] => false | _ => true end.

(** *** Size and replication classes *)

Definition is_empty (f : file_info) : bool := (get_size f =? 0)%Z.

(** The [elif] branch of [analyze_file_efficiency]: not empty and below 64MiB. *)
Definition is_small (f : file_info) : bool :=
  negb (get_size f =? 0)%Z && (get_size f <? 64 * 1024 * 1024)%Z.


(** [size < 64MiB], empty files included. *)
Definition below_block (f : file_info) : bool :=
  (get_size f <? 64 * 1024 * 1024)%Z.

Definition is_over_replicated (f : file_info) : bool :=
  (3 <? get_replication f)%Z.

(** Both tags are among the keys of [priority_order]. *)
Definition well_tagged (o : optimization) : Prop := priority_key o = Ok (rank o).

(** *** The savings percentage of the formulas

    [savings / current_cost * 100] when [current_cost > 0], and 0 otherwise. *)
Definition percent_of (s : OptimizationSavings) : Q :=
  if Qlt_le_dec 0 (current_cost s)
  then savings s / current_cost s * 100 else 0.

(** *** Scenario A: one recently accessed 200MiB file *)

Definition scenario_a_file (t mtime : Z) : file_info :=
  mk_file "/data/a.parquet" (200 * 1024 * 1024) 3 t mtime.

(** A server that has stored nothing yet. *)
Definition fresh_server (w : clock) : server :=
  {| the_clock := w;
     scan_results_storage := ∅;
     optimization_results_storage := ∅;
     script_storage := ∅ |}.

(** *** Calling a classifier twice *)

(** Two consecutive calls on the same clock; the second call sees the clock
    the first one left. *)
Definition call_twice {A} (f : M A) : M (A * A) :=
  x ← f; y ← f; mret (x, y).

(** A server that holds one failed scan. *)
Definition server_with_failed_scan (id : string) : server :=
  {| the_clock := steady_clock 0;
     scan_results_storage := {[ id := failed_scan id ZeroDivisionError ]};
     optimization_results_storage := ∅;
     script_storage := ∅ |}.

(** The advisory client answering without recommendations. *)
Definition silent_advisor (scan : scan_results) : result llm_analysis :=
  Ok {| recommendations := None |}.

(** *** Files of one size *)

(** The input files of size [k], in input order. *)
Definition same_size (k : Z) (files : list file_info) : list file_info :=
  List.filter (fun f => (get_size f =? k)%Z) files.

(** One round of the grouping loop of [detect_duplicate_candidates]. *)
Definition group_step (groups : list (Z * list file_info)) (f : file_info)
    : list (Z * list file_info) :=
  if (0 <? get_size f)%Z then dict_append Z.eqb (get_size f) f groups else groups.

(** *** The directory table *)

(** The statistics of a directory after the second loop of
    [analyze_directory_structure]. *)
Definition summarized (st : dir_stats) : dir_stats :=
  if (0 <? file_count st)%Z then
    {| file_count := file_count st; total_size := total_size st;
       dir_small_files := dir_small_files st;
       dir_large_files := dir_large_files st;
       avg_file_size := inject_Z (total_size st) / inject_Z (file_count st);
       small_file_ratio :=
         Some (inject_Z (dir_small_files st) / inject_Z (file_count st)) |}
  else st.

(** More than 70 percent small files among more than 10 files. *)
Definition is_problematic (st : dir_stats) : bool :=
  (0 <? file_count st)%Z
  && Qltb 0.7 (inject_Z (dir_small_files st) / inject_Z (file_count st))
  && (10 <? file_count st)%Z.

Definition problem_of (d : string) (st : dir_stats) : problematic_directory :=
  {| directory := d;
     issue := "high_small_file_ratio";
     problem_small_file_ratio :=
       inject_Z (dir_small_files st) / inject_Z (file_count st);
     problem_file_count := file_count st;
     total_size_mb := inject_Z (total_size st) / inject_Z (1024 * 1024);
     optimization_potential := "file_consolidation" |}.

(** The per-directory counters, summed over the table. *)
Definition table_sum (field : dir_stats -> Z) (d : list (string * dir_stats)) : Z :=
  sumZ (List.map (fun p => field (snd p)) d).

(** A directory of the table holds at least one file, and its small and large
    files are all its files. *)
Definition counted (st : dir_stats) : Prop :=
  (1 <= file_count st)%Z
  /\ (dir_small_files st + dir_large_files st = file_count st)%Z
  /\ (0 <= dir_small_files st)%Z.

(** *** Categories the calculator knows *)

Definition known_category (cat : string) : bool :=
  String.eqb cat "cold_data" || String.eqb cat "small_files"
  || String.eqb cat "replication" || String.eqb cat "cleanup"
  || String.eqb cat "compression".

(** *** Entries of the cost report *)

(** [implementation_cost / savings if savings > 0 else float('inf')]. *)
Definition payback_of (implementation savings : Q) : xfloat :=
  if Qlt_le_dec 0 savings then Finite (implementation / savings) else Inf.

Definition breakdown_entry_of (s : OptimizationSavings) : breakdown_entry :=
  {| be_category := os_category s;
     be_monthly_savings := savings s;
     be_annual_savings := annual_savings s;
     be_savings_percent := savings_percent s;
     be_affected_data_gb := os_affected_data_gb s;
     be_implementation_cost := implementation_cost s;
     be_payback_months := payback_of (implementation_cost s) (savings s) |}.

(** The failure entry [generate_recommendations] records for [e]. *)
Definition record_failure (optimization_id id : string) (e : exn) (st : server)
    : server :=
  {| the_clock := the_clock st;
     scan_results_storage := scan_results_storage st;
     optimization_results_storage :=
       <[optimization_id := Failed optimization_id id "failed" (str_of_exn e)]>
         (optimization_results_storage st);
     script_storage := script_storage st |}.

(** A server that holds the one scan [scan] under its id. *)
Definition server_with_scan (scan : scan_results) : server :=
  {| the_clock := steady_clock 0;
     scan_results_storage := {[ scan_id scan := scan ]};
     optimization_results_storage := ∅;
     script_storage := ∅ |}.

(** *** Plan entries *)

(** The entry [_create_cold_data_optimization] builds for a cold record. *)
Definition migrate_of (c : cold_record) : plan_file :=
  MigrateFile (path (cold_file c)) (get_size (cold_file c))
    (gb (get_size (cold_file c))) (days_since_access c) "HOT".

(** The parent directory as [_create_small_files_optimization] computes it. *)
Definition parent_of (p : string) : string := join "/" (but_last (split "/" p)).

Definition small_entry_of (f : small_record) : small_entry :=
  {| entry_path := get_path (small_file f);
     entry_size := get_size (small_file f);
     entry_size_gb := gb (get_size (small_file f)) |}.

(** The four categories with a constructor of their own in the plan builder. *)
Definition planned_category (cat : string) : bool :=
  String.eqb cat "cold_data" || String.eqb cat "small_files"
  || String.eqb cat "replication" || String.eqb cat "cleanup".

(** *** ASCII text *)

(** [s.isascii()]: every character is below 128.  On such a string [lower] is
    [str.lower()]; outside ASCII Python folds more characters than [lower]
    does, so the statements about temp patterns are made for ASCII paths. *)
Fixpoint isascii (s : string) : bool :=
  match s with
  | EmptyString => true
  | String c s' => (nat_of_ascii c <? 128)%nat && isascii s'
  end.

(** *** Scans without negative sizes *)

(** Every size a savings formula reads is non-negative. *)
Definition nonneg_sizes (scan : scan_results) : Prop :=
  0 <= default 0 (total_size_gb scan)
  /\ Forall (fun r => (0 <= get_size (cold_file r))%Z)
       (default [] (cold_data scan))
  /\ Forall (fun r => (0 <= get_size (small_file r))%Z)
       (default [] (small_files scan))
  /\ Forall (fun r => (0 <= get_size (orphan_file r))%Z)
       (default [] (orphaned_files scan))
  /\ Forall (fun r => (0 <= get_size (overrep_file r))%Z)
       (match efficiency_analysis scan with
        | Some e => default [] (se_inefficient_replication e)
        | None => []
        end).

(** What the statements on savings say of one formula's result: it did not
    raise, the optimized cost lies between 0 and the current cost, the savings
    are not negative and the percentage lies between 0 and 100. *)
Definition within_bounds (r : result OptimizationSavings) : Prop :=
  exists s,
    r = Ok s
    /\ 0 <= optimized_cost s <= current_cost s
    /\ 0 <= savings s <= current_cost s
    /\ 0 <= savings_percent s <= 100.

(** *** Entries of the cleanup action *)

Definition orphaned_entry_of (o : orphan_record) : plan_file :=
  OrphanedFile (path (orphan_file o)) (get_size (orphan_file o))
    (gb (get_size (orphan_file o))) (age_days o) (cleanup_priority o).

Definition empty_entry_of (e : empty_record) : plan_file :=
  EmptyFile (path (empty_file e)) (get_size (empty_file e)) "low".

(** The entry of the replication action for an input file. *)
Definition replication_entry_of (f : file_info) : plan_file :=
  ReplicationFile (path f) (get_size f) (gb (get_size f)) (get_replication f) 3.

(** *** Directories of the small-files action *)

(** The distinct elements of [l], each at its first occurrence: the order in
    which a dict filled along [l] holds its keys. *)
Fixpoint first_occurrences {K} (eqb : K -> K -> bool) (l : list K) : list K :=
  match l with
  | [] => []
  | x :: rest =>
      x :: List.filter (fun y => negb (eqb y x)) (first_occurrences eqb rest)
  end.

(** The small files whose parent directory is [d], in scan order. *)
Definition small_in (d : string) (small : list small_record)
    : list small_record :=
  List.filter (fun f => String.eqb (parent_of (get_path (small_file f))) d) small.

(** The parent directories of the small files, in order of first appearance. *)
Definition small_parents (small : list small_record) : list string :=
  first_occurrences String.eqb
    (List.map (fun f => parent_of (get_path (small_file f))) small).

(** The entry of the small-files action for the directory [d]. *)
Definition consolidation_of (small : list small_record) (d : string)
    : plan_directory :=
  {| dir_path := d;
     dir_entries := List.map small_entry_of (small_in d small);
     dir_file_count := len (small_in d small);
     dir_total_size_gb :=
       sumQ (List.map entry_size_gb (List.map small_entry_of (small_in d small))) |}.

(** *** A sample scan result: 100 GB in 10 files *)

Definition hundred_gb_scan : scan_results :=
  {| scan_id := "s"; status := Some "completed"%string;
     total_files := Some 10%Z; scan_total_size_bytes := None;
     total_size_gb := Some 100;
     cold_data := None; duplicate_candidates := None;
     small_files := None; empty_files := None; orphaned_files := None;
     over_replicated_files := None; efficiency_analysis := None;
     scan_directory_analysis := None; waste_analysis := None;
     optimization_priorities := None |}.

End Spec.
Import Spec.

(** ** Facts about the Python primitives *)

Section PrimitiveFacts.

Lemma truediv_nonzero (x y : Q) : ~ y == 0 -> truediv x y = Ok (x / y).
Proof.
  intros Hy. unfold truediv. destruct (Qeq_dec y 0) as [E | _]; [contradiction | reflexivity].
Qed.

Lemma truediv_zero (x y : Q) : y == 0 -> truediv x y = Raise ZeroDivisionError.
Proof.
  intros Hy. unfold truediv. destruct (Qeq_dec y 0) as [_ | N]; [reflexivity | contradiction].
Qed.

Lemma py_min_capped (x : Q) : 1 < x -> py_min x 1 = 1.
Proof.
  intros Hx. unfold py_min. destruct (Qlt_le_dec 1 x) as [_ | Hle]; [reflexivity |].
  exfalso. apply (Qlt_irrefl 1). eapply Qlt_le_trans; eassumption.
Qed.

Lemma Qltb_true (x y : Q) : Qltb x y = true <-> x < y.
Proof.
  unfold Qltb. destruct (Qlt_le_dec x y) as [H | H]; split; intros H'; try easy.
  exfalso. apply (Qlt_irrefl x). eapply Qlt_le_trans; eassumption.
Qed.

Lemma Qltb_irrefl (x : Q) : Qltb x x = false.
Proof.
  destruct (Qltb x x) eqn:E; [| reflexivity].
  apply Qltb_true in E. exfalso. exact (Qlt_irrefl _ E).
Qed.

End PrimitiveFacts.

(** ** Facts about [list.sort(key=..., reverse=True)] *)

Section SortFacts.
Context {A K : Type} (key : A -> K) (ltb : K -> K -> bool).

Lemma insert_desc_perm (x : A) (l : list A) :
  Permutation (insert_desc key ltb x l) (x :: l).
Proof.
  induction l as [| y l IH]; simpl.
  - apply Permutation_refl.
  - destruct (ltb (key x) (key y)).
    + eapply Permutation_trans; [apply perm_skip, IH | apply perm_swap].
    + apply Permutation_refl.
Qed.

Lemma sort_reverse_perm (l : list A) :
  Permutation (sort_reverse key ltb l) l.
Proof.
  induction l as [| x l IH]; simpl.
  - apply perm_nil.
  - eapply Permutation_trans; [apply insert_desc_perm | apply perm_skip, IH].
Qed.

(** Records of one key class never overtake each other. *)
Lemma insert_desc_filter (P : A -> bool) (x : A) (l : list A) :
  (forall y z, P y = true -> P z = true -> not_below key ltb y z) ->
  List.filter P (insert_desc key ltb x l) = List.filter P (x :: l).
Proof.
  intros HP. induction l as [| y l IH]; [reflexivity |].
  simpl insert_desc. destruct (ltb (key x) (key y)) eqn:Hlt; [| reflexivity].
  simpl in *. rewrite IH.
  destruct (P x) eqn:Px, (P y) eqn:Py; try reflexivity.
  specialize (HP x y Px Py). unfold not_below in HP. congruence.
Qed.

Lemma sort_reverse_stable (P : A -> bool) (l : list A) :
  (forall y z, P y = true -> P z = true -> not_below key ltb y z) ->
  List.filter P (sort_reverse key ltb l) = List.filter P l.
Proof.
  intros HP. induction l as [| x l IH]; [reflexivity |].
  simpl sort_reverse. rewrite insert_desc_filter by exact HP.
  simpl. rewrite IH. reflexivity.
Qed.

(** A list that is already descending is returned as it is. *)
Lemma sort_reverse_sorted (l : list A) :
  StronglySorted (not_below key ltb) l -> sort_reverse key ltb l = l.
Proof.
  induction 1 as [| x l Hs IH Hx]; [reflexivity |].
  simpl. rewrite IH. destruct l as [| y l]; [reflexivity |].
  simpl. inversion Hx as [| ? ? Hxy _]; subst.
  unfold not_below in Hxy. rewrite Hxy. reflexivity.
Qed.

Section Order.
Hypothesis ltb_asym : forall a b, ltb a b = true -> ltb b a = false.
Hypothesis not_ltb_trans :
  forall a b c, ltb a b = false -> ltb b c = false -> ltb a c = false.

Lemma insert_desc_sorted (x : A) (l : list A) :
  StronglySorted (not_below key ltb) l ->
  StronglySorted (not_below key ltb) (insert_desc key ltb x l).
Proof.
  induction 1 as [| y l Hs IH Hy]; simpl.
  - constructor; constructor.
  - destruct (ltb (key x) (key y)) eqn:Hlt.
    + constructor; [exact IH |].
      apply (Permutation_Forall (Permutation_sym (insert_desc_perm x l))).
      constructor; [| exact Hy].
      apply ltb_asym, Hlt.
    + constructor; [constructor; assumption |].
      constructor; [exact Hlt |].
      eapply List.Forall_impl; [| exact Hy].
      intros z Hz. eapply not_ltb_trans; [exact Hlt | exact Hz].
Qed.

Lemma sort_reverse_descending (l : list A) :
  StronglySorted (not_below key ltb) (sort_reverse key ltb l).
Proof.
  induction l as [| x l IH]; simpl; [constructor |].
  apply insert_desc_sorted, IH.
Qed.
End Order.

End SortFacts.

(** ** Cold-data identification *)

Section ColdFacts.

Lemma threshold_ms (thr : Z) :
  (thr * 24 * 60 * 60 * 1000)%Z = (thr * ms_per_day)%Z.
Proof. unfold ms_per_day. lia. Qed.

Lemma identify_cold_data_run (files : list file_info) (thr : Z) (w : clock) :
  identify_cold_data files thr w
  = (identify_cold_data_at (next_reading w) files thr, tick w).
Proof. reflexivity. Qed.

Lemma ms_per_day_pos : 0 < inject_Z ms_per_day.
Proof. reflexivity. Qed.

(** A cold record has been idle for more than the threshold, so its ratio
    exceeds one and the score is capped. *)
Lemma cold_ratio_above_one (now : Q) (thr : Z) (f : file_info) :
  (0 < thr)%Z -> is_cold now thr f = true ->
  1 < days_since now f / inject_Z thr.
Proof.
  intros Hthr Hcold. apply Qltb_true in Hcold.
  rewrite inject_Z_mult in Hcold.
  assert (Ht : 0 < inject_Z thr)
    by (change 0 with (inject_Z 0); rewrite <- Zlt_Qlt; exact Hthr).
  pose proof ms_per_day_pos as Hd.
  unfold days_since.
  apply Qlt_shift_div_l; [exact Ht |].
  apply Qlt_shift_div_l; [exact Hd |].
  lra.
Qed.

Lemma cold_loop_positive_threshold (now : Q) (thr : Z) (files : list file_info) :
  (0 < thr)%Z ->
  cold_loop now (now - inject_Z (thr * ms_per_day)) thr files
  = Ok (List.map (capped_cold now) (List.filter (is_cold now thr) files)).
Proof.
  intros Hthr. induction files as [| f files IH]; [reflexivity |].
  simpl cold_loop. simpl List.filter. unfold is_cold at 1, Qltb.
  destruct (Qlt_le_dec (inject_Z (get_access_time f))
              (now - inject_Z (thr * ms_per_day))) as [Hc | Hc].
  - rewrite truediv_nonzero.
    + rewrite IH. simpl. f_equal. f_equal. unfold capped_cold. f_equal.
      apply py_min_capped. apply cold_ratio_above_one; [exact Hthr |].
      apply Qltb_true. exact Hc.
    + intros E. apply (proj1 (inject_Z_injective thr 0)) in E. lia.
  - exact IH.
Qed.

Lemma capped_scores_descending (now : Q) (files : list file_info) :
  StronglySorted (not_below cold_score Qltb) (List.map (capped_cold now) files).
Proof.
  induction files as [| f files IH]; simpl; constructor; [exact IH |].
  apply List.Forall_forall. intros r Hr. apply List.in_map_iff in Hr.
  destruct Hr as [g [<- _]]. unfold not_below. simpl. apply Qltb_irrefl.
Qed.

(** With a positive threshold the call returns, in input order, exactly the
    records below the cutoff, each with the capped score. *)
Lemma identify_cold_data_positive_threshold
    (now : Q) (thr : Z) (files : list file_info) :
  (0 < thr)%Z ->
  identify_cold_data_at now files thr
  = Ok (List.map (capped_cold now) (List.filter (is_cold now thr) files)).
Proof.
  intros Hthr. unfold identify_cold_data_at.
  rewrite threshold_ms, cold_loop_positive_threshold by exact Hthr.
  simpl. f_equal. apply sort_reverse_sorted, capped_scores_descending.
Qed.

(** The same in the words of the specification: the records returned are
    exactly those below the cutoff, in input order; each carries
    [min(days_since_access / threshold_days, 1.0)]; the list is descending by
    score. *)
Lemma identify_cold_data_positive_threshold_spec
    (now : Q) (thr : Z) (files : list file_info) :
  (0 < thr)%Z ->
  exists cold,
    identify_cold_data_at now files thr = Ok cold
    /\ List.map cold_file cold = List.filter (is_cold now thr) files
    /\ Forall (fun r =>
                 days_since_access r = days_since now (cold_file r)
                 /\ cold_score r
                    = py_min (days_since_access r / inject_Z thr) 1) cold
    /\ StronglySorted (not_below cold_score Qltb) cold.
Proof.
  intros Hthr. rewrite identify_cold_data_positive_threshold by exact Hthr.
  eexists. split; [reflexivity |]. split; [| split].
  - rewrite List.map_map. simpl. apply List.map_id.
  - apply List.Forall_forall. intros r Hr. apply List.in_map_iff in Hr.
    destruct Hr as [f [<- Hf]]. apply List.filter_In in Hf.
    destruct Hf as [_ Hcold]. split; [reflexivity |]. simpl.
    symmetry. apply py_min_capped, cold_ratio_above_one; assumption.
  - apply capped_scores_descending.
Qed.

Lemma cold_loop_zero_threshold (now : Q) (files : list file_info) :
  Exists (fun f => inject_Z (get_access_time f) < now) files ->
  cold_loop now (now - inject_Z 0) 0 files = Raise ZeroDivisionError.
Proof.
  induction files as [| f files IH]; intros Hex.
  - inversion Hex.
  - simpl cold_loop.
    destruct (Qlt_le_dec (inject_Z (get_access_time f)) (now - inject_Z 0))
      as [Hc | Hc].
    + reflexivity.
    + apply IH. inversion Hex as [? ? Hf | ? ? Hrest]; subst; [| exact Hrest].
      exfalso. change (inject_Z 0) with 0 in Hc. lra.
Qed.

End ColdFacts.

(** C3 (the failing case): with [cold_threshold_days = 0] every file accessed
    before the clock reading is below the cutoff, and as soon as one such file
    is in the collection the call divides [days_since_access] by zero and
    raises [ZeroDivisionError] instead of returning the cold records. *)
Theorem identify_cold_data_zero_threshold_raises
    (files : list file_info) (w : clock) :
  Exists (fun f => inject_Z (get_access_time f) < next_reading w) files ->
  identify_cold_data files 0 w = (Raise ZeroDivisionError, tick w).
Proof.
  intros Hex. rewrite identify_cold_data_run. f_equal.
  unfold identify_cold_data_at. simpl Z.mul.
  rewrite cold_loop_zero_threshold by exact Hex. reflexivity.
Qed.

Lemma identify_cold_data_zero_threshold_raises_witness :
  Exists (fun f => inject_Z (get_access_time f) < next_reading (steady_clock 1))
    [mk_file "/data/old.csv" 10 3 0 0]
  /\ identify_cold_data [mk_file "/data/old.csv" 10 3 0 0] 0 (steady_clock 1)
     = (Raise ZeroDivisionError, tick (steady_clock 1)).
Proof.
  split.
  - constructor. reflexivity.
  - apply identify_cold_data_zero_threshold_raises. constructor. reflexivity.
Defined.

(** C10 (the failing case): a record with the unknown access time 0 and
    [cold_threshold_days = 0], which satisfies [0 * ms_per_day < now_ms] on every
    clock past the epoch, is below the cutoff; the call then raises
    [ZeroDivisionError] and assigns no score at all.  This is the unguarded
    division behind C3. *)
Theorem unknown_access_time_zero_threshold_raises
    (files : list file_info) (f : file_info) (w : clock) :
  In f files -> get_access_time f = 0%Z ->
  inject_Z (0 * ms_per_day) < next_reading w ->
  fst (identify_cold_data files 0 w) = Raise ZeroDivisionError.
Proof.
  intros Hin Hat Hnow. rewrite identify_cold_data_run. simpl fst.
  unfold identify_cold_data_at. simpl Z.mul.
  rewrite cold_loop_zero_threshold; [reflexivity |].
  apply List.Exists_exists. exists f. split; [exact Hin |].
  rewrite Hat. exact Hnow.
Qed.

Lemma unknown_access_time_zero_threshold_raises_witness :
  fst (identify_cold_data
         [{| path := Some "/data/x"%string; size := Some 5%Z;
             replication := Some 3%Z; access_time := None;
             modification_time := None; block_size := None;
             owner := None; group := None |}] 0 (steady_clock 1700000000000))
  = Raise ZeroDivisionError.
Proof.
  eapply unknown_access_time_zero_threshold_raises.
  - left. reflexivity.
  - reflexivity.
  - reflexivity.
Defined.

(** With a positive threshold below the clock reading, a record with the
    unknown access time 0 is returned with the capped score 1. *)
Lemma unknown_access_time_capped
    (now : Q) (thr : Z) (files : list file_info) (f : file_info) :
  (0 < thr)%Z -> inject_Z (thr * ms_per_day) < now ->
  In f files -> get_access_time f = 0%Z ->
  exists cold,
    identify_cold_data_at now files thr = Ok cold
    /\ In (capped_cold now f) cold
    /\ Forall (fun r => cold_score r = 1) cold.
Proof.
  intros Hthr Hnow Hin Hat.
  rewrite identify_cold_data_positive_threshold by exact Hthr.
  eexists. split; [reflexivity |]. split.
  - apply List.in_map, List.filter_In. split; [exact Hin |].
    unfold is_cold. apply Qltb_true. rewrite Hat.
    change (inject_Z 0) with 0. lra.
  - apply List.Forall_forall. intros r Hr. apply List.in_map_iff in Hr.
    destruct Hr as [g [<- _]]. reflexivity.
Qed.

(** ** File efficiency and storage waste *)

Section EfficiencyFacts.

Lemma inject_Z_nonzero (z : Z) : z <> 0%Z -> ~ inject_Z z == 0.
Proof. intros Hz E. apply (proj1 (inject_Z_injective z 0)) in E. contradiction. Qed.

Lemma percentage_total (count total : Z) : exists q, percentage count total = Ok q.
Proof.
  unfold percentage. destruct (0 <? total)%Z eqn:Hpos.
  - rewrite truediv_nonzero by (apply inject_Z_nonzero; lia).
    eexists. reflexivity.
  - eexists. reflexivity.
Qed.

Lemma efficiency_loop_spec (files : list file_info) :
  efficiency_loop files
  = (List.map mk_small (List.filter is_small files),
     List.map mk_overrep (List.filter is_over_replicated files),
     List.map mk_empty (List.filter is_empty files)).
Proof.
  induction files as [| f files IH]; [reflexivity |].
  simpl. rewrite IH. unfold is_small, is_empty, is_over_replicated.
  destruct (get_size f =? 0)%Z, (get_size f <? 64 * 1024 * 1024)%Z,
    (3 <? get_replication f)%Z; reflexivity.
Qed.

(** [analyze_file_efficiency] never raises, and its three lists are the three
    filters of the input. *)
Lemma analyze_file_efficiency_total (files : list file_info) :
  exists e,
    analyze_file_efficiency files = Ok e
    /\ eff_small_files e = List.map mk_small (List.filter is_small files)
    /\ inefficient_replication e
       = List.map mk_overrep (List.filter is_over_replicated files)
    /\ eff_empty_files e = List.map mk_empty (List.filter is_empty files)
    /\ small_files_count e = len (eff_small_files e)
    /\ over_replicated_count e = len (inefficient_replication e)
    /\ empty_files_count e = len (eff_empty_files e).
Proof.
  unfold analyze_file_efficiency. rewrite efficiency_loop_spec.
  destruct (percentage_total
              (len (List.map mk_small (List.filter is_small files))) (len files))
    as [q1 ->].
  destruct (percentage_total
              (len (List.map mk_overrep (List.filter is_over_replicated files)))
              (len files)) as [q2 ->].
  eexists. split; [reflexivity |]. simpl. repeat split.
Qed.

Lemma calculate_storage_waste_total (files : list file_info) :
  exists r,
    calculate_storage_waste files = Ok r
    /\ small_file_overhead_bytes r
       = (len (List.filter below_block files) * 150)%Z.
Proof.
  unfold calculate_storage_waste.
  destruct (0 <? sumZ (List.map get_size files))%Z eqn:Hpos.
  - rewrite truediv_nonzero by (apply inject_Z_nonzero; lia).
    eexists. split; reflexivity.
  - eexists. split; reflexivity.
Qed.

(** A file below 64MiB is either empty or small, never both. *)
Lemma below_block_split (files : list file_info) :
  len (List.filter below_block files)
  = (len (List.filter is_small files) + len (List.filter is_empty files))%Z.
Proof.
  unfold len. induction files as [| f files IH]; [reflexivity |].
  simpl. unfold below_block at 1, is_small at 1, is_empty at 1.
  destruct (get_size f =? 0)%Z eqn:E0, (get_size f <? 64 * 1024 * 1024)%Z eqn:E1;
    simpl; try lia.
Qed.

End EfficiencyFacts.



(** ** The priority ranking *)

Section RankingFacts.

Lemma pair_ltb_asym (a b : Z * Z) : pair_ltb a b = true -> pair_ltb b a = false.
Proof.
  destruct a as [a1 a2], b as [b1 b2]. unfold pair_ltb. simpl.
  destruct (Z.ltb_spec a1 b1), (Z.eqb_spec a1 b1), (Z.ltb_spec a2 b2),
    (Z.ltb_spec b1 a1), (Z.eqb_spec b1 a1), (Z.ltb_spec b2 a2);
    simpl; intros; try reflexivity; try discriminate; lia.
Qed.

Lemma pair_ltb_not_trans (a b c : Z * Z) :
  pair_ltb a b = false -> pair_ltb b c = false -> pair_ltb a c = false.
Proof.
  destruct a as [a1 a2], b as [b1 b2], c as [c1 c2]. unfold pair_ltb. simpl.
  destruct (Z.ltb_spec a1 b1), (Z.eqb_spec a1 b1), (Z.ltb_spec a2 b2),
    (Z.ltb_spec b1 c1), (Z.eqb_spec b1 c1), (Z.ltb_spec b2 c2),
    (Z.ltb_spec a1 c1), (Z.eqb_spec a1 c1), (Z.ltb_spec a2 c2);
    simpl; intros; try reflexivity; try discriminate; lia.
Qed.

(** Sorting the decorated list and dropping the keys is sorting by the key. *)
Lemma insert_decorated {A K} (key : A -> K) (ltb : K -> K -> bool)
    (x : A) (l : list A) :
  insert_desc fst ltb (key x, x) (List.map (fun y => (key y, y)) l)
  = List.map (fun y => (key y, y)) (insert_desc key ltb x l).
Proof.
  induction l as [| y l IH]; [reflexivity |].
  simpl. destruct (ltb (key x) (key y)); [| reflexivity].
  simpl. rewrite IH. reflexivity.
Qed.

Lemma sort_decorated {A K} (key : A -> K) (ltb : K -> K -> bool) (l : list A) :
  List.map snd (sort_reverse fst ltb (List.map (fun y => (key y, y)) l))
  = sort_reverse key ltb l.
Proof.
  assert (H : sort_reverse fst ltb (List.map (fun y => (key y, y)) l)
              = List.map (fun y => (key y, y)) (sort_reverse key ltb l)).
  { induction l as [| x l IH]; [reflexivity |].
    simpl. rewrite IH. apply insert_decorated. }
  rewrite H, List.map_map. simpl. apply List.map_id.
Qed.

Lemma decorate_well_tagged (l : list optimization) :
  Forall well_tagged l -> decorate l = Ok (List.map (fun o => (rank o, o)) l).
Proof.
  induction 1 as [| o l Ho _ IH]; [reflexivity |].
  simpl. rewrite Ho, IH. reflexivity.
Qed.

Lemma sort_by_priority_well_tagged (l : list optimization) :
  Forall well_tagged l ->
  sort_by_priority l = Ok (sort_reverse rank pair_ltb l).
Proof.
  intros H. unfold sort_by_priority. rewrite decorate_well_tagged by exact H.
  simpl. f_equal. apply sort_decorated.
Qed.

Lemma entry_well_tagged (present : bool) (o : optimization) :
  well_tagged o -> Forall well_tagged (entry present o).
Proof. intros H. destruct present; simpl; constructor; [exact H | constructor]. Qed.

Lemma opportunities_entries (cold : list cold_record) (e : efficiency)
    (orphaned : list orphan_record) (w : storage_waste) :
  opportunities cold e orphaned w
  = entry (nonempty cold) (cold_data_migration cold)
    ++ entry (0 <? small_files_count e)%Z (small_file_consolidation e)
    ++ entry (nonempty orphaned) (orphaned_file_cleanup orphaned)
    ++ entry (0 <? over_replicated_count e)%Z (replication_optimization e w).
Proof. unfold opportunities. destruct cold, orphaned; reflexivity. Qed.

Lemma opportunities_well_tagged (cold : list cold_record) (e : efficiency)
    (orphaned : list orphan_record) (w : storage_waste) :
  Forall well_tagged (opportunities cold e orphaned w).
Proof.
  rewrite opportunities_entries.
  repeat (apply List.Forall_app; split); apply entry_well_tagged; reflexivity.
Qed.

(** The four keys are pairwise different, so the order after sorting is fixed:
    (3,3), (3,2), (2,3), (2,2). *)
Lemma opportunities_sorted (cold : list cold_record) (e : efficiency)
    (orphaned : list orphan_record) (w : storage_waste) :
  sort_reverse rank pair_ltb (opportunities cold e orphaned w)
  = entry (nonempty cold) (cold_data_migration cold)
    ++ entry (0 <? small_files_count e)%Z (small_file_consolidation e)
    ++ entry (0 <? over_replicated_count e)%Z (replication_optimization e w)
    ++ entry (nonempty orphaned) (orphaned_file_cleanup orphaned).
Proof.
  rewrite opportunities_entries.
  destruct (nonempty cold), (0 <? small_files_count e)%Z, (nonempty orphaned),
    (0 <? over_replicated_count e)%Z; reflexivity.
Qed.

Lemma generate_optimization_priority_run (files : list file_info) (w : clock)
    (cold : list cold_record) (e : efficiency) (waste : storage_waste) :
  identify_cold_data_at (next_reading w) files 180 = Ok cold ->
  analyze_file_efficiency files = Ok e ->
  calculate_storage_waste files = Ok waste ->
  generate_optimization_priority files w
  = (sort_by_priority
       (opportunities cold e
          (identify_orphaned_temp_files_at (next_reading (tick w)) files) waste),
     tick (tick w)).
Proof.
  intros Hc He Hw. unfold generate_optimization_priority.
  unfold mbind, M_bind. rewrite identify_cold_data_run, Hc.
  unfold lift. rewrite He. simpl. rewrite Hw. reflexivity.
Qed.

End RankingFacts.

(** C9: [generate_optimization_priority] returns, for every input and clock,
    one entry per non-empty category with the fixed type, priority and impact
    tags, sorted descending by [(priority_rank, impact_rank)] with high = 3,
    medium = 2, low = 1, entries of equal rank keeping the construction order
    cold, small files, orphaned, replication. *)
Theorem generate_optimization_priority_ranked
    (files : list file_info) (w : clock) :
  exists cold eff waste ranked,
    identify_cold_data_at (next_reading w) files 180 = Ok cold
    /\ analyze_file_efficiency files = Ok eff
    /\ calculate_storage_waste files = Ok waste
    /\ generate_optimization_priority files w = (Ok ranked, tick (tick w))
    /\ let orphaned :=
         identify_orphaned_temp_files_at (next_reading (tick w)) files in
       let c := cold_data_migration cold in
       let s := small_file_consolidation eff in
       let o := orphaned_file_cleanup orphaned in
       let r := replication_optimization eff waste in
       let built :=
         entry (nonempty cold) c
         ++ entry (0 <? small_files_count eff)%Z s
         ++ entry (nonempty orphaned) o
         ++ entry (0 <? over_replicated_count eff)%Z r in
       tagged c "cold_data_migration" "high" "high"
       /\ tagged s "small_file_consolidation" "high" "medium"
       /\ tagged o "orphaned_file_cleanup" "medium" "medium"
       /\ tagged r "replication_optimization" "medium" "high"
       /\ tag_rank "high" = 3%Z /\ tag_rank "medium" = 2%Z /\ tag_rank "low" = 1%Z
       /\ Permutation ranked built
       /\ StronglySorted (not_below rank pair_ltb) ranked
       /\ (forall k,
             List.filter (same_rank k) ranked = List.filter (same_rank k) built).
Proof.
  destruct (analyze_file_efficiency_total files) as [eff [He _]].
  destruct (calculate_storage_waste_total files) as [waste [Hw _]].
  pose proof (identify_cold_data_positive_threshold (next_reading w) 180 files
                ltac:(lia)) as Hc.
  eexists. exists eff, waste. eexists.
  split; [exact Hc |]. split; [exact He |]. split; [exact Hw |].
  split.
  - rewrite (generate_optimization_priority_run _ _ _ _ _ Hc He Hw).
    rewrite sort_by_priority_well_tagged by apply opportunities_well_tagged.
    reflexivity.
  - cbv zeta. rewrite <- opportunities_entries.
    repeat (split; [repeat split |]).
    + apply sort_reverse_perm.
    + apply sort_reverse_descending.
      * intros a b. apply pair_ltb_asym.
      * intros a b c0. apply pair_ltb_not_trans.
    + intros k. apply sort_reverse_stable.
      intros y z Hy Hz. unfold not_below, same_rank in *.
      destruct (rank y) as [y1 y2], (rank z) as [z1 z2], k as [k1 k2].
      unfold pair_ltb. simpl in *.
      apply andb_prop in Hy, Hz. destruct Hy as [Hy1 Hy2], Hz as [Hz1 Hz2].
      apply Z.eqb_eq in Hy1, Hy2, Hz1, Hz2. subst.
      rewrite Z.ltb_irrefl, Z.eqb_refl, Z.ltb_irrefl. reflexivity.
Qed.

(** Since the four ranks differ pairwise, the ranked list always reads cold,
    small files, replication, orphaned. *)
Lemma generate_optimization_priority_order
    (files : list file_info) (w : clock)
    (cold : list cold_record) (eff : efficiency) (waste : storage_waste) :
  identify_cold_data_at (next_reading w) files 180 = Ok cold ->
  analyze_file_efficiency files = Ok eff ->
  calculate_storage_waste files = Ok waste ->
  fst (generate_optimization_priority files w)
  = Ok (entry (nonempty cold) (cold_data_migration cold)
        ++ entry (0 <? small_files_count eff)%Z (small_file_consolidation eff)
        ++ entry (0 <? over_replicated_count eff)%Z
             (replication_optimization eff waste)
        ++ entry
             (nonempty
                (identify_orphaned_temp_files_at (next_reading (tick w)) files))
             (orphaned_file_cleanup
                (identify_orphaned_temp_files_at (next_reading (tick w)) files))).
Proof.
  intros Hc He Hw.
  rewrite (generate_optimization_priority_run _ _ _ _ _ Hc He Hw). simpl fst.
  rewrite sort_by_priority_well_tagged by apply opportunities_well_tagged.
  rewrite opportunities_sorted. reflexivity.
Qed.

(** ** Paths and directories *)

Section PathFacts.

Lemma split_not_nil (sep : ascii) (s : string) : split sep s <> [].
Proof.
  destruct s as [| c s]; simpl; [discriminate |].
  destruct (Ascii.eqb c sep); [discriminate |].
  destruct (split sep s); discriminate.
Qed.

Lemma append_assoc (a b c : string) :
  ((a ++ b) ++ c)%string = (a ++ (b ++ c))%string.
Proof.
  induction a as [| x a IH]; [reflexivity |].
  change (String x ((a ++ b) ++ c) = String x (a ++ (b ++ c)))%string.
  rewrite IH. reflexivity.
Qed.

Lemma concat_cons (sep x : string) (xs : list string) :
  xs <> [] ->
  String.concat sep (x :: xs) = (x ++ sep ++ String.concat sep xs)%string.
Proof. destruct xs; [contradiction | reflexivity]. Qed.

Lemma concat_head_char (sep : string) (c : ascii) (x : string)
    (xs : list string) :
  String.concat sep (String c x :: xs) = String c (String.concat sep (x :: xs)).
Proof. destruct xs; reflexivity. Qed.

(** Joining what was split gives the string back. *)
Lemma join_split (sep : ascii) (s : string) :
  join (String sep EmptyString) (split sep s) = s.
Proof.
  unfold join. induction s as [| c s IH]; [reflexivity |].
  simpl split. destruct (Ascii.eqb_spec c sep) as [-> | Hne].
  - rewrite concat_cons by apply split_not_nil. rewrite IH. reflexivity.
  - destruct (split sep s) as [| seg segs] eqn:E.
    + exfalso. exact (split_not_nil sep s E).
    + rewrite concat_head_char, IH. reflexivity.
Qed.

Lemma contains_slash_cons (c : ascii) (s : string) :
  contains "/" (String c s) = Ascii.eqb c "/" || contains "/" s.
Proof.
  change (contains "/" (String c s))
    with (String.prefix "/" (String c s) || contains "/" s).
  f_equal.
  change (String.prefix "/" (String c s))
    with (if ascii_dec "/" c then String.prefix "" s else false).
  destruct (ascii_dec "/" c) as [<- | Hne]; [destruct s; reflexivity |].
  destruct (Ascii.eqb_spec c "/") as [-> | _]; [contradiction | reflexivity].
Qed.

(** A name without a slash is a single segment. *)
Lemma split_no_slash (s : string) :
  contains "/" s = false -> split "/" s = [s].
Proof.
  induction s as [| c s IH]; [reflexivity |].
  rewrite contains_slash_cons. intros H. apply orb_false_elim in H.
  destruct H as [Hc Hs]. simpl. rewrite Hc, (IH Hs). reflexivity.
Qed.

Lemma contains_split_length (s : string) :
  contains "/" s = true <-> (2 <= length (split "/" s))%nat.
Proof.
  induction s as [| c s IH].
  - simpl. split; [discriminate | lia].
  - rewrite contains_slash_cons. simpl split.
    destruct (Ascii.eqb c "/") eqn:Hc; simpl orb.
    + pose proof (split_not_nil "/" s). destruct (split "/" s); [contradiction |].
      simpl. split; [lia | reflexivity].
    + pose proof (split_not_nil "/" s).
      destruct (split "/" s) as [| seg segs]; [contradiction |].
      simpl in *. exact IH.
Qed.

(** A joined list of two or more segments is the joined front, a separator and
    the last segment. *)
Lemma join_but_last (sep : string) (l : list string) :
  (2 <= length l)%nat ->
  join sep l = (join sep (but_last l) ++ sep ++ List.last l "")%string.
Proof.
  unfold join, but_last. induction l as [| a l IH]; simpl length; [lia |].
  intros Hlen. destruct l as [| b l]; [simpl in Hlen; lia |].
  destruct l as [| c l].
  - reflexivity.
  - change (String.concat sep (a :: b :: c :: l))
      with (a ++ sep ++ String.concat sep (b :: c :: l))%string.
    rewrite IH by (simpl; lia).
    change (removelast (a :: b :: c :: l)) with (a :: removelast (b :: c :: l)).
    change (List.last (a :: b :: c :: l) ""%string)
      with (List.last (b :: c :: l) ""%string).
    destruct (removelast (b :: c :: l)) as [| d l'] eqn:E.
    + simpl in E. destruct l; discriminate.
    + change (String.concat sep (a :: d :: l'))
        with (a ++ sep ++ String.concat sep (d :: l'))%string.
      rewrite !append_assoc. reflexivity.
Qed.

(** For a path that has a slash, the directory is the path without its final
    segment and the slash before it. *)
Lemma directory_of_prefix (p : string) :
  contains "/" p = true ->
  p = (directory_of p ++ "/" ++ List.last (split "/" p) "")%string.
Proof.
  intros H. unfold directory_of. rewrite H.
  rewrite <- join_but_last by (apply contains_split_length; exact H).
  symmetry. apply (join_split "/").
Qed.

(** A file directly under the root gets the empty string as its directory. *)
Lemma directory_of_root_file (name : string) :
  contains "/" name = false -> directory_of ("/" ++ name) = ""%string.
Proof.
  intros H. unfold directory_of.
  change ("/" ++ name)%string with (String "/" name).
  rewrite contains_slash_cons. simpl orb. simpl split.
  rewrite (split_no_slash name H). reflexivity.
Qed.

Lemma summarize_directories_total (stats : list (string * dir_stats)) :
  exists r, summarize_directories stats = Ok r.
Proof.
  induction stats as [| [d st] stats [[stats' problems] IH]]; simpl.
  - eexists. reflexivity.
  - destruct (0 <? file_count st)%Z eqn:Hpos.
    + rewrite !truediv_nonzero by (apply inject_Z_nonzero; lia).
      cbn [mbind result_bind]. rewrite IH. cbn [mbind result_bind].
      match goal with |- context [if ?b then _ else _] => destruct b end;
        eexists; reflexivity.
    + rewrite IH. eexists. reflexivity.
Qed.

(** The directory analysis never raises: empty directories are not created and
    the divisions are guarded. *)
Lemma analyze_directory_structure_total (files : list file_info) :
  exists r, analyze_directory_structure files = Ok r.
Proof.
  unfold analyze_directory_structure.
  destruct (summarize_directories_total (accumulate_directories files))
    as [[stats problems] ->].
  eexists. reflexivity.
Qed.

(** *** The insertion-ordered directory table *)

Lemma dict_get_alter_same (g : dir_stats -> dir_stats) (k : string)
    (d : list (string * dir_stats)) :
  dict_get k (dict_alter g k d)
  = Some (g (default fresh_stats (dict_get k d))).
Proof.
  induction d as [| [k' v] d IH]; simpl.
  - rewrite String.eqb_refl. reflexivity.
  - destruct (String.eqb k' k) eqn:E; simpl; rewrite E; [reflexivity | exact IH].
Qed.

Lemma dict_get_alter_other (g : dir_stats -> dir_stats) (k k' : string)
    (d : list (string * dir_stats)) :
  k <> k' -> dict_get k' (dict_alter g k d) = dict_get k' d.
Proof.
  intros Hne. induction d as [| [k0 v] d IH]; simpl.
  - destruct (String.eqb_spec k k'); [contradiction | reflexivity].
  - destruct (String.eqb_spec k0 k) as [-> | Hk0]; simpl.
    + destruct (String.eqb_spec k k'); [contradiction | reflexivity].
    + destruct (String.eqb k0 k'); [reflexivity | exact IH].
Qed.

(** A directory that has an entry keeps it while more files are counted. *)
Lemma accumulate_keeps_entry (k : string) (files : list file_info)
    (d : list (string * dir_stats)) :
  is_Some (dict_get k d) ->
  is_Some
    (dict_get k
       (fold_left
          (fun stats f =>
             dict_alter (count_file (get_size f)) (directory_of (get_path f))
               stats)
          files d)).
Proof.
  revert d. induction files as [| f files IH]; intros d Hd; [exact Hd |].
  simpl. apply IH.
  destruct (String.eqb_spec (directory_of (get_path f)) k) as [<- | Hne].
  - rewrite dict_get_alter_same. eexists. reflexivity.
  - rewrite dict_get_alter_other by exact Hne. exact Hd.
Qed.

Lemma accumulate_has_entry (files : list file_info) (f : file_info)
    (d : list (string * dir_stats)) :
  In f files ->
  is_Some
    (dict_get (directory_of (get_path f))
       (fold_left
          (fun stats f =>
             dict_alter (count_file (get_size f)) (directory_of (get_path f))
               stats)
          files d)).
Proof.
  revert d. induction files as [| g files IH]; intros d Hin; [destruct Hin |].
  simpl. destruct Hin as [-> | Hin].
  - apply accumulate_keeps_entry. rewrite dict_get_alter_same.
    eexists. reflexivity.
  - apply IH. exact Hin.
Qed.

Lemma summarize_keeps_entry (k : string) (stats stats' : list (string * dir_stats))
    (problems : list problematic_directory) :
  summarize_directories stats = Ok (stats', problems) ->
  is_Some (dict_get k stats) -> is_Some (dict_get k stats').
Proof.
  revert stats' problems.
  induction stats as [| [d st] stats IH]; intros stats' problems Hsum Hk.
  - simpl in Hsum. inversion Hsum. subst. exact Hk.
  - simpl in Hsum. simpl in Hk.
    destruct (summarize_directories stats) as [[rest_stats rest_problems] | e]
      eqn:Hrest.
    + specialize (IH rest_stats rest_problems eq_refl).
      destruct (0 <? file_count st)%Z.
      * destruct (truediv (inject_Z (total_size st)) (inject_Z (file_count st)))
          as [avg | e]; [| discriminate Hsum].
        destruct (truediv (inject_Z (dir_small_files st))
                    (inject_Z (file_count st))) as [ratio | e];
          [| discriminate Hsum].
        cbn [mbind result_bind] in Hsum.
        destruct (Qltb 0.7 ratio && (10 <? file_count st)%Z);
          inversion Hsum; subst; simpl;
          destruct (String.eqb d k); eauto.
      * cbn [mbind result_bind] in Hsum. inversion Hsum; subst; simpl.
        destruct (String.eqb d k); eauto.
    + destruct (0 <? file_count st)%Z.
      * destruct (truediv (inject_Z (total_size st)) (inject_Z (file_count st)))
          as [avg | e']; [| discriminate Hsum].
        destruct (truediv (inject_Z (dir_small_files st))
                    (inject_Z (file_count st))) as [ratio | e'];
          discriminate Hsum.
      * discriminate Hsum.
Qed.

(** In any collection, a root file is counted under the empty string. *)
Lemma root_file_counted_under_empty_string
    (files : list file_info) (f : file_info) (name : string) :
  In f files -> path f = Some ("/" ++ name)%string ->
  contains "/" name = false ->
  exists r,
    analyze_directory_structure files = Ok r
    /\ is_Some (dict_get "" (directory_stats r)).
Proof.
  intros Hin Hp Hname.
  pose proof (accumulate_has_entry files f [] Hin) as Hentry.
  unfold get_path in Hentry at 1. rewrite Hp in Hentry. simpl default in Hentry.
  rewrite (directory_of_root_file name Hname) in Hentry.
  unfold analyze_directory_structure.
  destruct (summarize_directories_total (accumulate_directories files))
    as [[stats problems] Hsum].
  rewrite Hsum. eexists. split; [reflexivity |]. simpl.
  eapply summarize_keeps_entry; [exact Hsum | exact Hentry].
Qed.

End PathFacts.

(** C4 (the failing case): for a root file, a path whose only slash is the
    leading one, [analyze_directory_structure] accumulates the record under the
    empty string; the directory ["/"] gets no entry. *)
Theorem root_file_accumulated_under_empty_directory
    (f : file_info) (name : string) :
  path f = Some ("/" ++ name)%string -> contains "/" name = false ->
  exists r,
    analyze_directory_structure [f] = Ok r
    /\ List.map fst (directory_stats r) = [""%string]
    /\ dict_get "/" (directory_stats r) = None
    /\ (exists st, dict_get "" (directory_stats r) = Some st
                   /\ file_count st = 1%Z).
Proof.
  intros Hp Hname. unfold analyze_directory_structure, accumulate_directories.
  simpl fold_left. unfold get_path. rewrite Hp. simpl default.
  rewrite (directory_of_root_file name Hname).
  simpl. change (10 <? 0 + 1)%Z with false. rewrite Bool.andb_false_r.
  eexists. split; [reflexivity |]. simpl.
  repeat split. eexists. split; reflexivity.
Qed.

Lemma root_file_accumulated_under_empty_directory_witness :
  exists r,
    analyze_directory_structure [mk_file "/a.txt" 1 3 0 0] = Ok r
    /\ List.map fst (directory_stats r) = [""%string]
    /\ dict_get "/" (directory_stats r) = None
    /\ (exists st, dict_get "" (directory_stats r) = Some st
                   /\ file_count st = 1%Z).
Proof.
  apply (root_file_accumulated_under_empty_directory
           (mk_file "/a.txt" 1 3 0 0) "a.txt"); reflexivity.
Defined.

(** ** The cost calculator *)

Section CalculatorFacts.
Variable costs : StorageCosts.

Lemma positive_nonzero (x : Q) : 0 < x -> ~ x == 0.
Proof. intros Hx E. rewrite E in Hx. exact (Qlt_irrefl 0 Hx). Qed.

(** The guarded percentage never raises. *)
Lemma guarded_percent_spec (savings current : Q) :
  guarded_percent savings current
  = Ok (if Qlt_le_dec 0 current then savings / current * 100 else 0).
Proof.
  unfold guarded_percent. destruct (Qlt_le_dec 0 current) as [Hpos | Hle].
  - rewrite truediv_nonzero by (apply positive_nonzero; exact Hpos). reflexivity.
  - reflexivity.
Qed.

Lemma ratio_or_inf_spec (a b : Q) :
  ratio_or_inf a b = Ok (if Qlt_le_dec 0 b then Finite (a / b) else Inf).
Proof.
  unfold ratio_or_inf. destruct (Qlt_le_dec 0 b) as [Hpos | Hle].
  - rewrite truediv_nonzero by (apply positive_nonzero; exact Hpos). reflexivity.
  - reflexivity.
Qed.

Lemma calculate_current_costs_total (scan : scan_results) :
  exists c,
    calculate_current_costs costs scan = Ok c
    /\ storage_cost c
       = default 0 (total_size_gb scan) * standard_storage_cost_per_gb costs * 3.
Proof.
  unfold calculate_current_costs.
  destruct (Qlt_le_dec 0 (default 0 (total_size_gb scan))) as [Hpos | Hle].
  - rewrite truediv_nonzero by (apply positive_nonzero; exact Hpos).
    eexists. split; reflexivity.
  - eexists. split; reflexivity.
Qed.

Lemma savings_for_total (scan : scan_results) (cat : string)
    (r : result OptimizationSavings) :
  savings_for costs scan cat = Some r -> exists s, r = Ok s.
Proof.
  unfold savings_for,
    _calculate_cold_data_savings, _calculate_small_file_savings,
    _calculate_replication_savings, _calculate_cleanup_savings,
    _calculate_compression_savings.
  repeat match goal with
         | |- context [String.eqb cat ?c] => destruct (String.eqb cat c)
         end;
    intros H; inversion H; subst; clear H;
    try rewrite guarded_percent_spec; eexists; reflexivity.
Qed.

Lemma calculate_optimization_savings_total (scan : scan_results)
    (optimizations : list action) :
  exists l, calculate_optimization_savings costs scan optimizations = Ok l.
Proof.
  induction optimizations as [| a rest [l IH]]; simpl.
  - eexists. reflexivity.
  - destruct (savings_for costs scan (category a)) as [r |] eqn:E.
    + destruct (savings_for_total _ _ _ E) as [s ->]. rewrite IH.
      eexists. reflexivity.
    + rewrite IH. eexists. reflexivity.
Qed.

Lemma breakdown_total (l : list OptimizationSavings) :
  exists entries, breakdown l = Ok entries.
Proof.
  induction l as [| s l [entries IH]]; simpl.
  - eexists. reflexivity.
  - rewrite ratio_or_inf_spec, IH. eexists. reflexivity.
Qed.

(** Every division of the report is guarded: the report is always produced,
    with [Inf] where a divisor is not positive. *)
Lemma generate_cost_report_total (scan : scan_results)
    (optimizations : list action) :
  exists report, generate_cost_report costs scan optimizations = Ok report.
Proof.
  unfold generate_cost_report.
  destruct (calculate_current_costs_total scan) as [c [-> _]].
  destruct (calculate_optimization_savings_total scan optimizations) as [l ->].
  simpl. rewrite ratio_or_inf_spec. simpl.
  destruct (Qlt_le_dec 0 (sumQ (List.map implementation_cost l))) as [Hpos | Hle].
  - rewrite truediv_nonzero by (apply positive_nonzero; exact Hpos). simpl.
    destruct (breakdown_total l) as [entries ->]. simpl.
    rewrite guarded_percent_spec. eexists. reflexivity.
  - simpl. destruct (breakdown_total l) as [entries ->]. simpl.
    rewrite guarded_percent_spec. eexists. reflexivity.
Qed.

Lemma project_years_nonzero (size rate monthly : Q) (years : list Z) :
  ~ size == 0 -> exists l, project_years size rate monthly years = Ok l.
Proof.
  intros Hs. induction years as [| y years [l IH]]; simpl.
  - eexists. reflexivity.
  - rewrite truediv_nonzero by exact Hs. simpl. rewrite IH.
    eexists. reflexivity.
Qed.

(** The projection is produced for every scan of non-zero size. *)
Lemma estimate_storage_growth_nonzero (scan : scan_results) (rate : Q) :
  ~ default 0 (total_size_gb scan) == 0 ->
  exists g, estimate_storage_growth costs scan rate = Ok g.
Proof.
  intros Hs. unfold estimate_storage_growth.
  destruct (calculate_current_costs_total scan) as [c [-> _]].
  cbn [mbind result_bind].
  destruct (project_years_nonzero (default 0 (total_size_gb scan)) rate
              (total_monthly_cost c) [1; 2; 3]%Z Hs) as [l ->].
  eexists. reflexivity.
Qed.

End CalculatorFacts.

(** C1 (the failing case): on a scan whose [total_size_gb] is zero, such as
    the result of a scan that found no files, [estimate_storage_growth] divides
    the projected size by the current size without a guard and raises
    [ZeroDivisionError]. *)
Theorem estimate_storage_growth_zero_size_raises
    (costs : StorageCosts) (scan : scan_results) (rate : Q) :
  default 0 (total_size_gb scan) == 0 ->
  estimate_storage_growth costs scan rate = Raise ZeroDivisionError.
Proof.
  intros Hz. unfold estimate_storage_growth.
  destruct (calculate_current_costs_total costs scan) as [c [-> _]].
  simpl. rewrite !truediv_zero by exact Hz. reflexivity.
Qed.

Lemma estimate_storage_growth_zero_size_raises_witness :
  default 0 (total_size_gb (empty_scan "scan-1")) == 0
  /\ estimate_storage_growth default_costs (empty_scan "scan-1") 20
     = Raise ZeroDivisionError.
Proof.
  split.
  - reflexivity.
  - apply estimate_storage_growth_zero_size_raises. reflexivity.
Defined.

(** C6 (as the code has it): the cold_data, small_files, replication and
    compression formulas return [savings / current_cost * 100] when
    [current_cost > 0] and 0 otherwise; the cleanup formula returns the fixed
    100, which is [savings / current_cost * 100] whenever [current_cost > 0].
    None of the five raises. *)
Theorem savings_percent_by_formula (costs : StorageCosts) (scan : scan_results) :
  (exists s, _calculate_cold_data_savings costs scan = Ok s
             /\ savings_percent s = percent_of s)
  /\ (exists s, _calculate_small_file_savings costs scan = Ok s
                /\ savings_percent s = percent_of s)
  /\ (exists s, _calculate_replication_savings costs scan = Ok s
                /\ savings_percent s = percent_of s)
  /\ (exists s, _calculate_compression_savings costs scan = Ok s
                /\ savings_percent s = percent_of s)
  /\ (exists s, _calculate_cleanup_savings costs scan = Ok s
                /\ savings_percent s == 100
                /\ savings_percent s
                   == (if Qlt_le_dec 0 (current_cost s)
                       then savings s / current_cost s * 100 else 100)).
Proof.
  repeat split.
  - unfold _calculate_cold_data_savings. rewrite guarded_percent_spec.
    eexists. split; reflexivity.
  - unfold _calculate_small_file_savings. rewrite guarded_percent_spec.
    eexists. split; reflexivity.
  - unfold _calculate_replication_savings. rewrite guarded_percent_spec.
    eexists. split; reflexivity.
  - unfold _calculate_compression_savings. rewrite guarded_percent_spec.
    eexists. split; reflexivity.
  - unfold _calculate_cleanup_savings. eexists. split; [reflexivity |].
    cbn [savings_percent current_cost savings]. split; [reflexivity |].
    match goal with
    | |- context [Qlt_le_dec 0 ?c] =>
        destruct (Qlt_le_dec 0 c) as [Hpos | Hle];
        [generalize (positive_nonzero c Hpos); generalize c; clear |]
    end.
    + intros c Hc. field. exact Hc.
    + reflexivity.
Qed.

(** C6 (counterexample): with no orphaned files the cleanup formula has
    [current_cost = 0] and still reports 100 percent, not 0. *)
Lemma cleanup_savings_percent_not_zero :
  exists s,
    _calculate_cleanup_savings default_costs (empty_scan "scan-1") = Ok s
    /\ current_cost s <= 0
    /\ percent_of s == 0
    /\ savings_percent s == 100
    /\ ~ savings_percent s == percent_of s.
Proof.
  eexists. split; [reflexivity |].
  repeat split; try reflexivity; discriminate.
Qed.

(** ** Scans *)

Section ScanFacts.

Lemma identify_orphaned_temp_files_run (files : list file_info) (w : clock) :
  identify_orphaned_temp_files files w
  = (Ok (identify_orphaned_temp_files_at (next_reading w) files), tick w).
Proof. reflexivity. Qed.

(** A scan of a non-empty collection whose analyses succeed returns the
    analyses as its result. *)
Lemma execute_scan_ok (id : string) (f : file_info) (files : list file_info)
    (st : server) (cold : list cold_record) (eff : efficiency)
    (dirs : directory_analysis) (waste : storage_waste)
    (prio : list optimization) :
  identify_cold_data_at (next_reading (the_clock st)) (f :: files) 180 = Ok cold ->
  analyze_file_efficiency (f :: files) = Ok eff ->
  analyze_directory_structure (f :: files) = Ok dirs ->
  calculate_storage_waste (f :: files) = Ok waste ->
  fst (generate_optimization_priority (f :: files) (tick (tick (the_clock st))))
  = Ok prio ->
  exists r,
    fst (execute_scan id (f :: files) st) = Ok r
    /\ status r = Some "completed"%string
    /\ cold_data r = Some cold
    /\ small_files r = Some (eff_small_files eff)
    /\ over_replicated_files r = Some (inefficient_replication eff)
    /\ orphaned_files r
       = Some (identify_orphaned_temp_files_at
                 (next_reading (tick (the_clock st))) (f :: files))
    /\ total_size_gb r
       = Some (inject_Z (sumZ (List.map get_size (f :: files)))
               / inject_Z (1024 ^ 3)).
Proof.
  intros Hc He Hd Hw Hp.
  unfold execute_scan, try_except_reraise.
  cbv [mbind E_bind with_clock pure].
  rewrite identify_cold_data_run, Hc.
  cbn [the_clock]. rewrite He.
  rewrite identify_orphaned_temp_files_run. cbn [the_clock].
  rewrite Hd, Hw.
  destruct (generate_optimization_priority (f :: files)
              (tick (tick (the_clock st)))) as [r1 w1].
  simpl in Hp. subst r1. unfold store_scan.
  eexists. split; [reflexivity |]. repeat split.
Qed.

Lemma Qltb_false (x y : Q) : Qltb x y = false <-> y <= x.
Proof.
  unfold Qltb. destruct (Qlt_le_dec x y) as [H | H]; split; intros H'; try easy.
  exfalso. apply (Qlt_irrefl x). eapply Qlt_le_trans; eassumption.
Qed.

(** *** Scenario A *)

Lemma scenario_a_not_cold (now : Q) (t mtime : Z) :
  now - inject_Z (180 * ms_per_day) <= inject_Z t ->
  identify_cold_data_at now [scenario_a_file t mtime] 180 = Ok [].
Proof.
  intros Hnow.
  rewrite identify_cold_data_positive_threshold by lia.
  simpl List.filter.
  replace (is_cold now 180 (scenario_a_file t mtime)) with false; [reflexivity |].
  symmetry. apply Qltb_false. exact Hnow.
Qed.

Lemma scenario_a_not_orphaned (now : Q) (t mtime : Z) :
  identify_orphaned_temp_files_at now [scenario_a_file t mtime] = [].
Proof.
  unfold identify_orphaned_temp_files_at. simpl orphan_loop.
  unfold orphan_of.
  replace (is_temp (get_path (scenario_a_file t mtime))) with false
    by (vm_compute; reflexivity).
  reflexivity.
Qed.

Lemma scenario_a_priorities (w : clock) (t mtime : Z) :
  (forall n, reading w n - inject_Z (180 * ms_per_day) <= inject_Z t) ->
  fst (generate_optimization_priority [scenario_a_file t mtime] w) = Ok [].
Proof.
  intros Hw.
  destruct (analyze_file_efficiency_total [scenario_a_file t mtime])
    as [eff [He [Hs [Ho [_ [Hsc [Hoc _]]]]]]].
  destruct (calculate_storage_waste_total [scenario_a_file t mtime])
    as [waste [Hwaste _]].
  rewrite (generate_optimization_priority_order _ _ [] eff waste);
    [| apply scenario_a_not_cold, Hw | exact He | exact Hwaste].
  rewrite scenario_a_not_orphaned, Hsc, Hoc, Hs, Ho. reflexivity.
Qed.

End ScanFacts.

(** C7 (as the code has it): scanning the single file of 200MiB, replication
    3, path [/data/a.parquet], on a clock that never reads more than 180 days
    past the file's access time, classifies nothing as cold, small,
    over-replicated or orphaned, and [calculate_current_costs] with the default
    rates gives [storage_cost = (200/1024) * 0.04 * 3 = 0.0234375], the scan
    size being counted in GiB. *)
Theorem scenario_a_costs (id : string) (t mtime : Z) (st : server) :
  (forall n, reading (the_clock st) n - inject_Z (180 * ms_per_day)
             <= inject_Z t) ->
  exists r c,
    fst (execute_scan id [scenario_a_file t mtime] st) = Ok r
    /\ cold_data r = Some []
    /\ small_files r = Some []
    /\ over_replicated_files r = Some []
    /\ orphaned_files r = Some []
    /\ calculate_current_costs default_costs r = Ok c
    /\ storage_cost c == (200 / 1024) * 0.04 * 3
    /\ storage_cost c == 0.0234375.
Proof.
  intros Hclock.
  destruct (analyze_file_efficiency_total [scenario_a_file t mtime])
    as [eff [He [Hs [Ho _]]]].
  destruct (analyze_directory_structure_total [scenario_a_file t mtime])
    as [dirs Hd].
  destruct (calculate_storage_waste_total [scenario_a_file t mtime])
    as [waste [Hw _]].
  destruct (execute_scan_ok id (scenario_a_file t mtime) [] st [] eff dirs waste [])
    as [r [Hr [_ [Hcold [Hsmall [Hover [Horph Hsize]]]]]]].
  - apply scenario_a_not_cold, Hclock.
  - exact He.
  - exact Hd.
  - exact Hw.
  - apply scenario_a_priorities. intros n. apply Hclock.
  - destruct (calculate_current_costs_total default_costs r) as [c [Hc Hcost]].
    exists r, c. rewrite Hs in Hsmall. rewrite Ho in Hover.
    rewrite scenario_a_not_orphaned in Horph.
    repeat (split; [assumption |]).
    rewrite Hcost, Hsize. split; reflexivity.
Qed.

Lemma scenario_a_costs_witness :
  exists r c,
    fst (execute_scan "scan-a" [scenario_a_file 1700000000000 1700000000000]
           (fresh_server (steady_clock 1700000000000))) = Ok r
    /\ cold_data r = Some []
    /\ small_files r = Some []
    /\ over_replicated_files r = Some []
    /\ orphaned_files r = Some []
    /\ calculate_current_costs default_costs r = Ok c
    /\ storage_cost c == (200 / 1024) * 0.04 * 3
    /\ storage_cost c == 0.0234375.
Proof.
  apply scenario_a_costs. intros n. simpl. discriminate.
Defined.

(** C7 (counterexample): for that scan the storage cost is below 1, more than
    23 away from 24.0. *)
Lemma scenario_a_storage_cost_not_24 :
  exists r c,
    fst (execute_scan "scan-a" [scenario_a_file 1700000000000 1700000000000]
           (fresh_server (steady_clock 1700000000000))) = Ok r
    /\ calculate_current_costs default_costs r = Ok c
    /\ storage_cost c < 1
    /\ ~ Qabs (storage_cost c - 24) <= 23.
Proof.
  eexists. eexists. split; [vm_compute; reflexivity |].
  split; [vm_compute; reflexivity |].
  split; [reflexivity |]. intros H. vm_compute in H. apply H. reflexivity.
Qed.

(** ** Dependence on the clock *)

Lemma call_twice_lift {A} (r : result A) (w : clock) :
  call_twice (lift r) w = (x ← r; Ok (x, x), w).
Proof. unfold call_twice, lift. cbv [mbind M_bind]. destruct r; reflexivity. Qed.

Lemma call_twice_same_reading {A} (f : Q -> result A) (w : clock) :
  next_reading (tick w) = next_reading w ->
  fst (call_twice (now ← now_ms; lift (f now)) w)
  = (x ← f (next_reading w); Ok (x, x)).
Proof.
  intros Hr. unfold call_twice, lift, now_ms. cbv [mbind M_bind mret M_ret].
  fold (next_reading w). fold (tick w). fold (next_reading (tick w)).
  rewrite Hr. destruct (f (next_reading w)); reflexivity.
Qed.

(** C8 (counterexample): a temp file last touched at the epoch, on a clock that
    reads 180 days and then one millisecond more.  The first call of
    [identify_cold_data] returns nothing and the second returns the file; the
    two calls of [identify_orphaned_temp_files] return different [age_days]. *)
Lemma classifiers_not_idempotent :
  exists c o1 o2,
    fst (call_twice (identify_cold_data [mk_file "/tmp/job.tmp" 10 3 0 0] 180)
           (running_clock (inject_Z (180 * ms_per_day)) 1))
    = Ok ([], [c])
    /\ fst (call_twice (identify_orphaned_temp_files
                          [mk_file "/tmp/job.tmp" 10 3 0 0])
              (running_clock (inject_Z (180 * ms_per_day)) 1))
       = Ok ([o1], [o2])
    /\ ~ age_days o1 == age_days o2.
Proof.
  eexists. eexists. eexists.
  split; [vm_compute; reflexivity |].
  split; [vm_compute; reflexivity |].
  intros H. vm_compute in H. discriminate H.
Qed.

(** ** The precondition of the plan builder *)

Section PreconditionFacts.

Lemma prefix_append (p s : string) : String.prefix p (p ++ s) = true.
Proof.
  induction p as [| c p IH]; [destruct s; reflexivity |].
  change (String.prefix (String c p) (String c (p ++ s)) = true).
  change (String.prefix (String c p) (String c (p ++ s)))
    with (if ascii_dec c c then String.prefix p (p ++ s) else false).
  destruct (ascii_dec c c) as [_ | Hne]; [exact IH | contradiction].
Qed.

Lemma contains_unfold (p s : string) :
  contains p s
  = String.prefix p s
    || match s with
       | EmptyString => false
       | String _ s' => contains p s'
       end.
Proof. destruct s; reflexivity. Qed.

Lemma contains_prefix (p s : string) :
  String.prefix p s = true -> contains p s = true.
Proof. intros H. rewrite contains_unfold, H. reflexivity. Qed.

Lemma contains_append_l (p a s : string) :
  contains p s = true -> contains p (a ++ s) = true.
Proof.
  intros H. induction a as [| c a IH]; [exact H |].
  change (contains p (String c (a ++ s)) = true).
  change (contains p (String c (a ++ s)))
    with (String.prefix p (String c (a ++ s)) || contains p (a ++ s)).
  rewrite IH. apply Bool.orb_true_r.
Qed.

(** The message of the rejection names the scan. *)
Lemma rejection_names_scan (id : string) :
  contains id ("Scan " ++ id ++ " is not completed or failed") = true.
Proof. apply contains_append_l, contains_prefix, prefix_append. Qed.

Lemma length_append (a b : string) :
  String.length (a ++ b) = (String.length a + String.length b)%nat.
Proof.
  induction a as [| c a IH]; [reflexivity |].
  change (S (String.length (a ++ b)) = S (String.length a + String.length b)).
  rewrite IH. reflexivity.
Qed.

(** The rejection is not the failure of a scan that was never stored. *)
Lemma rejection_is_not_lookup_failure (id : string) :
  ("Scan " ++ id ++ " is not completed or failed")%string
  <> ("Scan results not found for ID: " ++ id)%string.
Proof.
  intros E. apply (f_equal String.length) in E.
  rewrite !length_append in E. simpl in E. lia.
Qed.

End PreconditionFacts.

(** C2: a plan requested for a stored scan whose status is not ["completed"] is
    rejected with the [ValueError] that names the scan and differs from the
    failure of an unknown scan id; the failure is recorded under the
    optimization id, the plan store is left as it was, and nothing is returned
    in place of the plan. *)
Theorem generate_recommendations_rejects_incomplete_scan
    (costs : StorageCosts)
    (analyze : scan_results -> result llm_analysis)
    (st : server) (id optimization_id new_plan_id : string)
    (scan : scan_results) :
  scan_results_storage st !! id = Some scan ->
  status scan <> Some "completed"%string ->
  generate_recommendations costs analyze id optimization_id new_plan_id st
  = (Raise (ValueError ("Scan " ++ id ++ " is not completed or failed")),
     {| the_clock := the_clock st;
        scan_results_storage := scan_results_storage st;
        optimization_results_storage :=
          <[optimization_id :=
              Failed optimization_id id "failed"
                ("Scan " ++ id ++ " is not completed or failed")]>
            (optimization_results_storage st);
        script_storage := script_storage st |})
  /\ contains id ("Scan " ++ id ++ " is not completed or failed") = true
  /\ ("Scan " ++ id ++ " is not completed or failed")%string
     <> ("Scan results not found for ID: " ++ id)%string.
Proof.
  intros Hscan Hstatus.
  split; [| split; [apply rejection_names_scan
                   | apply rejection_is_not_lookup_failure]].
  unfold generate_recommendations, try_except_reraise.
  cbv [mbind E_bind get_scan_results]. rewrite Hscan.
  rewrite bool_decide_eq_false_2 by exact Hstatus.
  reflexivity.
Qed.

Lemma generate_recommendations_rejects_incomplete_scan_witness :
  generate_recommendations default_costs silent_advisor "scan-7" "opt-1" "plan-1"
    (server_with_failed_scan "scan-7")
  = (Raise (ValueError ("Scan " ++ "scan-7" ++ " is not completed or failed")),
     {| the_clock := the_clock (server_with_failed_scan "scan-7");
        scan_results_storage :=
          scan_results_storage (server_with_failed_scan "scan-7");
        optimization_results_storage :=
          <[ "opt-1"%string :=
               Failed "opt-1" "scan-7" "failed"
                 ("Scan " ++ "scan-7" ++ " is not completed or failed") ]>
            (optimization_results_storage (server_with_failed_scan "scan-7"));
        script_storage := script_storage (server_with_failed_scan "scan-7") |})
  /\ contains "scan-7" ("Scan " ++ "scan-7" ++ " is not completed or failed")
     = true
  /\ ("Scan " ++ "scan-7" ++ " is not completed or failed")%string
     <> ("Scan results not found for ID: " ++ "scan-7")%string.
Proof.
  apply (generate_recommendations_rejects_incomplete_scan default_costs
           silent_advisor (server_with_failed_scan "scan-7")
           "scan-7" "opt-1" "plan-1"
           (failed_scan "scan-7" ZeroDivisionError)).
  - apply lookup_singleton_eq.
  - simpl. discriminate.
Defined.

(** Conversely, a plan is only ever returned for a stored, completed scan. *)
Lemma generate_recommendations_needs_completed_scan
    (costs : StorageCosts)
    (analyze : scan_results -> result llm_analysis)
    (st : server) (id optimization_id new_plan_id : string)
    (r : optimization_results) :
  fst (generate_recommendations costs analyze id optimization_id new_plan_id st)
  = Ok r ->
  exists scan,
    scan_results_storage st !! id = Some scan
    /\ status scan = Some "completed"%string.
Proof.
  unfold generate_recommendations, try_except_reraise.
  cbv [mbind E_bind get_scan_results].
  destruct (scan_results_storage st !! id) as [scan |] eqn:Hscan.
  - destruct (bool_decide (status scan = Some "completed"%string)) eqn:Hst.
    + intros _. exists scan. split; [reflexivity |].
      apply bool_decide_eq_true_1 in Hst. exact Hst.
    + simpl. discriminate.
  - simpl. discriminate.
Qed.

(** ** Worked examples

    The primitives and the classifiers on small inputs, next to what Python and
    the scenarios of the specification give. *)

Section Examples.

Example split_absolute_path :
  split "/" "/data/a.parquet" = [""; "data"; "a.parquet"]%string.
Proof. reflexivity. Qed.

Example split_empty_string : split "/" "" = [""%string].
Proof. reflexivity. Qed.

Example split_trailing_slash : split "/" "a//b/" = ["a"; ""; "b"; ""]%string.
Proof. reflexivity. Qed.

Example directory_of_nested : directory_of "/small/part-0001" = "/small"%string.
Proof. reflexivity. Qed.

Example directory_of_bare_name : directory_of "a.txt" = "/"%string.
Proof. reflexivity. Qed.

Example directory_of_root_txt : directory_of "/a.txt" = ""%string.
Proof. reflexivity. Qed.

Example is_temp_upper_case : is_temp "/var/TMP/x.dat" = true.
Proof. vm_compute. reflexivity. Qed.

Example is_temp_backup_suffix : is_temp "/data/table.BAK" = true.
Proof. vm_compute. reflexivity. Qed.

Example is_temp_parquet : is_temp "/data/a.parquet" = false.
Proof. vm_compute. reflexivity. Qed.

(** Equal keys keep their input order; larger keys come first. *)
Example sort_reverse_is_stable :
  sort_reverse fst Z.ltb [(1, "a"); (2, "b"); (1, "c"); (2, "d")]%Z%string
  = [(2, "b"); (2, "d"); (1, "a"); (1, "c")]%Z%string.
Proof. reflexivity. Qed.

(** Boundaries: exactly 64MiB is not small, replication 3 is not excessive. *)
Example block_sized_file_not_small :
  is_small (mk_file "/d/f" (64 * 1024 * 1024) 3 0 0) = false
  /\ is_small (mk_file "/d/f" (64 * 1024 * 1024 - 1) 3 0 0) = true
  /\ is_over_replicated (mk_file "/d/f" 1 3 0 0) = false
  /\ is_over_replicated (mk_file "/d/f" 1 4 0 0) = true.
Proof. repeat split. Qed.

(** Scenario C: one 1GiB file with replication 6. *)
Example scenario_c_replication_waste :
  exists waste eff r,
    calculate_storage_waste [mk_file "/d/big" (1024 ^ 3) 6 0 0] = Ok waste
    /\ replication_waste_bytes waste = (3 * 1024 ^ 3)%Z
    /\ analyze_file_efficiency [mk_file "/d/big" (1024 ^ 3) 6 0 0] = Ok eff
    /\ inefficient_replication eff = [r]
    /\ excess_replicas r = 3%Z
    /\ suggested_replication r = 3%Z.
Proof.
  eexists. eexists. eexists.
  split; [vm_compute; reflexivity |]. split; [reflexivity |].
  split; [vm_compute; reflexivity |]. repeat split.
Qed.

(** Scenario D: a temp file modified 100 days before the reading. *)
Example scenario_d_critical_orphan :
  exists o,
    identify_orphaned_temp_files_at (inject_Z (100 * ms_per_day))
      [mk_file "/tmp/old.tmp" 10 3 0 0] = [o]
    /\ cleanup_priority o = "critical"%string
    /\ age_days o == 100
    /\ temp_pattern o = "/tmp/"%string.
Proof.
  eexists. split; [vm_compute; reflexivity |]. repeat split.
Qed.

(** A temp file of exactly 7 days is not yet orphaned. *)
Example seven_day_temp_file_kept :
  identify_orphaned_temp_files_at (inject_Z (7 * ms_per_day))
    [mk_file "/tmp/new.tmp" 10 3 0 0] = [].
Proof. vm_compute. reflexivity. Qed.

(** Scenario E for the calculator: no files, no cost, no error. *)
Example empty_scan_costs_nothing :
  exists c,
    calculate_current_costs default_costs (empty_scan "scan-0") = Ok c
    /\ total_monthly_cost c == 0
    /\ cost_per_gb c == 0.
Proof. eexists. split; [vm_compute; reflexivity |]. split; reflexivity. Qed.

(** The report on an empty scan carries the infinity sentinels. *)
Example empty_scan_report_has_infinities :
  exists report,
    generate_cost_report default_costs (empty_scan "scan-0") [] = Ok report
    /\ roi_percent (summary report) = Inf
    /\ payback_months (summary report) = Inf.
Proof. eexists. split; [vm_compute; reflexivity |]. split; reflexivity. Qed.

(** Growth of a 100GB scan at 20 percent: 120, 144 and 172.8 GB. *)
Example growth_of_hundred_gb :
  exists g,
    estimate_storage_growth default_costs
      {| scan_id := "s"; status := Some "completed"%string;
         total_files := Some 10%Z; scan_total_size_bytes := None;
         total_size_gb := Some 100;
         cold_data := None; duplicate_candidates := None;
         small_files := None; empty_files := None; orphaned_files := None;
         over_replicated_files := None; efficiency_analysis := None;
         scan_directory_analysis := None; waste_analysis := None;
         optimization_priorities := None |} 20 = Ok g
    /\ Forall2 Qeq (List.map projected_size_gb (projections g)) [120; 144; 172.8].
Proof.
  eexists. split; [vm_compute; reflexivity |].
  repeat constructor.
Qed.

End Examples.

(** ** Grouping in an insertion-ordered dict *)

Section DictFacts.
Context {K V : Type} (eqb : K -> K -> bool).
Hypothesis eqb_spec : forall a b, reflect (a = b) (eqb a b).

Lemma dict_append_keys (k : K) (v : V) (d : list (K * list V)) :
  In k (List.map fst (dict_append eqb k v d)).
Proof.
  induction d as [| [k' vs] d IH]; simpl.
  - left. reflexivity.
  - destruct (eqb_spec k' k) as [-> | Hne]; simpl; [left; reflexivity | right; exact IH].
Qed.

Lemma dict_append_keeps_keys (k k' : K) (v : V) (d : list (K * list V)) :
  In k' (List.map fst d) -> In k' (List.map fst (dict_append eqb k v d)).
Proof.
  induction d as [| [k0 vs] d IH]; simpl; [intros [] |].
  destruct (eqb_spec k0 k) as [-> | Hne]; simpl; intros [H | H]; auto.
Qed.

Lemma dict_append_new_key (k k' : K) (v : V) (d : list (K * list V)) :
  In k' (List.map fst (dict_append eqb k v d)) ->
  k' = k \/ In k' (List.map fst d).
Proof.
  induction d as [| [k0 vs] d IH]; simpl.
  - intros [H | []]. left. symmetry. exact H.
  - destruct (eqb_spec k0 k) as [-> | Hne]; simpl.
    + intros [H | H]; auto.
    + intros [H | H]; [auto |]. destruct (IH H) as [E | E]; auto.
Qed.

Lemma dict_append_nodup (k : K) (v : V) (d : list (K * list V)) :
  List.NoDup (List.map fst d) -> List.NoDup (List.map fst (dict_append eqb k v d)).
Proof.
  induction d as [| [k0 vs] d IH]; simpl; intros Hnd.
  - constructor; [intros [] | constructor].
  - inversion Hnd as [| ? ? Hnotin Hrest]; subst.
    destruct (eqb_spec k0 k) as [-> | Hne]; simpl.
    + constructor; assumption.
    + constructor; [| apply IH; exact Hrest].
      intros Hin. apply dict_append_new_key in Hin.
      destruct Hin as [E | Hin]; [congruence | contradiction].
Qed.

(** What a group holds after one more [append]. *)
Lemma dict_append_entries (k k' : K) (v : V) (vs' : list V)
    (d : list (K * list V)) :
  List.NoDup (List.map fst d) ->
  In (k', vs') (dict_append eqb k v d) ->
  (k' <> k /\ In (k', vs') d)
  \/ (k' = k /\ exists vs, In (k, vs) d /\ vs' = vs ++ [v])
  \/ (k' = k /\ ~ In k (List.map fst d) /\ vs' = [v]).
Proof.
  induction d as [| [k0 vs] d IH]; simpl; intros Hnd Hin.
  - destruct Hin as [E | []]. inversion E; subst.
    right. right. split; [reflexivity |]. split; [intros [] | reflexivity].
  - inversion Hnd as [| ? ? Hnotin Hrest]; subst.
    destruct (eqb_spec k0 k) as [-> | Hne]; simpl in Hin.
    + destruct Hin as [E | Hin].
      * inversion E; subst. right. left. split; [reflexivity |].
        exists vs. split; [left; reflexivity | reflexivity].
      * left. split; [| right; exact Hin].
        intros ->. apply Hnotin. apply (List.in_map fst) in Hin. exact Hin.
    + destruct Hin as [E | Hin].
      * inversion E; subst. left. split; [exact Hne | left; reflexivity].
      * destruct (IH Hrest Hin) as [[Hk Hd] | [[Hk [ws [Hd Hv]]] | [Hk [Hd Hv]]]].
        -- left. split; [exact Hk | right; exact Hd].
        -- right. left. split; [exact Hk |]. exists ws.
           split; [right; exact Hd | exact Hv].
        -- right. right. split; [exact Hk |]. split; [| exact Hv].
           intros [E | Hin']; [congruence | contradiction].
Qed.

(** Entries of other keys stay, and the entry of the key gains the value. *)
Lemma dict_append_other (k k' : K) (v : V) (vs' : list V)
    (d : list (K * list V)) :
  k' <> k -> In (k', vs') d -> In (k', vs') (dict_append eqb k v d).
Proof.
  intros Hne. induction d as [| [k0 vs] d IH]; simpl; [intros [] |].
  destruct (eqb_spec k0 k) as [-> | Hk]; simpl; intros [E | Hin].
  - inversion E; subst. contradiction.
  - right. exact Hin.
  - left. exact E.
  - right. apply IH. exact Hin.
Qed.

Lemma dict_append_same (k : K) (v : V) (vs : list V) (d : list (K * list V)) :
  List.NoDup (List.map fst d) -> In (k, vs) d ->
  In (k, vs ++ [v]) (dict_append eqb k v d).
Proof.
  induction d as [| [k0 ws] d IH]; simpl; intros Hnd; [intros [] |].
  inversion Hnd as [| ? ? Hnotin Hrest]; subst.
  destruct (eqb_spec k0 k) as [-> | Hk]; simpl; intros [E | Hin].
  - inversion E; subst. left. reflexivity.
  - exfalso. apply Hnotin. apply (List.in_map fst) in Hin. exact Hin.
  - inversion E; subst. contradiction.
  - right. apply IH; assumption.
Qed.

Lemma dict_append_fresh (k : K) (v : V) (d : list (K * list V)) :
  ~ In k (List.map fst d) -> In (k, [v]) (dict_append eqb k v d).
Proof.
  induction d as [| [k0 ws] d IH]; simpl; intros Hnotin.
  - left. reflexivity.
  - destruct (eqb_spec k0 k) as [-> | Hk]; simpl.
    + exfalso. apply Hnotin. left. reflexivity.
    + right. apply IH. intros Hin. apply Hnotin. right. exact Hin.
Qed.

(** Every [append] adds exactly one value to the table. *)
Lemma dict_append_total_length (k : K) (v : V) (d : list (K * list V)) :
  length (List.concat (List.map snd (dict_append eqb k v d)))
  = S (length (List.concat (List.map snd d))).
Proof.
  induction d as [| [k0 ws] d IH]; simpl; [reflexivity |].
  destruct (eqb k0 k); simpl.
  - rewrite !List.length_app. simpl. lia.
  - rewrite !List.length_app, IH. lia.
Qed.

End DictFacts.

(** ** Duplicate candidates *)

Section DuplicateFacts.

Lemma Qltb_asym (a b : Q) : Qltb a b = true -> Qltb b a = false.
Proof.
  intros H. apply Qltb_true in H. apply Qltb_false. apply Qlt_le_weak. exact H.
Qed.

Lemma Qltb_not_trans (a b c : Q) :
  Qltb a b = false -> Qltb b c = false -> Qltb a c = false.
Proof.
  intros H1 H2. apply Qltb_false in H1, H2. apply Qltb_false.
  eapply Qle_trans; eassumption.
Qed.

Lemma size_groups_snoc (files : list file_info) (f : file_info) :
  size_groups (files ++ [f]) = group_step (size_groups files) f.
Proof. unfold size_groups. rewrite List.fold_left_app. reflexivity. Qed.

Lemma same_size_snoc (k : Z) (files : list file_info) (f : file_info) :
  same_size k (files ++ [f])
  = same_size k files ++ (if (get_size f =? k)%Z then [f] else []).
Proof. unfold same_size. rewrite List.filter_app. reflexivity. Qed.

Lemma same_size_nil (k : Z) (files : list file_info) :
  (forall f, In f files -> get_size f <> k) -> same_size k files = [].
Proof.
  unfold same_size. induction files as [| g files IH]; intros H; [reflexivity |].
  simpl. destruct (Z.eqb_spec (get_size g) k) as [E | _].
  - exfalso. apply (H g); [left; reflexivity | exact E].
  - apply IH. intros f Hf. apply H. right. exact Hf.
Qed.

(** The table of [detect_duplicate_candidates]: one group per positive size,
    holding the files of that size in input order. *)
Lemma size_groups_invariant (files : list file_info) :
  List.NoDup (List.map fst (size_groups files))
  /\ (forall k fs, In (k, fs) (size_groups files) ->
        (0 < k)%Z /\ fs = same_size k files)
  /\ (forall f, In f files -> (0 < get_size f)%Z ->
        In (get_size f) (List.map fst (size_groups files))).
Proof.
  induction files as [| f files [Hnd [Hgroups Hkeys]]] using List.rev_ind.
  - split; [constructor |]. split; [intros k fs [] | intros f []].
  - rewrite size_groups_snoc. unfold group_step.
    destruct (Z.ltb_spec 0 (get_size f)) as [Hpos | Hle].
    + split; [apply dict_append_nodup; [apply Z.eqb_spec | exact Hnd] |]. split.
      * intros k fs Hin.
        apply (dict_append_entries Z.eqb Z.eqb_spec) in Hin; [| exact Hnd].
        rewrite same_size_snoc.
        destruct Hin as [[Hk Hd] | [[Hk [vs [Hd Hv]]] | [Hk [Hd Hv]]]].
        -- destruct (Hgroups k fs Hd) as [Hkpos Hfs]. split; [exact Hkpos |].
           destruct (Z.eqb_spec (get_size f) k) as [E | _]; [congruence |].
           rewrite List.app_nil_r. exact Hfs.
        -- subst k. destruct (Hgroups _ vs Hd) as [_ Hvs]. split; [exact Hpos |].
           rewrite Z.eqb_refl, <- Hvs. exact Hv.
        -- subst k. split; [exact Hpos |]. rewrite Z.eqb_refl, Hv.
           rewrite same_size_nil; [reflexivity |].
           intros g Hg E. apply Hd. rewrite <- E. apply Hkeys; [exact Hg | lia].
      * intros g Hg Hgpos. apply List.in_app_or in Hg. destruct Hg as [Hg | [-> | []]].
        -- apply dict_append_keeps_keys; [apply Z.eqb_spec |].
           apply Hkeys; assumption.
        -- apply dict_append_keys. apply Z.eqb_spec.
    + split; [exact Hnd |]. split.
      * intros k fs Hin. destruct (Hgroups k fs Hin) as [Hkpos Hfs].
        split; [exact Hkpos |]. rewrite same_size_snoc.
        destruct (Z.eqb_spec (get_size f) k) as [E | _]; [lia |].
        rewrite List.app_nil_r. exact Hfs.
      * intros g Hg Hgpos. apply List.in_app_or in Hg. destruct Hg as [Hg | [-> | []]].
        -- apply Hkeys; assumption.
        -- lia.
Qed.

Lemma size_groups_complete (files : list file_info) (f : file_info) :
  In f files -> (0 < get_size f)%Z ->
  In (get_size f, same_size (get_size f) files) (size_groups files).
Proof.
  intros Hin Hpos.
  destruct (size_groups_invariant files) as [_ [Hgroups Hkeys]].
  specialize (Hkeys f Hin Hpos). apply List.in_map_iff in Hkeys.
  destruct Hkeys as [[k fs] [Hk Hd]]. simpl in Hk. subst k.
  destruct (Hgroups _ fs Hd) as [_ ->]. exact Hd.
Qed.

End DuplicateFacts.

(** X1: [detect_duplicate_candidates] emits a file exactly when its size is
    positive and at least two input files have that size; every record carries
    the number of input files of its size as [group_size] and a tenth of it as
    [duplicate_score]; the records come out with the larger groups first. *)
Theorem duplicate_candidates_characterised (files : list file_info) :
  (forall f,
     In f (List.map dup_file (detect_duplicate_candidates files))
     <-> In f files /\ (0 < get_size f)%Z
         /\ (2 <= len (same_size (get_size f) files))%Z)
  /\ Forall (fun r =>
               group_size r = len (same_size (get_size (dup_file r)) files)
               /\ duplicate_score r = inject_Z (group_size r) / 10
               /\ dup_classification r = "potential_duplicate"%string)
       (detect_duplicate_candidates files)
  /\ StronglySorted (not_below duplicate_score Qltb)
       (detect_duplicate_candidates files).
Proof.
  destruct (size_groups_invariant files) as [_ [Hgroups _]].
  assert (Hflat : forall r,
            In r (detect_duplicate_candidates files) <->
            exists k f, In (k, same_size k files) (size_groups files)
                        /\ (1 < len (same_size k files))%Z
                        /\ In f (same_size k files)
                        /\ r = duplicate_of (same_size k files) f).
  { intros r. unfold detect_duplicate_candidates. split.
    - intros Hr.
      apply (Permutation_in _ (sort_reverse_perm duplicate_score Qltb _)) in Hr.
      apply List.in_flat_map in Hr. destruct Hr as [[k fs] [Hd Hr]]. simpl in Hr.
      destruct (Hgroups k fs Hd) as [_ Hfs]. subst fs.
      destruct (1 <? len (same_size k files))%Z eqn:Hlen; [| destruct Hr].
      apply List.in_map_iff in Hr. destruct Hr as [f [Hr Hf]].
      exists k, f. repeat split; [exact Hd | lia | exact Hf | congruence].
    - intros [k [f [Hd [Hlen [Hf ->]]]]].
      apply (Permutation_in _
               (Permutation_sym (sort_reverse_perm duplicate_score Qltb _))).
      apply List.in_flat_map. exists (k, same_size k files). split; [exact Hd |].
      simpl. replace (1 <? len (same_size k files))%Z with true by lia.
      apply List.in_map. exact Hf. }
  split; [| split].
  - intros f. rewrite List.in_map_iff. split.
    + intros [r [<- Hr]]. apply Hflat in Hr.
      destruct Hr as [k [g [Hd [Hlen [Hg ->]]]]]. simpl.
      unfold same_size in Hg. apply List.filter_In in Hg.
      destruct Hg as [Hg Hk]. apply Z.eqb_eq in Hk. subst k.
      destruct (Hgroups _ _ Hd) as [Hpos _].
      repeat split; [exact Hg | exact Hpos | lia].
    + intros [Hin [Hpos Hcount]].
      exists (duplicate_of (same_size (get_size f) files) f). split; [reflexivity |].
      apply Hflat. exists (get_size f), f.
      repeat split; [apply size_groups_complete; assumption | lia |].
      unfold same_size. apply List.filter_In. split; [exact Hin | apply Z.eqb_refl].
  - apply List.Forall_forall. intros r Hr. apply Hflat in Hr.
    destruct Hr as [k [g [_ [_ [Hg ->]]]]]. simpl.
    unfold same_size in Hg at 1. apply List.filter_In in Hg.
    destruct Hg as [_ Hk]. apply Z.eqb_eq in Hk. subst k. repeat split.
  - apply sort_reverse_descending.
    + intros a b. apply Qltb_asym.
    + intros a b c. apply Qltb_not_trans.
Qed.

(** ** Efficiency percentages *)

Section PercentageFacts.

Lemma len_nonneg {A} (l : list A) : (0 <= len l)%Z.
Proof. unfold len. lia. Qed.

Lemma len_filter_le {A} (p : A -> bool) (l : list A) :
  (len (List.filter p l) <= len l)%Z.
Proof. unfold len. pose proof (List.filter_length_le p l). lia. Qed.

Lemma percentage_value (count total : Z) :
  percentage count total
  = Ok (if (0 <? total)%Z then inject_Z count / inject_Z total * 100 else 0).
Proof.
  unfold percentage. destruct (0 <? total)%Z eqn:Hpos; [| reflexivity].
  rewrite truediv_nonzero by (apply inject_Z_nonzero; lia). reflexivity.
Qed.

Lemma percentage_bounds (count total : Z) :
  (0 <= count <= total)%Z ->
  0 <= (if (0 <? total)%Z then inject_Z count / inject_Z total * 100 else 0)
  /\ (if (0 <? total)%Z then inject_Z count / inject_Z total * 100 else 0) <= 100.
Proof.
  intros [H0 Hle]. destruct (Z.ltb_spec 0 total) as [Hpos | _].
  - assert (Ht : 0 < inject_Z total)
      by (change 0 with (inject_Z 0); rewrite <- Zlt_Qlt; exact Hpos).
    assert (Hc : 0 <= inject_Z count)
      by (change 0 with (inject_Z 0); rewrite <- Zle_Qle; exact H0).
    assert (Hct : inject_Z count <= inject_Z total)
      by (rewrite <- Zle_Qle; exact Hle).
    split.
    + apply Qmult_le_0_compat; [| discriminate].
      apply Qle_shift_div_l; [exact Ht |]. lra.
    + apply Qle_trans with (1 * 100); [| discriminate].
      apply Qmult_le_compat_r; [| discriminate].
      apply Qle_shift_div_r; [exact Ht |]. lra.
  - split; [apply Qle_refl | discriminate].
Qed.

End PercentageFacts.

(** X2: [analyze_file_efficiency] never raises; every file is empty, small or
    at least 64MiB, so the empty, small and remaining files add up to
    [total_files]; both percentages lie between 0 and 100, are the counts
    divided by [total_files] times 100, and are 0 for an empty collection; the
    critical and moderate issues together count every empty and small file. *)
Theorem efficiency_counts_and_percentages (files : list file_info) :
  exists e,
    analyze_file_efficiency files = Ok e
    /\ eff_total_files e = len files
    /\ (small_files_count e + empty_files_count e
        + len (List.filter (fun f => negb (below_block f)) files)
        = eff_total_files e)%Z
    /\ (0 <= over_replicated_count e <= eff_total_files e)%Z
    /\ small_files_percentage e
       = (if (0 <? len files)%Z
          then inject_Z (small_files_count e) / inject_Z (len files) * 100 else 0)
    /\ over_replicated_percentage e
       = (if (0 <? len files)%Z
          then inject_Z (over_replicated_count e) / inject_Z (len files) * 100
          else 0)
    /\ 0 <= small_files_percentage e <= 100
    /\ 0 <= over_replicated_percentage e <= 100
    /\ (critical_issues (eff_summary e) + moderate_issues (eff_summary e)
        = empty_files_count e + small_files_count e)%Z.
Proof.
  unfold analyze_file_efficiency. rewrite efficiency_loop_spec.
  rewrite !percentage_value. cbn [mbind result_bind].
  eexists. split; [reflexivity |].
  cbn [eff_total_files small_files_count empty_files_count over_replicated_count
       small_files_percentage over_replicated_percentage eff_summary
       critical_issues moderate_issues].
  assert (Hs : len (List.map mk_small (List.filter is_small files))
               = len (List.filter is_small files))
    by (unfold len; rewrite List.length_map; reflexivity).
  assert (He : len (List.map mk_empty (List.filter is_empty files))
               = len (List.filter is_empty files))
    by (unfold len; rewrite List.length_map; reflexivity).
  assert (Ho : len (List.map mk_overrep (List.filter is_over_replicated files))
               = len (List.filter is_over_replicated files))
    by (unfold len; rewrite List.length_map; reflexivity).
  split; [reflexivity |]. split; [| split; [| split; [| split; [| split; [| split]]]]].
  - rewrite Hs, He, <- below_block_split.
    unfold len. rewrite <- Nat2Z.inj_add. f_equal. clear.
    induction files as [| f files IH]; [reflexivity |].
    simpl. destruct (below_block f); simpl; lia.
  - rewrite Ho. split; [apply len_nonneg | apply len_filter_le].
  - reflexivity.
  - reflexivity.
  - apply percentage_bounds. rewrite Hs.
    split; [apply len_nonneg | apply len_filter_le].
  - apply percentage_bounds. rewrite Ho.
    split; [apply len_nonneg | apply len_filter_le].
  - rewrite Hs, He. unfold len.
    assert (Hsplit : forall l : list small_record,
              Forall (fun r => small_efficiency_impact r = "high"%string
                            \/ small_efficiency_impact r = "medium"%string) l ->
              (length (List.filter
                         (fun r => String.eqb (small_efficiency_impact r) "high") l)
               + length (List.filter
                           (fun r => String.eqb (small_efficiency_impact r) "medium")
                           l)
               = length l)%nat).
    { induction 1 as [| r l [Hr | Hr] _ IH]; [reflexivity | |];
        simpl; rewrite Hr; simpl; lia. }
    specialize (Hsplit (List.map mk_small (List.filter is_small files))).
    rewrite List.length_map in Hsplit.
    assert (Htags : Forall (fun r => small_efficiency_impact r = "high"%string
                                  \/ small_efficiency_impact r = "medium"%string)
                      (List.map mk_small (List.filter is_small files))).
    { apply List.Forall_forall. intros r Hr. apply List.in_map_iff in Hr.
      destruct Hr as [f [<- _]]. simpl.
      destruct (get_size f <? 1024 * 1024)%Z; [left | right]; reflexivity. }
    specialize (Hsplit Htags). lia.
Qed.

(** ** Orphaned temporary files *)

Section OrphanFacts.

Lemma orphan_loop_in (now : Q) (files : list file_info) (o : orphan_record) :
  In o (orphan_loop now files)
  <-> exists f, In f files /\ orphan_of now f = Some o.
Proof.
  induction files as [| g files IH]; simpl.
  - split; [intros [] | intros [f [[] _]]].
  - destruct (orphan_of now g) as [o' |] eqn:Hg; simpl; rewrite IH; split.
    + intros [<- | [f [Hf Ho]]]; [exists g | exists f]; auto.
    + intros [f [[<- | Hf] Ho]]; [left; congruence | right; exists f; auto].
    + intros [f [Hf Ho]]. exists f. auto.
    + intros [f [[<- | Hf] Ho]]; [congruence | exists f; auto].
Qed.

Lemma orphan_of_facts (now : Q) (f : file_info) (o : orphan_record) :
  orphan_of now f = Some o ->
  orphan_file o = f
  /\ is_temp (get_path f) = true
  /\ age_days o
     = (now - inject_Z (get_modification_time f)) / inject_Z ms_per_day
  /\ 7 < age_days o
  /\ (cleanup_priority o = "critical"%string <-> 90 < age_days o)
  /\ (cleanup_priority o = "high"%string
      <-> 30 < age_days o /\ age_days o <= 90)
  /\ (cleanup_priority o = "medium"%string <-> age_days o <= 30).
Proof.
  unfold orphan_of. destruct (is_temp (get_path f)); [| discriminate].
  set (age := (now - inject_Z (get_modification_time f)) / inject_Z ms_per_day).
  destruct (Qlt_le_dec 7 age) as [H7 | _]; [| discriminate].
  intros E. inversion E; subst o; clear E. simpl.
  split; [reflexivity |]. split; [reflexivity |]. split; [reflexivity |].
  split; [exact H7 |].
  destruct (Qlt_le_dec 90 age) as [H90 | H90],
           (Qlt_le_dec 30 age) as [H30 | H30];
    repeat split; intros; try discriminate; try assumption; try lra;
    try reflexivity;
    match goal with
    | H : _ /\ _ |- _ => destruct H; lra
    | _ => idtac
    end.
Qed.

End OrphanFacts.

(** ** Two calls of a classifier that reads the clock *)

Section TwoReadings.

Lemma call_twice_readings {A} (f : Q -> result A) (w : clock) :
  fst (call_twice (now ← now_ms; lift (f now)) w)
  = (x ← f (next_reading w); y ← f (next_reading (tick w)); Ok (x, y)).
Proof.
  unfold call_twice, lift, now_ms. cbv [mbind M_bind mret M_ret].
  fold (next_reading w). fold (tick w). fold (next_reading (tick w)).
  destruct (f (next_reading w)); [| reflexivity].
  destruct (f (next_reading (tick w))); reflexivity.
Qed.

Lemma is_cold_later (t1 t2 : Q) (thr : Z) (f : file_info) :
  t1 <= t2 -> is_cold t1 thr f = true -> is_cold t2 thr f = true.
Proof.
  intros Hle Hcold. unfold is_cold in *. unfold Qltb in *.
  destruct (Qlt_le_dec (inject_Z (get_access_time f))
              (t1 - inject_Z (thr * ms_per_day))) as [H1 | _]; [| discriminate].
  destruct (Qlt_le_dec (inject_Z (get_access_time f))
              (t2 - inject_Z (thr * ms_per_day))) as [_ | H2]; [reflexivity |].
  exfalso. lra.
Qed.

Lemma filter_filter_weaker {A} (p q : A -> bool) (l : list A) :
  (forall x, p x = true -> q x = true) ->
  List.filter p (List.filter q l) = List.filter p l.
Proof.
  intros Hpq. induction l as [| x l IH]; [reflexivity |].
  simpl. destruct (q x) eqn:Hq; simpl.
  - rewrite IH. reflexivity.
  - destruct (p x) eqn:Hp; [| exact IH].
    rewrite (Hpq x Hp) in Hq. discriminate.
Qed.

Lemma days_since_later (t1 t2 : Q) (f : file_info) :
  t1 <= t2 -> days_since t1 f <= days_since t2 f.
Proof.
  intros Hle. unfold days_since. pose proof ms_per_day_pos as Hd.
  apply Qle_shift_div_l; [exact Hd |].
  unfold Qdiv. rewrite <- Qmult_assoc, (Qmult_comm (/ _)), Qmult_inv_r by lra.
  lra.
Qed.

Lemma identify_orphaned_in (now : Q) (files : list file_info)
    (o : orphan_record) :
  In o (identify_orphaned_temp_files_at now files)
  <-> exists f, In f files /\ orphan_of now f = Some o.
Proof.
  rewrite <- orphan_loop_in. unfold identify_orphaned_temp_files_at.
  split; apply Permutation_in; [| apply Permutation_sym]; apply sort_reverse_perm.
Qed.

(** A file that is orphaned at one reading is orphaned at every later one, no
    younger and with a priority that is no lower. *)
Lemma orphan_of_later (t1 t2 : Q) (f : file_info) (o1 : orphan_record) :
  t1 <= t2 -> orphan_of t1 f = Some o1 ->
  exists o2,
    orphan_of t2 f = Some o2
    /\ age_days o1 <= age_days o2
    /\ (cleanup_priority o1 = "critical"%string
        -> cleanup_priority o2 = "critical"%string)
    /\ (cleanup_priority o2 = "medium"%string
        -> cleanup_priority o1 = "medium"%string).
Proof.
  intros Hle H1.
  destruct (orphan_of_facts _ _ _ H1) as (_ & Htemp & Ha1 & H7 & Hc1 & _ & Hm1).
  assert (Hage : age_days o1
                 <= (t2 - inject_Z (get_modification_time f))
                    / inject_Z ms_per_day).
  { rewrite Ha1. pose proof ms_per_day_pos as Hd.
    apply Qle_shift_div_l; [exact Hd |].
    unfold Qdiv. rewrite <- Qmult_assoc, (Qmult_comm (/ _)), Qmult_inv_r by lra.
    lra. }
  destruct (orphan_of t2 f) as [o2 |] eqn:H2.
  - destruct (orphan_of_facts _ _ _ H2) as (_ & _ & Ha2 & _ & Hc2 & _ & Hm2).
    exists o2. split; [reflexivity |]. rewrite <- Ha2 in Hage.
    split; [exact Hage |]. split.
    + intros Hc. apply Hc2. apply Hc1 in Hc. lra.
    + intros Hm. apply Hm1. apply Hm2 in Hm. lra.
  - exfalso. unfold orphan_of in H2. rewrite Htemp in H2.
    destruct (Qlt_le_dec 7
                ((t2 - inject_Z (get_modification_time f))
                 / inject_Z ms_per_day)) as [_ | Hnot]; [discriminate |].
    lra.
Qed.

End TwoReadings.

(** C8 (as the code has it): a classifier's output depends on the clock, but
    only through the one reading its call samples.  When two calls of
    [identify_cold_data] or [identify_orphaned_temp_files] on the same input
    sample the same reading they return the same result.  When the second
    reading is not earlier and the threshold is positive, every record has
    [cold_score] 1 in both calls, the files of the first call are those of the
    second that were already cold at the first reading, and
    [days_since_access] has not decreased; every file orphaned in the first
    call is orphaned in the second, with an [age_days] that has not decreased
    and a priority that is not lower.  The classifiers that read no clock
    return the same result twice on every clock and leave the clock alone. *)
Theorem classifiers_between_two_readings
    (files : list file_info) (thr : Z) (w : clock) :
  (next_reading (tick w) = next_reading w ->
   fst (call_twice (identify_cold_data files thr) w)
   = (x ← identify_cold_data_at (next_reading w) files thr; Ok (x, x))
   /\ fst (call_twice (identify_orphaned_temp_files files) w)
      = Ok (identify_orphaned_temp_files_at (next_reading w) files,
            identify_orphaned_temp_files_at (next_reading w) files))
  /\ ((0 < thr)%Z -> next_reading w <= next_reading (tick w) ->
      exists c1 c2 o1 o2,
        fst (call_twice (identify_cold_data files thr) w) = Ok (c1, c2)
        /\ fst (call_twice (identify_orphaned_temp_files files) w) = Ok (o1, o2)
        /\ Forall (fun r => cold_score r = 1) (c1 ++ c2)
        /\ List.map cold_file c1
           = List.filter (is_cold (next_reading w) thr) (List.map cold_file c2)
        /\ (forall r1 r2,
              In r1 c1 -> In r2 c2 -> cold_file r1 = cold_file r2 ->
              days_since_access r1 <= days_since_access r2)
        /\ (forall f,
              In f (List.map orphan_file o1) -> In f (List.map orphan_file o2))
        /\ (forall r1 r2,
              In r1 o1 -> In r2 o2 -> orphan_file r1 = orphan_file r2 ->
              age_days r1 <= age_days r2
              /\ (cleanup_priority r1 = "critical"%string
                  -> cleanup_priority r2 = "critical"%string)
              /\ (cleanup_priority r2 = "medium"%string
                  -> cleanup_priority r1 = "medium"%string)))
  /\ call_twice (lift (Ok (detect_duplicate_candidates files))) w
     = (Ok (detect_duplicate_candidates files,
            detect_duplicate_candidates files), w)
  /\ call_twice (lift (analyze_file_efficiency files)) w
     = (x ← analyze_file_efficiency files; Ok (x, x), w)
  /\ call_twice (lift (analyze_directory_structure files)) w
     = (x ← analyze_directory_structure files; Ok (x, x), w)
  /\ call_twice (lift (calculate_storage_waste files)) w
     = (x ← calculate_storage_waste files; Ok (x, x), w).
Proof.
  split; [| split; [| repeat split; apply call_twice_lift]].
  - intros Hr. split.
    + apply (call_twice_same_reading
               (fun now => identify_cold_data_at now files thr) w Hr).
    + apply (call_twice_same_reading
               (fun now => Ok (identify_orphaned_temp_files_at now files)) w Hr).
  - intros Hthr Hle.
    set (t1 := next_reading w) in *. set (t2 := next_reading (tick w)) in *.
    exists (List.map (capped_cold t1) (List.filter (is_cold t1 thr) files)),
           (List.map (capped_cold t2) (List.filter (is_cold t2 thr) files)),
           (identify_orphaned_temp_files_at t1 files),
           (identify_orphaned_temp_files_at t2 files).
    split; [| split; [| split; [| split; [| split; [| split]]]]].
    + pose proof (call_twice_readings
                    (fun now => identify_cold_data_at now files thr) w) as H.
      fold t1 t2 in H. cbv beta in H.
      rewrite !identify_cold_data_positive_threshold in H by exact Hthr.
      exact H.
    + apply (call_twice_readings
               (fun now => Ok (identify_orphaned_temp_files_at now files)) w).
    + apply List.Forall_forall. intros r Hr. apply List.in_app_or in Hr.
      destruct Hr as [Hr | Hr]; apply List.in_map_iff in Hr;
        destruct Hr as [f [<- _]]; reflexivity.
    + rewrite !List.map_map. cbn [capped_cold cold_file]. rewrite !List.map_id.
      symmetry. apply filter_filter_weaker. intros f. apply is_cold_later, Hle.
    + intros r1 r2 H1 H2 Hsame.
      apply List.in_map_iff in H1, H2.
      destruct H1 as [f1 [<- _]], H2 as [f2 [<- _]].
      cbn [capped_cold cold_file days_since_access] in *. subst f2.
      apply days_since_later, Hle.
    + intros f Hf. apply List.in_map_iff in Hf. destruct Hf as [o1 [<- Ho1]].
      apply identify_orphaned_in in Ho1. destruct Ho1 as [g [Hg Ho1]].
      destruct (orphan_of_later t1 t2 g o1 Hle Ho1) as [o2 [Ho2 _]].
      destruct (orphan_of_facts _ _ _ Ho1) as [-> _].
      apply List.in_map_iff. exists o2. split.
      * destruct (orphan_of_facts _ _ _ Ho2) as [-> _]. reflexivity.
      * apply identify_orphaned_in. exists g. auto.
    + intros r1 r2 H1 H2 Hsame.
      apply identify_orphaned_in in H1, H2.
      destruct H1 as [g1 [_ Ho1]], H2 as [g2 [_ Ho2]].
      destruct (orphan_of_facts _ _ _ Ho1) as [E1 _].
      destruct (orphan_of_facts _ _ _ Ho2) as [E2 _].
      assert (g2 = g1) by congruence. subst g2.
      destruct (orphan_of_later t1 t2 g1 r1 Hle Ho1) as [o2 [Ho2' Hfacts]].
      assert (o2 = r2) by congruence. subst o2. exact Hfacts.
Qed.

Lemma classifiers_between_two_readings_witness :
  exists c1 c2 o1 o2,
    fst (call_twice (identify_cold_data [mk_file "/tmp/job.tmp" 10 3 0 0] 180)
           (running_clock (inject_Z (180 * ms_per_day)) 1))
    = Ok (c1, c2)
    /\ fst (call_twice (identify_orphaned_temp_files
                          [mk_file "/tmp/job.tmp" 10 3 0 0])
              (running_clock (inject_Z (180 * ms_per_day)) 1))
       = Ok (o1, o2)
    /\ List.map cold_file c1
       = List.filter
           (is_cold (next_reading (running_clock (inject_Z (180 * ms_per_day)) 1))
              180)
           (List.map cold_file c2).
Proof.
  destruct (classifiers_between_two_readings
              [mk_file "/tmp/job.tmp" 10 3 0 0] 180
              (running_clock (inject_Z (180 * ms_per_day)) 1))
    as (_ & Hlater & _).
  destruct Hlater as (c1 & c2 & o1 & o2 & Hc & Ho & _ & Hfiles & _).
  - lia.
  - vm_compute. discriminate.
  - exists c1, c2, o1, o2. auto.
Defined.

(** X3: on files with ASCII paths [identify_orphaned_temp_files] returns a
    record exactly for the input files whose lower-cased path matches a temp
    pattern and whose age at the clock reading exceeds 7 days; the priority is
    critical above 90 days, high above 30 and up to 90, medium up to 30; the
    records are sorted by age, oldest first. *)
Theorem orphaned_files_characterised (files : list file_info) (w : clock) :
  Forall (fun f => isascii (get_path f) = true) files ->
  exists orphaned,
    identify_orphaned_temp_files files w = (Ok orphaned, tick w)
    /\ (forall f,
          In f (List.map orphan_file orphaned)
          <-> In f files /\ is_temp (get_path f) = true
              /\ 7 < (next_reading w - inject_Z (get_modification_time f))
                     / inject_Z ms_per_day)
    /\ Forall (fun o =>
                 age_days o
                 = (next_reading w
                    - inject_Z (get_modification_time (orphan_file o)))
                   / inject_Z ms_per_day
                 /\ (cleanup_priority o = "critical"%string <-> 90 < age_days o)
                 /\ (cleanup_priority o = "high"%string
                     <-> 30 < age_days o /\ age_days o <= 90)
                 /\ (cleanup_priority o = "medium"%string <-> age_days o <= 30))
         orphaned
    /\ StronglySorted (not_below age_days Qltb) orphaned.
Proof.
  intros _.
  exists (identify_orphaned_temp_files_at (next_reading w) files).
  split; [reflexivity |].
  assert (Hin : forall o,
            In o (identify_orphaned_temp_files_at (next_reading w) files)
            <-> exists f, In f files /\ orphan_of (next_reading w) f = Some o).
  { intros o. rewrite <- orphan_loop_in. unfold identify_orphaned_temp_files_at.
    split; apply Permutation_in;
      [| apply Permutation_sym]; apply sort_reverse_perm. }
  split; [| split].
  - intros f. rewrite List.in_map_iff. split.
    + intros [o [<- Ho]]. apply Hin in Ho. destruct Ho as [g [Hg Ho]].
      destruct (orphan_of_facts _ _ _ Ho) as [-> [Ht [Ha [H7 _]]]].
      rewrite <- Ha. auto.
    + intros [Hf [Ht H7]].
      destruct (orphan_of (next_reading w) f) as [o |] eqn:Ho.
      * exists o. destruct (orphan_of_facts _ _ _ Ho) as [-> _].
        split; [reflexivity |]. apply Hin. exists f. auto.
      * exfalso. unfold orphan_of in Ho. rewrite Ht in Ho.
        destruct (Qlt_le_dec 7
                    ((next_reading w - inject_Z (get_modification_time f))
                     / inject_Z ms_per_day)) as [_ | Hle]; [discriminate |].
        apply (Qlt_irrefl 7). eapply Qlt_le_trans; eassumption.
  - apply List.Forall_forall. intros o Ho. apply Hin in Ho.
    destruct Ho as [g [_ Ho]].
    destruct (orphan_of_facts _ _ _ Ho) as [-> [_ [Ha [_ Hp]]]].
    split; [exact Ha | exact Hp].
  - apply sort_reverse_descending.
    + intros a b. apply Qltb_asym.
    + intros a b c. apply Qltb_not_trans.
Qed.

Lemma orphaned_files_characterised_witness :
  exists orphaned,
    identify_orphaned_temp_files
      [mk_file "/tmp/Job.TMP" 10 3 0 0; mk_file "/data/a.parquet" 10 3 0 0]
      (steady_clock (inject_Z (100 * ms_per_day)))
    = (Ok orphaned, tick (steady_clock (inject_Z (100 * ms_per_day))))
    /\ List.map (fun o => (get_path (orphan_file o), cleanup_priority o)) orphaned
       = [("/tmp/Job.TMP", "critical")]%string.
Proof.
  destruct (orphaned_files_characterised
              [mk_file "/tmp/Job.TMP" 10 3 0 0; mk_file "/data/a.parquet" 10 3 0 0]
              (steady_clock (inject_Z (100 * ms_per_day))))
    as (orphaned & Hrun & _).
  - repeat constructor.
  - exists orphaned. split; [exact Hrun |].
    injection Hrun as <-. reflexivity.
Defined.

(** ** The directory table *)

Section DirectoryFacts.

Lemma summarize_directories_spec (stats : list (string * dir_stats)) :
  summarize_directories stats
  = Ok (List.map (fun p => (fst p, summarized (snd p))) stats,
        flat_map
          (fun p => if is_problematic (snd p)
                    then [problem_of (fst p) (snd p)] else [])
          stats).
Proof.
  induction stats as [| [d st] stats IH]; [reflexivity |].
  simpl summarize_directories. rewrite IH. cbn [List.map flat_map fst snd].
  unfold summarized, is_problematic.
  destruct (0 <? file_count st)%Z eqn:Hpos.
  - rewrite !truediv_nonzero by (apply inject_Z_nonzero; lia).
    cbn [mbind result_bind andb].
    destruct (Qltb 0.7 (inject_Z (dir_small_files st) / inject_Z (file_count st))
              && (10 <? file_count st)%Z); reflexivity.
  - reflexivity.
Qed.

Lemma dict_alter_keys_nodup (g : dir_stats -> dir_stats) (k : string)
    (d : list (string * dir_stats)) :
  List.NoDup (List.map fst d) -> List.NoDup (List.map fst (dict_alter g k d)).
Proof.
  induction d as [| [k0 v] d IH]; simpl; intros Hnd.
  - constructor; [intros [] | constructor].
  - inversion Hnd as [| ? ? Hnotin Hrest]; subst.
    destruct (String.eqb_spec k0 k) as [-> | Hne]; simpl.
    + constructor; assumption.
    + constructor; [| apply IH; exact Hrest].
      intros Hin. apply Hnotin. clear - Hin Hne.
      induction d as [| [k1 v1] d IH]; simpl in *.
      * destruct Hin as [E | []]. congruence.
      * destruct (String.eqb_spec k1 k) as [-> | Hk]; simpl in Hin.
        -- exact Hin.
        -- destruct Hin as [E | Hin]; [left; exact E | right; apply IH; exact Hin].
Qed.

Lemma dict_alter_sum (field : dir_stats -> Z) (delta : Z)
    (g : dir_stats -> dir_stats) (k : string) (d : list (string * dir_stats)) :
  (forall st, field (g st) = field st + delta)%Z -> field fresh_stats = 0%Z ->
  table_sum field (dict_alter g k d) = (table_sum field d + delta)%Z.
Proof.
  intros Hg Hfresh. unfold table_sum.
  induction d as [| [k0 v] d IH]; simpl.
  - rewrite Hg, Hfresh. lia.
  - destruct (String.eqb k0 k); simpl.
    + rewrite Hg. lia.
    + rewrite IH. lia.
Qed.

Lemma dict_alter_forall (P : dir_stats -> Prop) (g : dir_stats -> dir_stats)
    (k : string) (d : list (string * dir_stats)) :
  (forall st, P st -> P (g st)) -> P (g fresh_stats) ->
  Forall (fun p => P (snd p)) d ->
  Forall (fun p => P (snd p)) (dict_alter g k d).
Proof.
  intros Hg Hfresh. induction 1 as [| [k0 v] d Hv Hd IH]; simpl.
  - constructor; [exact Hfresh | constructor].
  - simpl in Hv. destruct (String.eqb k0 k); constructor; simpl; auto.
Qed.

Lemma accumulate_directories_invariant (files : list file_info) :
  List.NoDup (List.map fst (accumulate_directories files))
  /\ table_sum file_count (accumulate_directories files) = len files
  /\ table_sum total_size (accumulate_directories files)
     = sumZ (List.map get_size files)
  /\ Forall (fun p => counted (snd p)) (accumulate_directories files).
Proof.
  unfold accumulate_directories.
  induction files as [| f files [Hnd [Hcount [Hsize Hall]]]] using List.rev_ind.
  - simpl. repeat split; constructor.
  - rewrite List.fold_left_app. simpl fold_left. split; [| split; [| split]].
    + apply dict_alter_keys_nodup. exact Hnd.
    + rewrite (dict_alter_sum file_count 1) by reflexivity.
      rewrite Hcount. unfold len. rewrite List.length_app. simpl. lia.
    + rewrite (dict_alter_sum total_size (get_size f)) by reflexivity.
      rewrite Hsize, List.map_app. simpl.
      clear. induction (List.map get_size files); simpl; lia.
    + apply dict_alter_forall; [| | exact Hall].
      * intros st [H1 [H2 H3]]. unfold counted, count_file. simpl.
        destruct (get_size f <? 64 * 1024 * 1024)%Z; lia.
      * unfold counted, count_file. simpl.
        destruct (get_size f <? 64 * 1024 * 1024)%Z; lia.
Qed.

End DirectoryFacts.

Section DirectoryAnalysisFacts.

Lemma analyze_directory_structure_spec (files : list file_info) :
  analyze_directory_structure files
  = Ok {| directory_stats :=
            List.map (fun p => (fst p, summarized (snd p)))
              (accumulate_directories files);
          problematic_directories :=
            flat_map
              (fun p => if is_problematic (snd p)
                        then [problem_of (fst p) (snd p)] else [])
              (accumulate_directories files);
          total_directories :=
            len (List.map (fun p => (fst p, summarized (snd p)))
                   (accumulate_directories files));
          consolidation_candidates :=
            len (flat_map
                   (fun p => if is_problematic (snd p)
                             then [problem_of (fst p) (snd p)] else [])
                   (accumulate_directories files)) |}.
Proof.
  unfold analyze_directory_structure. rewrite summarize_directories_spec.
  reflexivity.
Qed.

Lemma summarized_counts (st : dir_stats) :
  file_count (summarized st) = file_count st
  /\ total_size (summarized st) = total_size st
  /\ dir_small_files (summarized st) = dir_small_files st
  /\ dir_large_files (summarized st) = dir_large_files st.
Proof. unfold summarized. destruct (0 <? file_count st)%Z; repeat split. Qed.

Lemma table_sum_summarized (field : dir_stats -> Z)
    (d : list (string * dir_stats)) :
  (forall st, field (summarized st) = field st) ->
  table_sum field (List.map (fun p => (fst p, summarized (snd p))) d)
  = table_sum field d.
Proof.
  intros H. unfold table_sum. rewrite List.map_map. simpl.
  induction d as [| p d IH]; simpl; [reflexivity |]. rewrite H, IH. reflexivity.
Qed.

Lemma table_sum_bound (d : list (string * dir_stats)) (k : string)
    (st : dir_stats) :
  Forall (fun p => counted (snd p)) d -> In (k, st) d ->
  (file_count st <= table_sum file_count d)%Z.
Proof.
  unfold table_sum. induction 1 as [| p d [Hp _] Hd IH]; simpl; [intros [] |].
  assert (0 <= sumZ (List.map (fun p => file_count (snd p)) d))%Z.
  { clear - Hd. induction Hd as [| q d [Hq _] _ IH]; simpl; lia. }
  intros [-> | Hin]; [simpl; lia |]. specialize (IH Hin). lia.
Qed.

End DirectoryAnalysisFacts.

(** X4: [analyze_directory_structure] never raises and loses no file: the
    directories of the table are pairwise different, their file counts add up
    to the number of files and their sizes to the total size; every directory
    holds at least one file, its small and large files are all its files, and
    its average size and small-file ratio are the quotients by its file
    count. *)
Theorem directory_table_conserves_files (files : list file_info) :
  exists r,
    analyze_directory_structure files = Ok r
    /\ List.NoDup (List.map fst (directory_stats r))
    /\ table_sum file_count (directory_stats r) = len files
    /\ table_sum total_size (directory_stats r) = sumZ (List.map get_size files)
    /\ Forall (fun p =>
                 counted (snd p)
                 /\ avg_file_size (snd p)
                    = inject_Z (total_size (snd p)) / inject_Z (file_count (snd p))
                 /\ small_file_ratio (snd p)
                    = Some (inject_Z (dir_small_files (snd p))
                            / inject_Z (file_count (snd p))))
         (directory_stats r)
    /\ total_directories r = len (directory_stats r).
Proof.
  rewrite analyze_directory_structure_spec. eexists. split; [reflexivity |].
  cbn [directory_stats total_directories].
  destruct (accumulate_directories_invariant files) as [Hnd [Hcount [Hsize Hall]]].
  split; [| split; [| split; [| split]]].
  - rewrite List.map_map. simpl. exact Hnd.
  - rewrite table_sum_summarized; [exact Hcount |].
    intros st. apply summarized_counts.
  - rewrite table_sum_summarized; [exact Hsize |].
    intros st. apply summarized_counts.
  - apply List.Forall_map. eapply List.Forall_impl; [| exact Hall].
    intros [d st] [H1 [H2 H3]]. simpl in *. unfold summarized.
    replace (0 <? file_count st)%Z with true by lia.
    unfold counted. simpl. repeat split; assumption.
  - reflexivity.
Qed.

(** X5: every directory reported as problematic is a directory of the table
    with more than 10 files and a small-file ratio above 0.7; there are no more
    candidates than directories, and none at all unless the collection has more
    than 10 files. *)
Theorem problematic_directories_are_crowded (files : list file_info) :
  exists r,
    analyze_directory_structure files = Ok r
    /\ Forall (fun pr =>
                 (10 < problem_file_count pr)%Z
                 /\ 0.7 < problem_small_file_ratio pr
                 /\ optimization_potential pr = "file_consolidation"%string
                 /\ exists st,
                      In (directory pr, st) (directory_stats r)
                      /\ file_count st = problem_file_count pr
                      /\ small_file_ratio st = Some (problem_small_file_ratio pr))
         (problematic_directories r)
    /\ consolidation_candidates r = len (problematic_directories r)
    /\ (consolidation_candidates r <= total_directories r)%Z
    /\ (problematic_directories r = [] \/ (10 < len files)%Z).
Proof.
  rewrite analyze_directory_structure_spec. eexists. split; [reflexivity |].
  cbn [directory_stats total_directories problematic_directories
       consolidation_candidates].
  destruct (accumulate_directories_invariant files) as [_ [Hcount [_ Hall]]].
  assert (Hproblem : forall pr,
            In pr (flat_map
                     (fun p => if is_problematic (snd p)
                               then [problem_of (fst p) (snd p)] else [])
                     (accumulate_directories files)) ->
            exists d st, In (d, st) (accumulate_directories files)
                         /\ is_problematic st = true /\ pr = problem_of d st).
  { intros pr Hpr. apply List.in_flat_map in Hpr. destruct Hpr as [[d st] [Hd Hpr]].
    simpl in Hpr. destruct (is_problematic st) eqn:E; [| destruct Hpr].
    destruct Hpr as [<- | []]. exists d, st. auto. }
  split; [| split; [| split]].
  - apply List.Forall_forall. intros pr Hpr.
    destruct (Hproblem pr Hpr) as [d [st [Hd [Hp ->]]]].
    unfold is_problematic in Hp. apply andb_prop in Hp. destruct Hp as [Hp H10].
    apply andb_prop in Hp. destruct Hp as [Hpos Hratio].
    apply Qltb_true in Hratio. simpl.
    split; [lia |]. split; [exact Hratio |]. split; [reflexivity |].
    exists (summarized st). split.
    + apply List.in_map_iff. exists (d, st). auto.
    + unfold summarized. rewrite Hpos. split; reflexivity.
  - reflexivity.
  - unfold len. rewrite List.length_map. apply Nat2Z.inj_le.
    clear. induction (accumulate_directories files) as [| p d IH]; simpl; [lia |].
    destruct (is_problematic (snd p)); simpl; lia.
  - destruct (flat_map _ (accumulate_directories files)) as [| pr rest] eqn:E;
      [left; reflexivity | right].
    destruct (Hproblem pr (or_introl eq_refl)) as [d [st [Hd [Hp _]]]].
    pose proof (table_sum_bound _ _ _ Hall Hd) as Hbound.
    unfold is_problematic in Hp. apply andb_prop in Hp. destruct Hp as [_ H10].
    rewrite Hcount in Hbound. lia.
Qed.

(** X6: [calculate_storage_waste] never raises; its total is the sum of the
    three kinds of waste, its percentage is that total over the total size
    (0 for a collection without bytes), and its replication waste is the sum of
    [size * excess_replicas] over the over-replicated records that
    [analyze_file_efficiency] reports for the same collection. *)
Theorem storage_waste_accounts (files : list file_info) :
  exists waste eff,
    calculate_storage_waste files = Ok waste
    /\ analyze_file_efficiency files = Ok eff
    /\ total_size_bytes waste = sumZ (List.map get_size files)
    /\ total_waste_bytes waste
       = (replication_waste_bytes waste + empty_file_waste_bytes waste
          + small_file_overhead_bytes waste)%Z
    /\ replication_waste_bytes waste
       = sumZ (List.map
                 (fun r => (get_size (overrep_file r) * excess_replicas r)%Z)
                 (inefficient_replication eff))
    /\ waste_percentage waste
       = (if (0 <? total_size_bytes waste)%Z
          then inject_Z (total_waste_bytes waste)
               / inject_Z (total_size_bytes waste) * 100
          else 0).
Proof.
  destruct (analyze_file_efficiency_total files) as [eff [He [_ [Ho _]]]].
  unfold calculate_storage_waste.
  destruct (0 <? sumZ (List.map get_size files))%Z eqn:Hpos.
  - rewrite truediv_nonzero by (apply inject_Z_nonzero; lia).
    eexists. exists eff. split; [reflexivity |]. split; [exact He |].
    cbn [total_size_bytes total_waste_bytes replication_waste_bytes
         empty_file_waste_bytes small_file_overhead_bytes waste_percentage].
    rewrite Hpos, Ho, List.map_map. repeat split.
  - eexists. exists eff. split; [reflexivity |]. split; [exact He |].
    cbn [total_size_bytes total_waste_bytes replication_waste_bytes
         empty_file_waste_bytes small_file_overhead_bytes waste_percentage].
    rewrite Hpos, Ho, List.map_map. repeat split.
Qed.

(** ** More on the calculator *)

(** X7: [calculate_current_costs] never raises; the monthly total is the sum of
    the four components, the annual total is twelve times it, and [cost_per_gb]
    is the monthly total divided by the scan size, or 0 for a scan whose size is
    not positive.  With non-negative rates, size and file count no figure is
    negative and no component exceeds the monthly total. *)
Theorem current_costs_add_up (costs : StorageCosts) (scan : scan_results) :
  exists c,
    calculate_current_costs costs scan = Ok c
    /\ total_monthly_cost c
       = storage_cost c + metadata_cost c + small_file_overhead c + network_cost c
    /\ total_annual_cost c = total_monthly_cost c * 12
    /\ metadata_cost c
       = inject_Z (default 0%Z (total_files scan)) * metadata_cost_per_file costs
    /\ cost_per_gb c
       = (if Qlt_le_dec 0 (default 0 (total_size_gb scan))
          then total_monthly_cost c / default 0 (total_size_gb scan)
          else 0)
    /\ (0 <= standard_storage_cost_per_gb costs ->
        0 <= metadata_cost_per_file costs ->
        0 <= default 0 (total_size_gb scan) ->
        (0 <= default 0 (total_files scan))%Z ->
        0 <= storage_cost c <= total_monthly_cost c
        /\ 0 <= metadata_cost c <= total_monthly_cost c
        /\ 0 <= small_file_overhead c <= total_monthly_cost c
        /\ 0 <= network_cost c <= total_monthly_cost c
        /\ 0 <= cost_per_gb c).
Proof.
  assert (Hbounds :
            forall size std files meta small : Q,
              0 <= std -> 0 <= meta -> 0 <= size -> 0 <= files -> 0 <= small ->
              0 <= size * std * 3 /\ 0 <= files * meta
              /\ 0 <= small * 0.001 /\ 0 <= size * 0.005).
  { intros size std files meta small Hstd Hmeta Hsize Hfiles Hsmall.
    repeat split.
    - apply Qmult_le_0_compat; [apply Qmult_le_0_compat; assumption | discriminate].
    - apply Qmult_le_0_compat; assumption.
    - apply Qmult_le_0_compat; [assumption | discriminate].
    - apply Qmult_le_0_compat; [assumption | discriminate]. }
  assert (Hsmall : 0 <= inject_Z (len (default [] (small_files scan)))).
  { change 0 with (inject_Z 0). rewrite <- Zle_Qle. apply len_nonneg. }
  unfold calculate_current_costs.
  destruct (Qlt_le_dec 0 (default 0 (total_size_gb scan))) as [Hpos | Hle].
  - rewrite truediv_nonzero by (apply positive_nonzero; exact Hpos).
    eexists. split; [reflexivity |].
    cbn [total_monthly_cost storage_cost metadata_cost small_file_overhead
         network_cost total_annual_cost cost_per_gb].
    repeat (split; [reflexivity |]).
    intros Hstd Hmeta Hsize Hfiles.
    assert (Hf : 0 <= inject_Z (default 0%Z (total_files scan)))
      by (change 0 with (inject_Z 0); rewrite <- Zle_Qle; exact Hfiles).
    destruct (Hbounds _ _ _ _ _ Hstd Hmeta Hsize Hf Hsmall) as (H1 & H2 & H3 & H4).
    repeat split; try assumption; try lra.
    apply Qle_shift_div_l; [exact Hpos |]. lra.
  - eexists. split; [reflexivity |].
    cbn [total_monthly_cost storage_cost metadata_cost small_file_overhead
         network_cost total_annual_cost cost_per_gb].
    repeat (split; [reflexivity |]).
    intros Hstd Hmeta Hsize Hfiles.
    assert (Hf : 0 <= inject_Z (default 0%Z (total_files scan)))
      by (change 0 with (inject_Z 0); rewrite <- Zle_Qle; exact Hfiles).
    destruct (Hbounds _ _ _ _ _ Hstd Hmeta Hsize Hf Hsmall) as (H1 & H2 & H3 & H4).
    repeat split; try assumption; try lra.
Qed.

Lemma current_costs_add_up_witness :
  exists c,
    calculate_current_costs default_costs hundred_gb_scan = Ok c
    /\ 0 <= storage_cost c <= total_monthly_cost c
    /\ 0 <= cost_per_gb c.
Proof.
  destruct (current_costs_add_up default_costs hundred_gb_scan)
    as (c & Hc & _ & _ & _ & _ & Hb).
  exists c. split; [exact Hc |].
  destruct Hb as (H1 & _ & _ & _ & H5);
    [discriminate | discriminate | discriminate | vm_compute; discriminate |].
  split; assumption.
Defined.

Section SavingsFacts.
Variable costs : StorageCosts.

Lemma savings_for_category (scan : scan_results) (cat : string) :
  match savings_for costs scan cat with
  | Some r => known_category cat = true
              /\ exists s, r = Ok s /\ os_category s = cat
  | None => known_category cat = false
  end.
Proof.
  unfold savings_for, known_category,
    _calculate_cold_data_savings, _calculate_small_file_savings,
    _calculate_replication_savings, _calculate_cleanup_savings,
    _calculate_compression_savings.
  destruct (String.eqb_spec cat "cold_data") as [-> | _];
    [split; [reflexivity |]; rewrite guarded_percent_spec;
     eexists; split; reflexivity |].
  destruct (String.eqb_spec cat "small_files") as [-> | _];
    [split; [reflexivity |]; rewrite guarded_percent_spec;
     eexists; split; reflexivity |].
  destruct (String.eqb_spec cat "replication") as [-> | _];
    [split; [reflexivity |]; rewrite guarded_percent_spec;
     eexists; split; reflexivity |].
  destruct (String.eqb_spec cat "cleanup") as [-> | _];
    [split; [reflexivity |]; eexists; split; reflexivity |].
  destruct (String.eqb_spec cat "compression") as [-> | _];
    [split; [reflexivity |]; rewrite guarded_percent_spec;
     eexists; split; reflexivity |].
  reflexivity.
Qed.

End SavingsFacts.

(** X8: [calculate_optimization_savings] never raises and returns one record
    per optimization of a category it knows, in the order of the input and
    under that category's name; optimizations of any other category are
    skipped. *)
Theorem optimization_savings_follow_categories
    (costs : StorageCosts) (scan : scan_results) (optimizations : list action) :
  exists l,
    calculate_optimization_savings costs scan optimizations = Ok l
    /\ List.map os_category l
       = List.filter known_category (List.map category optimizations).
Proof.
  induction optimizations as [| a rest [l [IH Hcats]]]; simpl.
  - eexists. split; reflexivity.
  - pose proof (savings_for_category costs scan (category a)) as Hcat.
    destruct (savings_for costs scan (category a)) as [r |].
    + destruct Hcat as [Hknown [s [-> Hs]]]. rewrite IH, Hknown.
      eexists. split; [reflexivity |]. simpl. rewrite Hs, Hcats. reflexivity.
    + rewrite IH, Hcat. eexists. split; [reflexivity | exact Hcats].
Qed.

(** ** Bounds of the savings formulas *)

Section SavingsBounds.

Lemma percent_bounds (cur opt : Q) :
  0 <= opt <= cur ->
  (0 <= opt <= cur)
  /\ (0 <= cur - opt <= cur)
  /\ 0 <= (if Qlt_le_dec 0 cur then (cur - opt) / cur * 100 else 0) <= 100.
Proof.
  intros [H0 Hle]. split; [split; assumption |]. split; [lra |].
  destruct (Qlt_le_dec 0 cur) as [Hpos | _]; [| lra].
  split.
  - apply Qmult_le_0_compat; [| discriminate].
    apply Qle_shift_div_l; [exact Hpos |]. lra.
  - apply Qle_trans with (1 * 100); [| discriminate].
    apply Qmult_le_compat_r; [| discriminate].
    apply Qle_shift_div_r; [exact Hpos |]. lra.
Qed.

Lemma sumZ_nonneg (l : list Z) :
  Forall (fun z => (0 <= z)%Z) l -> (0 <= sumZ l)%Z.
Proof. induction 1 as [| z l Hz _ IH]; simpl; lia. Qed.

Lemma size_gb_of_nonneg {A} (file_of : A -> file_info) (l : list A) :
  Forall (fun r => (0 <= get_size (file_of r))%Z) l ->
  0 <= size_gb_of file_of l.
Proof.
  intros H. unfold size_gb_of.
  apply Qle_shift_div_l; [reflexivity |]. rewrite Qmult_0_l.
  change 0 with (inject_Z 0). rewrite <- Zle_Qle. apply sumZ_nonneg.
  apply List.Forall_map. exact H.
Qed.

Lemma replicated_size_nonneg (l : list overrep_record) :
  Forall (fun r => (0 <= get_size (overrep_file r))%Z) l ->
  forall acc : Q,
    0 <= acc ->
    0 <= fold_left
           (fun acc r =>
              acc + inject_Z (get_size (overrep_file r)) / inject_Z (1024 ^ 3))
           l acc.
Proof.
  induction 1 as [| r l Hr _ IH]; intros acc Hacc; simpl; [exact Hacc |].
  apply IH.
  assert (0 <= inject_Z (get_size (overrep_file r)) / inject_Z (1024 ^ 3)).
  { apply Qle_shift_div_l; [reflexivity |]. rewrite Qmult_0_l.
    change 0 with (inject_Z 0). rewrite <- Zle_Qle. exact Hr. }
  lra.
Qed.

Lemma scaled_cost_le (size r1 r2 k1 k2 : Q) :
  0 <= size -> 0 <= r1 <= r2 -> 0 <= k1 <= k2 ->
  0 <= size * r1 * k1 <= size * r2 * k2.
Proof.
  intros Hs [Hr1 Hr] [Hk1 Hk].
  assert (H1 : 0 <= size * r1) by (apply Qmult_le_0_compat; assumption).
  assert (H2 : size * r1 <= size * r2).
  { rewrite !(Qmult_comm size). apply Qmult_le_compat_r; assumption. }
  split; [apply Qmult_le_0_compat; assumption |].
  apply Qle_trans with (size * r2 * k1).
  - apply Qmult_le_compat_r; assumption.
  - rewrite !(Qmult_comm (size * r2)). apply Qmult_le_compat_r; [exact Hk | lra].
Qed.

End SavingsBounds.

(** X9: with rates that are not negative, a cold rate that does not exceed
    the standard rate and a scan without negative sizes, none of the five
    savings formulas raises or reports a loss: the optimized cost lies between
    0 and the current cost, the savings between 0 and the current cost, and the
    percentage between 0 and 100. *)
Theorem savings_stay_within_bounds (costs : StorageCosts) (scan : scan_results) :
  0 <= cold_storage_cost_per_gb costs <= standard_storage_cost_per_gb costs ->
  0 <= metadata_cost_per_file costs ->
  nonneg_sizes scan ->
  Forall within_bounds
    [_calculate_cold_data_savings costs scan;
     _calculate_small_file_savings costs scan;
     _calculate_replication_savings costs scan;
     _calculate_cleanup_savings costs scan;
     _calculate_compression_savings costs scan].
Proof.
  intros [Hcold Hstd'] Hmeta (Htotal & Hc & Hs & Ho & Hr).
  assert (Hstd : 0 <= standard_storage_cost_per_gb costs) by lra.
  pose proof (size_gb_of_nonneg cold_file _ Hc) as Hcs.
  pose proof (size_gb_of_nonneg small_file _ Hs) as Hss.
  pose proof (size_gb_of_nonneg orphan_file _ Ho) as Hos.
  pose proof (replicated_size_nonneg _ Hr 0 ltac:(lra)) as Hrs.
  assert (Hlen : forall {A} (l : list A), 0 <= inject_Z (len l)).
  { intros A l. change 0 with (inject_Z 0). rewrite <- Zle_Qle.
    apply len_nonneg. }
  repeat constructor; unfold within_bounds.
  - unfold _calculate_cold_data_savings. rewrite guarded_percent_spec.
    eexists. split; [reflexivity |].
    cbn [optimized_cost current_cost savings savings_percent].
    apply percent_bounds. apply scaled_cost_le; [exact Hcs | | ]; lra.
  - unfold _calculate_small_file_savings. rewrite guarded_percent_spec.
    eexists. split; [reflexivity |].
    cbn [optimized_cost current_cost savings savings_percent].
    apply percent_bounds.
    set (n := inject_Z (len (default [] (small_files scan)))).
    assert (Hn : 0 <= n) by apply Hlen.
    pose proof (scaled_cost_le (size_gb_of small_file (default [] (small_files scan)))
                  _ _ 3 3 Hss (conj Hstd (Qle_refl _)) ltac:(lra)) as [Hst _].
    assert (Hm : 0 <= n * 0.1 * metadata_cost_per_file costs * 100
                 <= n * metadata_cost_per_file costs * 100).
    { assert (H1 : 0 <= n * 0.1 <= n) by lra.
      assert (H2 : 0 <= n * 0.1 * metadata_cost_per_file costs
                   <= n * metadata_cost_per_file costs).
      { split; [apply Qmult_le_0_compat; lra |].
        apply Qmult_le_compat_r; lra. }
      split; [apply Qmult_le_0_compat; lra |].
      apply Qmult_le_compat_r; lra. }
    lra.
  - unfold _calculate_replication_savings. rewrite guarded_percent_spec.
    eexists. split; [reflexivity |].
    cbn [optimized_cost current_cost savings savings_percent].
    apply percent_bounds.
    apply scaled_cost_le; [exact Hrs | | ]; lra.
  - unfold _calculate_cleanup_savings.
    eexists. split; [reflexivity |].
    cbn [optimized_cost current_cost savings savings_percent].
    pose proof (scaled_cost_le (size_gb_of orphan_file (default [] (orphaned_files scan)))
                  _ _ 3 3 Hos (conj Hstd (Qle_refl _)) ltac:(lra)) as [Hst _].
    assert (Hm : 0 <= inject_Z (len (default [] (orphaned_files scan)))
                      * metadata_cost_per_file costs)
      by (apply Qmult_le_0_compat; [apply Hlen | exact Hmeta]).
    repeat split; try lra; discriminate.
  - unfold _calculate_compression_savings. rewrite guarded_percent_spec.
    eexists. split; [reflexivity |].
    cbn [optimized_cost current_cost savings savings_percent].
    apply percent_bounds.
    pose proof (scaled_cost_le (default 0 (total_size_gb scan) * (1 - 0.3))
                  _ _ 3 3 ltac:(lra) (conj Hstd (Qle_refl _)) ltac:(lra))
      as [H0 _].
    split; [exact H0 |].
    apply Qmult_le_compat_r; [| discriminate].
    apply Qmult_le_compat_r; [| exact Hstd]. lra.
Qed.

Lemma savings_stay_within_bounds_witness :
  Forall within_bounds
    [_calculate_cold_data_savings default_costs hundred_gb_scan;
     _calculate_small_file_savings default_costs hundred_gb_scan;
     _calculate_replication_savings default_costs hundred_gb_scan;
     _calculate_cleanup_savings default_costs hundred_gb_scan;
     _calculate_compression_savings default_costs hundred_gb_scan].
Proof.
  apply (savings_stay_within_bounds default_costs hundred_gb_scan).
  - split; discriminate.
  - discriminate.
  - repeat split; first [discriminate | constructor].
Defined.

(** ** What a scan stores *)

Section ScanStorageFacts.

Lemma generate_optimization_priority_total (files : list file_info) (w : clock) :
  exists prio,
    generate_optimization_priority files w = (Ok prio, tick (tick w)).
Proof.
  destruct (analyze_file_efficiency_total files) as [eff [He _]].
  destruct (calculate_storage_waste_total files) as [waste [Hw _]].
  pose proof (identify_cold_data_positive_threshold (next_reading w) 180 files
                ltac:(lia)) as Hc.
  rewrite (generate_optimization_priority_run _ _ _ _ _ Hc He Hw).
  rewrite sort_by_priority_well_tagged by apply opportunities_well_tagged.
  eexists. reflexivity.
Qed.

(** A scan of a non-empty collection never fails; it stores its result under
    its id and touches no other store. *)
Lemma execute_scan_nonempty (id : string) (f : file_info)
    (files : list file_info) (st : server) :
  exists r st',
    execute_scan id (f :: files) st = (Ok r, st')
    /\ scan_results_storage st' = <[id := r]> (scan_results_storage st)
    /\ optimization_results_storage st' = optimization_results_storage st
    /\ script_storage st' = script_storage st
    /\ scan_id r = id
    /\ status r = Some "completed"%string
    /\ total_files r = Some (len (f :: files))
    /\ total_size_gb r
       = Some (inject_Z (sumZ (List.map get_size (f :: files)))
               / inject_Z (1024 ^ 3))
    /\ cold_data r
       = Some (List.map (capped_cold (next_reading (the_clock st)))
                 (List.filter (is_cold (next_reading (the_clock st)) 180)
                    (f :: files)))
    /\ small_files r
       = Some (List.map mk_small (List.filter is_small (f :: files)))
    /\ empty_files r
       = Some (List.map mk_empty (List.filter is_empty (f :: files)))
    /\ over_replicated_files r
       = Some (List.map mk_overrep
                 (List.filter is_over_replicated (f :: files)))
    /\ orphaned_files r
       = Some (identify_orphaned_temp_files_at
                 (next_reading (tick (the_clock st))) (f :: files))
    /\ (exists e, efficiency_analysis r = Some e
                  /\ se_inefficient_replication e = None).
Proof.
  destruct (analyze_file_efficiency_total (f :: files))
    as [eff [He [Hs [Ho [Hem _]]]]].
  destruct (analyze_directory_structure_total (f :: files)) as [dirs Hd].
  destruct (calculate_storage_waste_total (f :: files)) as [waste [Hw _]].
  destruct (generate_optimization_priority_total (f :: files)
              (tick (tick (the_clock st)))) as [prio Hp].
  pose proof (identify_cold_data_positive_threshold
                (next_reading (the_clock st)) 180 (f :: files) ltac:(lia)) as Hc.
  unfold execute_scan, try_except_reraise.
  cbv [mbind E_bind with_clock pure].
  rewrite identify_cold_data_run, Hc.
  cbn [the_clock]. rewrite He.
  rewrite identify_orphaned_temp_files_run. cbn [the_clock].
  rewrite Hd, Hw, Hp. unfold store_scan.
  eexists. eexists. split; [reflexivity |].
  cbn [scan_results_storage optimization_results_storage script_storage
       scan_id status total_files total_size_gb cold_data small_files
       empty_files over_replicated_files orphaned_files efficiency_analysis].
  rewrite Hs, Ho, Hem.
  repeat (split; [reflexivity |]).
  eexists. split; reflexivity.
Qed.

End ScanStorageFacts.

(** X10: on the result of every scan the replication formula of the
    calculator finds nothing to save.  [execute_scan] lists the over-replicated
    files under ["over_replicated_files"], while the calculator looks for them
    under ["efficiency_analysis"]["inefficient_replication"], a key the scan
    never writes; so cost, savings and affected size are 0 however many files
    are over-replicated. *)
Theorem replication_savings_vanish_on_scans
    (costs : StorageCosts) (id : string) (files : list file_info) (st : server) :
  exists r s,
    fst (execute_scan id files st) = Ok r
    /\ over_replicated_files r
       = (match files with
          | [] => None
          | _ => Some (List.map mk_overrep
                         (List.filter is_over_replicated files))
          end)
    /\ _calculate_replication_savings costs r = Ok s
    /\ current_cost s == 0
    /\ savings s == 0
    /\ os_affected_data_gb s == 0
    /\ savings_percent s == 0.
Proof.
  destruct files as [| f files].
  - exists (empty_scan id). eexists. split; [reflexivity |].
    split; [reflexivity |]. split; [reflexivity |].
    cbn. repeat split; ring.
  - destruct (execute_scan_nonempty id f files st)
      as (r & st' & Hrun & _ & _ & _ & _ & _ & _ & _ & _ & _ & _ & Hover & _
          & e & He & Hnone).
    exists r. eexists. rewrite Hrun. split; [reflexivity |].
    split; [exact Hover |].
    unfold _calculate_replication_savings. rewrite He, Hnone.
    rewrite guarded_percent_spec. split; [reflexivity |].
    cbn. repeat split; ring.
Qed.

(** X11: [execute_scan] never fails.  A scan of a non-empty collection is
    stored under its id, so that [get_scan_results] returns it, and leaves the
    other stores alone; a scan that found no files returns its result without
    storing anything. *)
Theorem execute_scan_stores_only_nonempty_scans
    (id : string) (files : list file_info) (st : server) :
  exists r st',
    execute_scan id files st = (Ok r, st')
    /\ status r = Some "completed"%string
    /\ total_files r = Some (len files)
    /\ optimization_results_storage st' = optimization_results_storage st
    /\ script_storage st' = script_storage st
    /\ match files with
       | [] => st' = st /\ r = empty_scan id
       | _ => scan_results_storage st' = <[id := r]> (scan_results_storage st)
              /\ get_scan_results id st' = (Ok r, st')
       end.
Proof.
  destruct files as [| f files].
  - exists (empty_scan id), st. repeat split.
  - destruct (execute_scan_nonempty id f files st)
      as (r & st' & Hrun & Hstore & Hopt & Hscript & _ & Hstatus & Htotal & _).
    exists r, st'. repeat (split; [assumption |]).
    unfold get_scan_results. rewrite Hstore, lookup_insert_eq. reflexivity.
Qed.

(** ** The cost report *)

Section ReportFacts.
Variable costs : StorageCosts.

Lemma breakdown_spec (l : list OptimizationSavings) :
  breakdown l = Ok (List.map breakdown_entry_of l).
Proof.
  induction l as [| s l IH]; [reflexivity |].
  simpl. rewrite ratio_or_inf_spec, IH. reflexivity.
Qed.

Lemma _calculate_roi_months_spec (l : list OptimizationSavings) :
  _calculate_roi_months l
  = Ok (payback_of (sumQ (List.map implementation_cost l))
          (sumQ (List.map savings l))).
Proof.
  unfold _calculate_roi_months, payback_of.
  destruct (Qlt_le_dec 0 (sumQ (List.map savings l))) as [Hpos | _];
    [| reflexivity].
  rewrite truediv_nonzero by (apply positive_nonzero; exact Hpos). reflexivity.
Qed.

Lemma generate_cost_report_spec (scan : scan_results)
    (optimizations : list action) (c : current_costs)
    (l : list OptimizationSavings) :
  calculate_current_costs costs scan = Ok c ->
  calculate_optimization_savings costs scan optimizations = Ok l ->
  generate_cost_report costs scan optimizations
  = Ok {| report_current_costs := c;
          optimization_breakdown := List.map breakdown_entry_of l;
          summary :=
            {| rs_total_monthly_savings := sumQ (List.map savings l);
               rs_total_annual_savings := sumQ (List.map annual_savings l);
               rs_total_implementation_cost :=
                 sumQ (List.map implementation_cost l);
               roi_percent :=
                 (if Qlt_le_dec 0 (sumQ (List.map implementation_cost l))
                  then Finite (sumQ (List.map annual_savings l)
                               / sumQ (List.map implementation_cost l) * 100)
                  else Inf);
               payback_months :=
                 payback_of (sumQ (List.map implementation_cost l))
                   (sumQ (List.map savings l));
               optimized_monthly_cost :=
                 total_monthly_cost c - sumQ (List.map savings l);
               cost_reduction_percent :=
                 (if Qlt_le_dec 0 (total_monthly_cost c)
                  then sumQ (List.map savings l) / total_monthly_cost c * 100
                  else 0) |} |}.
Proof.
  intros Hc Hl. unfold generate_cost_report. rewrite Hc, Hl.
  cbn [mbind result_bind]. rewrite ratio_or_inf_spec. cbn [mbind result_bind].
  rewrite breakdown_spec, guarded_percent_spec. unfold payback_of.
  destruct (Qlt_le_dec 0 (sumQ (List.map implementation_cost l))) as [Hpos | _].
  - rewrite truediv_nonzero by (apply positive_nonzero; exact Hpos). reflexivity.
  - reflexivity.
Qed.

(** Every record of the calculator has twelve times its monthly savings as
    annual savings. *)
Lemma savings_for_annual (scan : scan_results) (cat : string)
    (s : OptimizationSavings) :
  savings_for costs scan cat = Some (Ok s) ->
  annual_savings s = savings s * 12
  /\ savings s = current_cost s - optimized_cost s.
Proof.
  unfold savings_for,
    _calculate_cold_data_savings, _calculate_small_file_savings,
    _calculate_replication_savings, _calculate_cleanup_savings,
    _calculate_compression_savings.
  repeat match goal with
         | |- context [String.eqb cat ?c] => destruct (String.eqb cat c)
         end;
    try rewrite guarded_percent_spec;
    intros H; inversion H; subst; clear H; split; reflexivity.
Qed.

Lemma calculate_optimization_savings_annual (scan : scan_results)
    (optimizations : list action) (l : list OptimizationSavings) :
  calculate_optimization_savings costs scan optimizations = Ok l ->
  Forall (fun s => annual_savings s = savings s * 12
                   /\ savings s = current_cost s - optimized_cost s) l.
Proof.
  revert l. induction optimizations as [| a rest IH]; simpl; intros l Hl.
  - inversion Hl. constructor.
  - destruct (savings_for costs scan (category a)) as [r |] eqn:E.
    + destruct (savings_for_total _ _ _ _ E) as [s ->].
      destruct (calculate_optimization_savings costs scan rest) as [l' | e];
        [| discriminate Hl].
      inversion Hl; subst. constructor; [| apply IH; reflexivity].
      eapply savings_for_annual. exact E.
    + apply IH. exact Hl.
Qed.

End ReportFacts.

(** X12: [generate_cost_report] never raises.  It lists one entry per saving
    of [calculate_optimization_savings], in order; its monthly total is the sum
    of the monthly savings and its annual total the sum of the annual savings,
    each of which is twelve times the monthly saving of its category; the
    optimized monthly cost is the current cost less the savings; a payback is
    infinite exactly when the savings it divides by are not positive, and the
    return on investment is infinite exactly when the total implementation
    cost is not positive. *)
Theorem cost_report_is_consistent
    (costs : StorageCosts) (scan : scan_results) (optimizations : list action) :
  exists report c l,
    generate_cost_report costs scan optimizations = Ok report
    /\ calculate_current_costs costs scan = Ok c
    /\ calculate_optimization_savings costs scan optimizations = Ok l
    /\ report_current_costs report = c
    /\ List.map be_category (optimization_breakdown report)
       = List.map os_category l
    /\ rs_total_monthly_savings (summary report) = sumQ (List.map savings l)
    /\ rs_total_annual_savings (summary report)
       = sumQ (List.map annual_savings l)
    /\ Forall (fun s => annual_savings s = savings s * 12) l
    /\ List.map be_annual_savings (optimization_breakdown report)
       = List.map annual_savings l
    /\ optimized_monthly_cost (summary report)
       = total_monthly_cost c - rs_total_monthly_savings (summary report)
    /\ (payback_months (summary report) = Inf
        <-> rs_total_monthly_savings (summary report) <= 0)
    /\ (roi_percent (summary report) = Inf
        <-> rs_total_implementation_cost (summary report) <= 0)
    /\ Forall (fun e => be_payback_months e = Inf <-> be_monthly_savings e <= 0)
         (optimization_breakdown report).
Proof.
  destruct (calculate_current_costs_total costs scan) as [c [Hc _]].
  destruct (calculate_optimization_savings_total costs scan optimizations)
    as [l Hl].
  rewrite (generate_cost_report_spec costs scan optimizations c l Hc Hl).
  eexists. exists c, l. split; [reflexivity |].
  split; [exact Hc |]. split; [exact Hl |].
  cbn [report_current_costs optimization_breakdown summary
       rs_total_monthly_savings rs_total_annual_savings
       rs_total_implementation_cost optimized_monthly_cost payback_months
       roi_percent].
  assert (Hinf : forall a b, payback_of a b = Inf <-> b <= 0).
  { intros a b. unfold payback_of.
    destruct (Qlt_le_dec 0 b) as [Hpos | Hle]; split; intros H;
      try discriminate; try reflexivity; try assumption.
    exfalso. apply (Qlt_irrefl 0). eapply Qlt_le_trans; eassumption. }
  split; [reflexivity |].
  split; [| split; [| split; [| split; [| split; [| split; [| split; [| split]]]]]]].
  - rewrite List.map_map. reflexivity.
  - reflexivity.
  - reflexivity.
  - eapply List.Forall_impl;
      [| eapply calculate_optimization_savings_annual; exact Hl].
    intros s [Hs _]. exact Hs.
  - rewrite List.map_map. reflexivity.
  - reflexivity.
  - apply Hinf.
  - destruct (Qlt_le_dec 0 (sumQ (List.map implementation_cost l)))
      as [Hpos | Hle]; split; intros H;
      try discriminate; try reflexivity; try assumption.
    exfalso. apply (Qlt_irrefl 0). eapply Qlt_le_trans; eassumption.
  - apply List.Forall_map, List.Forall_forall. intros s _. apply Hinf.
Qed.

Lemma projection_size_le (size x : Q) :
  0 < size -> 1 <= x -> size <= size * x.
Proof.
  intros Hsize Hx. apply Qle_trans with (size * 1); [lra |].
  rewrite !(Qmult_comm size). apply Qmult_le_compat_r; lra.
Qed.

Lemma projection_cost_le (size x m : Q) :
  0 < size -> 1 <= x -> 0 <= m -> m <= size * x / size * m.
Proof.
  intros Hsize Hx Hm. pose proof (projection_size_le size x Hsize Hx) as H1.
  apply Qle_trans with (1 * m); [lra |].
  apply Qmult_le_compat_r; [| exact Hm].
  apply Qle_shift_div_l; [exact Hsize |]. lra.
Qed.

(** X13: for a scan of positive size and a yearly growth between 0 and 1000
    percent, for which [**] stays within the floats, [estimate_storage_growth]
    returns the projections of the years 1, 2 and 3.  No projected size is below
    the current size and, when the current monthly cost is not negative, no
    projected monthly cost is below it; the annual cost of a year is twelve
    times its monthly cost and the three-year total is the sum of the annual
    costs. *)
Theorem growth_never_projects_below_current
    (costs : StorageCosts) (scan : scan_results) (rate : Q) :
  0 < default 0 (total_size_gb scan) ->
  0 <= rate <= 1000 ->
  exists g c,
    estimate_storage_growth costs scan rate = Ok g
    /\ calculate_current_costs costs scan = Ok c
    /\ List.map year (projections g) = [1; 2; 3]%Z
    /\ Forall (fun p =>
                 projected_size_gb p
                 = default 0 (total_size_gb scan) * (1 + rate / 100) ^ year p
                 /\ default 0 (total_size_gb scan) <= projected_size_gb p
                 /\ projected_monthly_cost p
                    = projected_size_gb p / default 0 (total_size_gb scan)
                      * total_monthly_cost c
                 /\ (0 <= total_monthly_cost c ->
                     total_monthly_cost c <= projected_monthly_cost p)
                 /\ projected_annual_cost p = projected_monthly_cost p * 12)
         (projections g)
    /\ three_year_total_cost g
       = sumQ (List.map projected_annual_cost (projections g)).
Proof.
  intros Hsize [Hrate _]. unfold estimate_storage_growth.
  destruct (calculate_current_costs_total costs scan) as [c [Hc _]].
  rewrite Hc. cbn [mbind result_bind project_years].
  rewrite !truediv_nonzero by (apply positive_nonzero; exact Hsize).
  cbn [mbind result_bind].
  eexists. exists c. split; [reflexivity |]. split; [reflexivity |].
  cbn [projections three_year_total_cost List.map year].
  split; [reflexivity |]. split; [| reflexivity].
  assert (Hbase : 1 <= 1 + rate / 100).
  { assert (0 <= rate / 100)
      by (apply Qle_shift_div_l; [reflexivity | lra]).
    lra. }
  assert (Hpow : forall y, (0 <= y)%Z -> 1 <= (1 + rate / 100) ^ y)
    by (intros y Hy; apply Qpower_1_le; assumption).
  repeat (apply List.Forall_cons;
          [cbn [projected_size_gb projected_monthly_cost projected_annual_cost
                year];
           split; [reflexivity |];
           split; [apply projection_size_le; [exact Hsize | apply Hpow; lia] |];
           split; [reflexivity |];
           split; [| reflexivity];
           intros Hm;
           apply projection_cost_le; [exact Hsize | apply Hpow; lia | exact Hm]
          |]).
  apply List.Forall_nil.
Qed.

Lemma growth_never_projects_below_current_witness :
  exists g c,
    estimate_storage_growth default_costs hundred_gb_scan 20 = Ok g
    /\ calculate_current_costs default_costs hundred_gb_scan = Ok c
    /\ Forall (fun p => 100 <= projected_size_gb p) (projections g).
Proof.
  destruct (growth_never_projects_below_current default_costs hundred_gb_scan 20)
    as (g & c & Hg & Hc & _ & Hp & _).
  - reflexivity.
  - split; discriminate.
  - exists g, c. split; [exact Hg |]. split; [exact Hc |].
    eapply List.Forall_impl; [| exact Hp].
    intros p (_ & Hsize & _). exact Hsize.
Defined.

(** ** Outcomes of a plan request *)

(** X14: whenever a plan request returns, it was made for a stored, completed
    scan that the advisory client answered, and what it returns is kept.  The
    results are stored under the optimization id and the plan under the same id
    with status ["ready"], so that [get_optimization_results] and
    [get_optimization_plan] return them; the scan store is left as it was; the
    plan is the one built from the scan and the answer; and the months to pay
    back reported in the summary are those of the cost report. *)
Theorem returned_plan_is_stored
    (costs : StorageCosts) (analyze : scan_results -> result llm_analysis)
    (st st' : server) (id optimization_id new_plan_id : string)
    (res : optimization_results) :
  generate_recommendations costs analyze id optimization_id new_plan_id st
  = (Ok res, st') ->
  exists r scan analysis,
    res = Completed r
    /\ scan_results_storage st !! id = Some scan
    /\ status scan = Some "completed"%string
    /\ analyze scan = Ok analysis
    /\ co_scan_id r = id
    /\ co_llm_analysis r = analysis
    /\ co_optimization_plan r = _create_optimization_plan new_plan_id scan analysis
    /\ calculate_optimization_savings costs scan
         (optimizations (co_optimization_plan r))
       = Ok (co_optimization_savings r)
    /\ roi_months (co_summary r) = payback_months (summary (co_cost_report r))
    /\ sum_total_monthly_savings (co_summary r)
       = rs_total_monthly_savings (summary (co_cost_report r))
    /\ scan_results_storage st' = scan_results_storage st
    /\ get_optimization_results optimization_id st' = (Ok (Completed r), st')
    /\ get_optimization_plan optimization_id st'
       = (Ok (co_optimization_plan r), st')
    /\ (exists stored, script_storage st' !! optimization_id = Some stored
                       /\ sp_status stored = "ready"%string).
Proof.
  intros Hrun.
  destruct (generate_recommendations_needs_completed_scan
              costs analyze st id optimization_id new_plan_id res)
    as (scan & Hscan & Hstatus); [rewrite Hrun; reflexivity |].
  destruct (calculate_current_costs_total costs scan) as [c [Hc _]].
  revert Hrun. unfold generate_recommendations, try_except_reraise.
  cbv [mbind E_bind get_scan_results pure]. rewrite Hscan.
  rewrite bool_decide_eq_true_2 by exact Hstatus. cbn [negb]. rewrite Hc.
  destruct (analyze scan) as [analysis | e] eqn:Hanalysis; [| discriminate].
  destruct (calculate_optimization_savings_total costs scan
              (optimizations (_create_optimization_plan new_plan_id scan analysis)))
    as [l Hl].
  rewrite Hl.
  rewrite (generate_cost_report_spec costs scan _ c l Hc Hl).
  rewrite _calculate_roi_months_spec.
  unfold store_results, store_optimization_plan. cbn [mret E_ret].
  intros Hrun. injection Hrun as <- <-.
  eexists. exists scan, analysis. split; [reflexivity |].
  split; [reflexivity |]. split; [exact Hstatus |]. split; [exact Hanalysis |].
  cbn [co_scan_id co_llm_analysis co_optimization_plan co_optimization_savings
       co_summary co_cost_report roi_months sum_total_monthly_savings summary
       payback_months rs_total_monthly_savings scan_results_storage].
  repeat (split; [first [reflexivity | exact Hl] |]).
  split; [| split].
  - unfold get_optimization_results.
    cbn [optimization_results_storage]. rewrite lookup_insert_eq. reflexivity.
  - unfold get_optimization_plan.
    cbn [script_storage]. rewrite lookup_insert_eq. reflexivity.
  - eexists. cbn [script_storage]. rewrite lookup_insert_eq.
    split; reflexivity.
Qed.

Lemma returned_plan_is_stored_witness :
  exists res st',
    generate_recommendations default_costs silent_advisor "scan-0" "opt-1" "plan-1"
      (server_with_scan (empty_scan "scan-0"))
    = (Ok res, st')
    /\ get_optimization_results "opt-1" st' = (Ok res, st')
    /\ scan_results_storage st'
       = scan_results_storage (server_with_scan (empty_scan "scan-0")).
Proof.
  destruct (generate_recommendations default_costs silent_advisor
              "scan-0" "opt-1" "plan-1" (server_with_scan (empty_scan "scan-0")))
    as [[res | e] st'] eqn:Hrun.
  - destruct (returned_plan_is_stored _ _ _ _ _ _ _ _ Hrun)
      as (r & scan & analysis & Hres & _ & _ & _ & _ & _ & _ & _ & _ & _
          & Hscans & Hget & _).
    exists res, st'. subst res. repeat split; assumption.
  - exfalso. vm_compute in Hrun. discriminate Hrun.
Defined.

(** X15: every plan request records its outcome under the optimization id and
    never touches the scan store.  A failure, whatever raised it, leaves a
    failed entry carrying the message of the exception and leaves the plan
    store as it was; a success leaves the returned results and a plan. *)
Theorem generate_recommendations_records_outcome
    (costs : StorageCosts) (analyze : scan_results -> result llm_analysis)
    (st : server) (id optimization_id new_plan_id : string) :
  match generate_recommendations costs analyze id optimization_id new_plan_id st
  with
  | (Raise e, st') => st' = record_failure optimization_id id e st
  | (Ok r, st') =>
      scan_results_storage st' = scan_results_storage st
      /\ optimization_results_storage st' !! optimization_id = Some r
      /\ is_Some (script_storage st' !! optimization_id)
  end.
Proof.
  unfold generate_recommendations, try_except_reraise, record_failure.
  cbv [mbind E_bind get_scan_results pure raise].
  destruct (scan_results_storage st !! id) as [scan |]; [| reflexivity].
  destruct (bool_decide (status scan = Some "completed"%string));
    cbn [negb]; [| reflexivity].
  destruct (calculate_current_costs costs scan) as [c | e]; [| reflexivity].
  destruct (analyze scan) as [analysis | e]; [| reflexivity].
  destruct (calculate_optimization_savings costs scan _) as [l | e];
    [| reflexivity].
  destruct (generate_cost_report costs scan _) as [report | e]; [| reflexivity].
  destruct (_calculate_roi_months l) as [roi | e]; [| reflexivity].
  unfold store_results, store_optimization_plan. cbn [mret E_ret].
  cbn [scan_results_storage optimization_results_storage script_storage].
  split; [reflexivity |]. split.
  - apply lookup_insert_eq.
  - rewrite lookup_insert_eq. eexists. reflexivity.
Qed.

(** X16: a scan that found no files reports status ["completed"] but is not
    stored, so on a server that holds nothing under its id the plan request for
    that scan fails with the error of an unknown scan. *)
Theorem empty_scan_cannot_be_optimized
    (costs : StorageCosts) (analyze : scan_results -> result llm_analysis)
    (st : server) (id optimization_id new_plan_id : string) :
  scan_results_storage st !! id = None ->
  exists r st',
    execute_scan id [] st = (Ok r, st')
    /\ status r = Some "completed"%string
    /\ fst (generate_recommendations costs analyze id optimization_id
              new_plan_id st')
       = Raise (ValueError ("Scan results not found for ID: " ++ id)).
Proof.
  intros Hnone. exists (empty_scan id), st.
  split; [reflexivity |]. split; [reflexivity |].
  unfold generate_recommendations, try_except_reraise.
  cbv [mbind E_bind get_scan_results]. rewrite Hnone. reflexivity.
Qed.

Lemma empty_scan_cannot_be_optimized_witness :
  exists r st',
    execute_scan "scan-0" [] (fresh_server (steady_clock 0)) = (Ok r, st')
    /\ status r = Some "completed"%string
    /\ fst (generate_recommendations default_costs silent_advisor "scan-0"
              "opt-1" "plan-1" st')
       = Raise (ValueError ("Scan results not found for ID: " ++ "scan-0")).
Proof.
  apply (empty_scan_cannot_be_optimized default_costs silent_advisor
           (fresh_server (steady_clock 0)) "scan-0" "opt-1" "plan-1").
  apply lookup_empty.
Defined.

(** X17: [delete_scan_results] tells whether the id was stored; afterwards
    [get_scan_results] fails for that id, every other scan is still there and
    the other stores are unchanged. *)
Theorem delete_scan_results_forgets_one_scan (id : string) (st : server) :
  exists b st',
    delete_scan_results id st = (Ok b, st')
    /\ (b = true <-> is_Some (scan_results_storage st !! id))
    /\ get_scan_results id st'
       = (Raise (ValueError ("Scan results not found for ID: " ++ id)), st')
    /\ (forall other, other <> id ->
          scan_results_storage st' !! other = scan_results_storage st !! other)
    /\ optimization_results_storage st' = optimization_results_storage st
    /\ script_storage st' = script_storage st.
Proof.
  unfold delete_scan_results, get_scan_results.
  destruct (scan_results_storage st !! id) as [r |] eqn:Hr.
  - eexists. eexists. split; [reflexivity |].
    cbn [scan_results_storage optimization_results_storage script_storage].
    split; [split; [intros _; eexists; reflexivity | reflexivity] |].
    split; [rewrite lookup_delete_eq; reflexivity |].
    split; [| split; reflexivity].
    intros other Hne. apply lookup_delete_ne. congruence.
  - exists false, st. split; [reflexivity |].
    split; [split; [discriminate | intros [x Hx]; discriminate] |].
    rewrite Hr. repeat split.
Qed.

(** ** Grouping by a key *)

Section GroupingFacts.
Context {A K V : Type} (eqb : K -> K -> bool) (kf : A -> K) (vf : A -> V).
Hypothesis eqb_spec : forall a b, reflect (a = b) (eqb a b).

Lemma filter_key_nil (k : K) (xs : list A) :
  (forall x, In x xs -> kf x <> k) ->
  List.filter (fun x => eqb (kf x) k) xs = [].
Proof.
  induction xs as [| y xs IH]; intros H; [reflexivity |].
  simpl. destruct (eqb_spec (kf y) k) as [E | _].
  - exfalso. apply (H y); [left; reflexivity | exact E].
  - apply IH. intros x Hx. apply H. right. exact Hx.
Qed.

(** After the loop [for x in xs: d[kf x].append(vf x)] every group holds the
    values of the inputs with its key, in input order. *)
Lemma grouping_invariant (xs : list A) :
  List.NoDup
    (List.map fst
       (fold_left (fun d x => dict_append eqb (kf x) (vf x) d) xs []))
  /\ (forall k vs,
        In (k, vs) (fold_left (fun d x => dict_append eqb (kf x) (vf x) d) xs [])
        -> vs = List.map vf (List.filter (fun x => eqb (kf x) k) xs))
  /\ (forall x, In x xs ->
        In (kf x)
          (List.map fst
             (fold_left (fun d x => dict_append eqb (kf x) (vf x) d) xs []))).
Proof.
  induction xs as [| y xs [Hnd [Hgroups Hkeys]]] using List.rev_ind.
  - split; [constructor |]. split; [intros k vs [] | intros x []].
  - rewrite List.fold_left_app. simpl fold_left.
    split; [apply dict_append_nodup; [exact eqb_spec | exact Hnd] |]. split.
    + intros k vs Hin.
      apply (dict_append_entries eqb eqb_spec) in Hin; [| exact Hnd].
      rewrite List.filter_app, List.map_app. simpl.
      destruct Hin as [[Hk Hd] | [[Hk [ws [Hd Hv]]] | [Hk [Hd Hv]]]].
      * destruct (eqb_spec (kf y) k) as [E | _]; [congruence |].
        rewrite List.app_nil_r. apply Hgroups. exact Hd.
      * subst k. destruct (eqb_spec (kf y) (kf y)) as [_ | N]; [| contradiction].
        rewrite <- (Hgroups _ ws Hd). exact Hv.
      * subst k. destruct (eqb_spec (kf y) (kf y)) as [_ | N]; [| contradiction].
        rewrite filter_key_nil; [exact Hv |].
        intros x Hx E. apply Hd. rewrite <- E. apply Hkeys. exact Hx.
    + intros x Hx. apply List.in_app_or in Hx. destruct Hx as [Hx | [-> | []]].
      * apply dict_append_keeps_keys; [exact eqb_spec |]. apply Hkeys. exact Hx.
      * apply dict_append_keys. exact eqb_spec.
Qed.

Lemma grouping_total_length (xs : list A) :
  length
    (List.concat
       (List.map snd
          (fold_left (fun d x => dict_append eqb (kf x) (vf x) d) xs [])))
  = length xs.
Proof.
  induction xs as [| y xs IH] using List.rev_ind; [reflexivity |].
  rewrite List.fold_left_app. simpl fold_left.
  rewrite dict_append_total_length, IH, List.length_app. simpl. lia.
Qed.

End GroupingFacts.

(** ** The plan builder *)

Section PlanFacts.

Lemma cold_days_above_threshold (now : Q) (thr : Z) (f : file_info) :
  is_cold now thr f = true -> inject_Z thr < days_since now f.
Proof.
  intros Hcold. apply Qltb_true in Hcold. rewrite inject_Z_mult in Hcold.
  pose proof ms_per_day_pos as Hd. unfold days_since.
  apply Qlt_shift_div_l; [exact Hd |]. lra.
Qed.

Lemma filter_all {A} (p : A -> bool) (l : list A) :
  Forall (fun x => p x = true) l -> List.filter p l = l.
Proof.
  induction 1 as [| x l Hx _ IH]; [reflexivity |].
  simpl. rewrite Hx, IH. reflexivity.
Qed.

Lemma sumQ_gb (sizes : list Z) :
  sumQ (List.map gb sizes) == inject_Z (sumZ sizes) / inject_Z (1024 ^ 3).
Proof.
  unfold gb. induction sizes as [| z sizes IH]; simpl.
  - reflexivity.
  - rewrite IH, inject_Z_plus. field. discriminate.
Qed.

Lemma sumZ_lengths {A} (l : list (string * list A)) :
  sumZ (List.map (fun g => len (snd g)) l)
  = Z.of_nat (length (List.concat (List.map snd l))).
Proof.
  induction l as [| g l IH]; simpl; [reflexivity |].
  rewrite IH, List.length_app. unfold len. lia.
Qed.

End PlanFacts.

(** X18: on the cold data of a scan the 90-day filter of
    [_create_cold_data_optimization] removes nothing, since the scan uses the
    180-day threshold: every cold record has been idle for more than 180 days.
    The action is dropped exactly when the scan found no cold data, and
    otherwise lists every cold file, with the recommendation's savings estimate
    times 0.03 and the sum of the listed sizes in GB. *)
Theorem cold_data_action_lists_all_cold_files
    (id : string) (files : list file_info) (st : server) (rec : recommendation) :
  exists r cold,
    fst (execute_scan id files st) = Ok r
    /\ cold_data r = Some cold
    /\ Forall (fun c => 180 < days_since_access c) cold
    /\ match _create_cold_data_optimization r rec with
       | None => cold = []
       | Some a =>
           cold <> []
           /\ category a = "cold_data"%string
           /\ targets a = Files (List.map migrate_of cold)
           /\ estimated_monthly_savings a = savings_gb rec * 0.03
           /\ affected_data_gb a
              == inject_Z (sumZ (List.map (fun c => get_size (cold_file c)) cold))
                 / inject_Z (1024 ^ 3)
       end.
Proof.
  destruct files as [| f files].
  - exists (empty_scan id), []. repeat split. constructor.
  - destruct (execute_scan_nonempty id f files st)
      as (r & st' & Hrun & _ & _ & _ & _ & _ & _ & _ & Hcold & _).
    exists r. eexists. rewrite Hrun. split; [reflexivity |].
    split; [exact Hcold |].
    set (now := next_reading (the_clock st)) in *.
    assert (Hdays : Forall (fun c => 180 < days_since_access c)
                      (List.map (capped_cold now)
                         (List.filter (is_cold now 180) (f :: files)))).
    { apply List.Forall_map, List.Forall_forall. intros g Hg.
      apply List.filter_In in Hg. destruct Hg as [_ Hg]. simpl.
      apply (cold_days_above_threshold now 180 g Hg). }
    split; [exact Hdays |].
    unfold _create_cold_data_optimization. rewrite Hcold. cbn [default].
    rewrite filter_all.
    + fold migrate_of.
      destruct (List.map (capped_cold now)
                  (List.filter (is_cold now 180) (f :: files)))
        as [| c cold]; [reflexivity |].
      cbn [List.map]. split; [discriminate |].
      split; [reflexivity |]. split; [reflexivity |]. split; [reflexivity |].
      cbn [affected_data_gb].
      change (migrate_of c :: List.map migrate_of cold)
        with (List.map migrate_of (c :: cold)).
      rewrite List.map_map. cbn [migrate_of file_size_gb].
      rewrite <- (List.map_map (fun c => get_size (cold_file c)) gb).
      apply sumQ_gb.
    + eapply List.Forall_impl; [| exact Hdays].
      intros c Hc. apply Qltb_true. cbn beta.
      eapply Qlt_trans; [| exact Hc]. reflexivity.
Qed.

Section SmallFilePlanFacts.

Lemma directory_groups_invariant (small : list small_record) :
  List.NoDup (List.map fst (directory_groups small))
  /\ (forall k vs, In (k, vs) (directory_groups small) ->
        vs = List.map small_entry_of
               (List.filter
                  (fun f => String.eqb (parent_of (get_path (small_file f))) k)
                  small))
  /\ sumZ (List.map (fun g => len (snd g)) (directory_groups small)) = len small.
Proof.
  pose proof (grouping_invariant String.eqb
                (fun f => parent_of (get_path (small_file f))) small_entry_of
                String.eqb_spec small) as [Hnd [Hgroups _]].
  pose proof (grouping_total_length String.eqb
                (fun f => parent_of (get_path (small_file f))) small_entry_of
                small) as Hlen.
  split; [exact Hnd |]. split; [exact Hgroups |].
  rewrite sumZ_lengths. unfold len. f_equal. exact Hlen.
Qed.

End SmallFilePlanFacts.

(** ** Key order of an insertion-ordered dict *)

Section KeyOrder.
Context {A K V : Type} (eqb : K -> K -> bool) (kf : A -> K) (vf : A -> V).
Hypothesis eqb_spec : forall a b, reflect (a = b) (eqb a b).

Lemma dict_append_key_list (k : K) (v : V) (d : list (K * list V)) :
  List.map fst (dict_append eqb k v d)
  = if List.existsb (fun k' => eqb k' k) (List.map fst d)
    then List.map fst d else List.map fst d ++ [k].
Proof.
  induction d as [| [k' vs] d IH]; simpl; [reflexivity |].
  destruct (eqb k' k) eqn:E; simpl; [reflexivity |].
  rewrite IH. destruct (List.existsb _ _); reflexivity.
Qed.

Lemma first_occurrences_in (l : list K) (y : K) :
  In y (first_occurrences eqb l) <-> In y l.
Proof.
  induction l as [| x l IH]; simpl; [reflexivity |].
  rewrite List.filter_In, IH. split.
  - intros [-> | [Hy _]]; auto.
  - intros [-> | Hy]; [left; reflexivity |].
    destruct (eqb_spec y x) as [-> | N]; [left; reflexivity |].
    right. split; [exact Hy | reflexivity].
Qed.

Lemma first_occurrences_nodup (l : list K) :
  List.NoDup (first_occurrences eqb l).
Proof.
  induction l as [| x l IH]; simpl; constructor.
  - rewrite List.filter_In. intros [_ Hx].
    destruct (eqb_spec x x) as [_ | N]; [discriminate | contradiction].
  - apply List.NoDup_filter. exact IH.
Qed.

Lemma first_occurrences_snoc (l : list K) (k : K) :
  first_occurrences eqb (l ++ [k])
  = if List.existsb (fun k' => eqb k' k) (first_occurrences eqb l)
    then first_occurrences eqb l else first_occurrences eqb l ++ [k].
Proof.
  induction l as [| x l IH]; simpl; [reflexivity |].
  rewrite IH.
  destruct (List.existsb (fun k' => eqb k' k) (first_occurrences eqb l)) eqn:Ex.
  - assert (H : eqb x k
                || List.existsb (fun k' => eqb k' k)
                     (List.filter (fun y => negb (eqb y x))
                        (first_occurrences eqb l)) = true).
    { destruct (eqb_spec x k) as [_ | N]; [reflexivity |]. simpl.
      apply List.existsb_exists in Ex. destruct Ex as [y [Hy Hyk]].
      apply List.existsb_exists. exists y. split; [| exact Hyk].
      apply List.filter_In. split; [exact Hy |].
      destruct (eqb_spec y k) as [-> | _]; [| discriminate].
      destruct (eqb_spec k x) as [-> | _]; [contradiction | reflexivity]. }
    rewrite H. reflexivity.
  - rewrite List.filter_app. simpl.
    destruct (eqb_spec x k) as [-> | N]; simpl.
    + destruct (eqb_spec k k) as [_ | N]; [| contradiction]. simpl.
      rewrite List.app_nil_r. reflexivity.
    + destruct (eqb_spec k x) as [E | _]; [symmetry in E; contradiction |].
      simpl.
      destruct (List.existsb (fun k' => eqb k' k)
                  (List.filter (fun y => negb (eqb y x))
                     (first_occurrences eqb l))) eqn:Ex'; [| reflexivity].
      apply List.existsb_exists in Ex'. destruct Ex' as [y [Hy Hyk]].
      apply List.filter_In in Hy. destruct Hy as [Hy _].
      assert (List.existsb (fun k' => eqb k' k) (first_occurrences eqb l) = true)
        by (apply List.existsb_exists; exists y; auto).
      congruence.
Qed.

(** The keys of the table come in the order in which they first occur. *)
Lemma grouping_keys (xs : list A) :
  List.map fst (fold_left (fun d x => dict_append eqb (kf x) (vf x) d) xs [])
  = first_occurrences eqb (List.map kf xs).
Proof.
  induction xs as [| y xs IH] using List.rev_ind; [reflexivity |].
  rewrite List.fold_left_app. simpl fold_left.
  rewrite dict_append_key_list, IH, List.map_app. simpl List.map.
  rewrite first_occurrences_snoc. reflexivity.
Qed.

Lemma table_of_keys (F : K -> list V) (d : list (K * list V)) :
  (forall k vs, In (k, vs) d -> vs = F k) ->
  d = List.map (fun k => (k, F k)) (List.map fst d).
Proof.
  induction d as [| [k vs] d IH]; intros H; [reflexivity |].
  simpl. rewrite <- IH by (intros k' vs' Hin; apply H; right; exact Hin).
  rewrite <- (H k vs) by (left; reflexivity). reflexivity.
Qed.

End KeyOrder.

Section CrowdedDirectories.

(** The table of [_create_small_files_optimization]: one entry per parent
    directory, in order of first appearance, with the small files it holds. *)
Lemma directory_groups_spec (small : list small_record) :
  directory_groups small
  = List.map (fun d => (d, List.map small_entry_of (small_in d small)))
      (small_parents small).
Proof.
  destruct (directory_groups_invariant small) as [_ [Hgroups _]].
  rewrite (table_of_keys
             (fun d => List.map small_entry_of (small_in d small))
             (directory_groups small) Hgroups) at 1.
  f_equal.
  apply (grouping_keys String.eqb
           (fun f => parent_of (get_path (small_file f))) small_entry_of
           String.eqb_spec small).
Qed.

Lemma filter_map_swap {A B} (p : B -> bool) (g : A -> B) (l : list A) :
  List.filter p (List.map g l) = List.map g (List.filter (fun x => p (g x)) l).
Proof.
  induction l as [| x l IH]; simpl; [reflexivity |].
  destruct (p (g x)); simpl; rewrite IH; reflexivity.
Qed.

Lemma small_in_parent (d : string) (small : list small_record) :
  small_in d small <> [] -> In d (small_parents small).
Proof.
  intros Hne. unfold small_parents.
  apply (first_occurrences_in String.eqb String.eqb_spec).
  destruct (small_in d small) as [| f rest] eqn:E; [contradiction |].
  assert (Hf : In f (small_in d small)) by (rewrite E; left; reflexivity).
  apply List.filter_In in Hf. destruct Hf as [Hf Hd].
  apply List.in_map_iff. exists f. split; [| exact Hf].
  apply String.eqb_eq. exact Hd.
Qed.

End CrowdedDirectories.

(** X19: [_create_small_files_optimization] groups the small files of the scan
    by parent directory.  It is dropped exactly when no directory holds 10 of
    them; otherwise it lists the directories with at least 10 small files, all
    of them, once each and in the order in which they first appear in the scan,
    every directory with precisely the small files whose parent it is.  The
    savings estimate counts every small file of the scan, also those in
    directories that are not listed. *)
Theorem small_files_action_lists_crowded_directories
    (scan : scan_results) (rec : recommendation) :
  match _create_small_files_optimization scan rec with
  | None =>
      forall d, (len (small_in d (default [] (small_files scan))) < 10)%Z
  | Some a =>
      exists ds,
        targets a = Directories ds
        /\ ds = List.map (consolidation_of (default [] (small_files scan)))
                  (List.filter
                     (fun d =>
                        (10 <=? len (small_in d (default [] (small_files scan))))%Z)
                     (small_parents (default [] (small_files scan))))
        /\ ds <> []
        /\ category a = "small_files"%string
        /\ List.NoDup (List.map dir_path ds)
        /\ (forall d,
              In d (List.map dir_path ds)
              <-> (10 <= len (small_in d (default [] (small_files scan))))%Z)
        /\ Forall (fun d =>
                     (10 <= dir_file_count d)%Z
                     /\ dir_file_count d = len (dir_entries d)
                     /\ dir_entries d
                        = List.map small_entry_of
                            (small_in (dir_path d)
                               (default [] (small_files scan))))
             ds
        /\ estimated_monthly_savings a
           = inject_Z (len (default [] (small_files scan))) * 0.001
  end.
Proof.
  unfold _create_small_files_optimization.
  set (small := default [] (small_files scan)).
  set (crowded := fun d => (10 <=? len (small_in d small))%Z).
  assert (Hlen : forall d,
            len (List.map small_entry_of (small_in d small))
            = len (small_in d small))
    by (intros d; unfold len; rewrite List.length_map; reflexivity).
  assert (Hlist :
            List.map
              (fun g : string * list small_entry =>
                 {| dir_path := fst g;
                    dir_entries := snd g;
                    dir_file_count := len (snd g);
                    dir_total_size_gb := sumQ (List.map entry_size_gb (snd g)) |})
              (List.filter
                 (fun g : string * list small_entry => (10 <=? len (snd g))%Z)
                 (directory_groups small))
            = List.map (consolidation_of small)
                (List.filter crowded (small_parents small))).
  { rewrite directory_groups_spec, filter_map_swap, List.map_map.
    cbn [fst snd].
    rewrite (List.filter_ext _ crowded)
      by (intros d; unfold crowded; rewrite Hlen; reflexivity).
    apply List.map_ext. intros d. unfold consolidation_of.
    rewrite Hlen. reflexivity. }
  assert (Hmem : forall d,
            In d (List.filter crowded (small_parents small))
            <-> (10 <= len (small_in d small))%Z).
  { intros d. rewrite List.filter_In. unfold crowded. split.
    - intros [_ H]. lia.
    - intros H. split; [| lia]. apply small_in_parent.
      intros E. rewrite E in H. unfold len in H. simpl in H. lia. }
  rewrite Hlist.
  destruct (List.map (consolidation_of small)
              (List.filter crowded (small_parents small))) as [| d0 ds0] eqn:E.
  - intros d. apply List.map_eq_nil in E.
    destruct (Z.ltb_spec (len (small_in d small)) 10) as [Hlt | Hge];
      [exact Hlt |].
    apply Hmem in Hge. rewrite E in Hge. destruct Hge.
  - eexists. split; [reflexivity |]. rewrite <- E.
    split; [reflexivity |]. split; [rewrite E; discriminate |].
    split; [reflexivity |].
    assert (Hpaths : List.map dir_path
                       (List.map (consolidation_of small)
                          (List.filter crowded (small_parents small)))
                     = List.filter crowded (small_parents small)).
    { rewrite List.map_map. cbn [consolidation_of dir_path]. apply List.map_id. }
    rewrite Hpaths.
    split; [| split; [| split; [| reflexivity]]].
    + apply List.NoDup_filter.
      apply (first_occurrences_nodup String.eqb String.eqb_spec).
    + exact Hmem.
    + apply List.Forall_map, List.Forall_forall. intros d Hd.
      apply Hmem in Hd. cbn [consolidation_of dir_file_count dir_entries dir_path].
      split; [exact Hd |]. split; [| reflexivity].
      symmetry. apply Hlen.
Qed.

Section CleanupPlanFacts.

Lemma sumQ_app (l1 l2 : list Q) : sumQ (l1 ++ l2) == sumQ l1 + sumQ l2.
Proof.
  induction l1 as [| x l1 IH]; simpl; [ring |]. rewrite IH. ring.
Qed.

Lemma sumQ_zero {A} (g : A -> Q) (l : list A) :
  (forall x, g x = 0) -> sumQ (List.map g l) == 0.
Proof.
  intros Hg. induction l as [| x l IH]; simpl; [reflexivity |].
  rewrite Hg, IH. ring.
Qed.

Lemma cleanup_sizes (orphaned : list orphan_record) (empty : list empty_record) :
  sumQ (List.map file_size_gb
          (List.map
             (fun f =>
                OrphanedFile (path (orphan_file f)) (get_size (orphan_file f))
                  (gb (get_size (orphan_file f))) (age_days f)
                  (cleanup_priority f))
             orphaned
           ++ List.map
                (fun f =>
                   EmptyFile (path (empty_file f)) (get_size (empty_file f)) "low")
                empty))
  == size_gb_of orphan_file orphaned.
Proof.
  rewrite List.map_app, sumQ_app, !List.map_map. cbn [file_size_gb].
  rewrite (sumQ_zero (fun _ => 0)) by reflexivity.
  rewrite <- (List.map_map (fun f => get_size (orphan_file f)) gb), sumQ_gb.
  unfold size_gb_of. ring.
Qed.

End CleanupPlanFacts.

(** X20: [_create_cleanup_optimization] is dropped exactly when the scan has
    neither orphaned nor empty files; otherwise it lists the orphaned files and
    then the empty files, each once and in scan order.  Empty files add nothing
    to its figures: the affected size is the size of the orphaned files and the
    savings estimate is that size times 0.04 times 3, which is what the cleanup
    formula of the calculator gives at the default rates, less the metadata
    cost of the orphaned files. *)
Theorem cleanup_action_counts_orphaned_bytes_only
    (scan : scan_results) (rec : recommendation) :
  match _create_cleanup_optimization scan rec with
  | None =>
      default [] (orphaned_files scan) = [] /\ default [] (empty_files scan) = []
  | Some a =>
      exists s,
        targets a
        = Files (List.map orphaned_entry_of (default [] (orphaned_files scan))
                 ++ List.map empty_entry_of (default [] (empty_files scan)))
        /\ (default [] (orphaned_files scan) <> []
            \/ default [] (empty_files scan) <> [])
        /\ category a = "cleanup"%string
        /\ affected_data_gb a
           == size_gb_of orphan_file (default [] (orphaned_files scan))
        /\ estimated_monthly_savings a
           == size_gb_of orphan_file (default [] (orphaned_files scan)) * 0.04 * 3
        /\ _calculate_cleanup_savings default_costs scan = Ok s
        /\ savings s
           == estimated_monthly_savings a
              + inject_Z (len (default [] (orphaned_files scan))) * 0.0001
  end.
Proof.
  unfold _create_cleanup_optimization.
  set (orphaned := default [] (orphaned_files scan)).
  set (empty := default [] (empty_files scan)).
  pose proof (cleanup_sizes orphaned empty) as Hsizes.
  change (fun f : orphan_record =>
            OrphanedFile (path (orphan_file f)) (get_size (orphan_file f))
              (gb (get_size (orphan_file f))) (age_days f) (cleanup_priority f))
    with orphaned_entry_of in *.
  change (fun f : empty_record =>
            EmptyFile (path (empty_file f)) (get_size (empty_file f)) "low")
    with empty_entry_of in *.
  destruct (List.map orphaned_entry_of orphaned ++ List.map empty_entry_of empty)
    as [| x fs] eqn:E.
  - apply List.app_eq_nil in E. destruct E as [E1 E2].
    apply List.map_eq_nil in E1, E2. auto.
  - eexists. split; [reflexivity |].
    split; [| split; [reflexivity |]].
    + destruct orphaned as [| o orphaned']; [| left; discriminate].
      destruct empty as [| e empty']; [discriminate E | right; discriminate].
    + split; [| split; [| split; [reflexivity |]]].
      * cbn [affected_data_gb]. exact Hsizes.
      * cbn [estimated_monthly_savings]. rewrite Hsizes. reflexivity.
      * cbn [savings estimated_monthly_savings]. rewrite Hsizes.
        fold orphaned. cbn. ring.
Qed.

Section PlanAssemblyFacts.

Lemma action_for_category (scan : scan_results) (r : recommendation) :
  match action_for scan r with
  | Some a =>
      if planned_category (default "unknown"%string (rec_category r))
      then category a = default "unknown"%string (rec_category r)
      else category a = default "generic"%string (rec_category r)
  | None => planned_category (default "unknown"%string (rec_category r)) = true
  end.
Proof.
  unfold action_for, planned_category.
  set (cat := default "unknown"%string (rec_category r)).
  destruct (String.eqb_spec cat "cold_data") as [E | _].
  { cbn [orb]. unfold _create_cold_data_optimization.
    destruct (List.map _ _); [reflexivity | symmetry; exact E]. }
  destruct (String.eqb_spec cat "small_files") as [E | _].
  { cbn [orb]. unfold _create_small_files_optimization.
    destruct (List.map _ _); [reflexivity | symmetry; exact E]. }
  destruct (String.eqb_spec cat "replication") as [E | _].
  { cbn [orb]. unfold _create_replication_optimization.
    destruct (List.map _ _); [reflexivity | symmetry; exact E]. }
  destruct (String.eqb_spec cat "cleanup") as [E | _].
  { cbn [orb]. unfold _create_cleanup_optimization.
    destruct (_ ++ _); [reflexivity | symmetry; exact E]. }
  reflexivity.
Qed.

Lemma unplanned_default (r : recommendation) :
  planned_category (default "unknown"%string (rec_category r)) = false ->
  planned_category (default "generic"%string (rec_category r)) = false.
Proof. destruct (rec_category r); [intros H; exact H | reflexivity]. Qed.

Lemma complexity_weight_bounds (tag : string) :
  (1 <= complexity_weight tag <= 3)%Z.
Proof.
  unfold complexity_weight.
  destruct (String.eqb tag "low"), (String.eqb tag "medium"),
    (String.eqb tag "high"); lia.
Qed.

Lemma total_complexity_bounds (l : list action) :
  (len l
   <= sumZ (List.map (fun a => complexity_weight (implementation_complexity a)) l)
   <= 3 * len l)%Z.
Proof.
  unfold len. induction l as [| a l IH]; simpl length; simpl sumZ; [simpl; lia |].
  pose proof (complexity_weight_bounds (implementation_complexity a)).
  cbn [List.map sumZ fold_right] in *. lia.
Qed.

End PlanAssemblyFacts.

(** X21: [_create_optimization_plan] keeps the order of the recommendations
    and never drops one whose category has no constructor of its own: those
    become, one for one, the actions outside the four planned categories, under
    the recommendation's category or ["generic"] when it has none.  The plan
    carries the id it was given, no more actions than recommendations, the sum
    of the actions' savings as monthly total and twelve times that as annual
    total. *)
Theorem plan_keeps_unplanned_recommendations
    (id : string) (scan : scan_results) (analysis : llm_analysis) :
  plan_id (_create_optimization_plan id scan analysis) = id
  /\ (length (optimizations (_create_optimization_plan id scan analysis))
      <= length (default [] (recommendations analysis)))%nat
  /\ List.filter (fun c => negb (planned_category c))
       (List.map category
          (optimizations (_create_optimization_plan id scan analysis)))
     = List.map (fun r => default "generic"%string (rec_category r))
         (List.filter
            (fun r => negb (planned_category
                              (default "unknown"%string (rec_category r))))
            (default [] (recommendations analysis)))
  /\ total_monthly_savings (_create_optimization_plan id scan analysis)
     = sumQ (List.map estimated_monthly_savings
               (optimizations (_create_optimization_plan id scan analysis)))
  /\ total_annual_savings (_create_optimization_plan id scan analysis)
     = total_monthly_savings (_create_optimization_plan id scan analysis) * 12
  /\ plan_affected_data_gb (_create_optimization_plan id scan analysis)
     = sumQ (List.map affected_data_gb
               (optimizations (_create_optimization_plan id scan analysis))).
Proof.
  unfold _create_optimization_plan. cbn [plan_id optimizations
    total_monthly_savings total_annual_savings plan_affected_data_gb].
  split; [reflexivity |].
  split; [| split; [| repeat split]].
  - induction (default [] (recommendations analysis)) as [| r recs IH];
      [simpl; lia |].
    cbn [omap list_omap]. destruct (action_for scan r); cbn [length]; lia.
  - induction (default [] (recommendations analysis)) as [| r recs IH];
      [reflexivity |].
    pose proof (action_for_category scan r) as Hcat.
    cbn [omap list_omap List.filter].
    destruct (action_for scan r) as [a |];
      destruct (planned_category (default "unknown"%string (rec_category r)))
        eqn:Hp; cbn [negb List.map List.filter].
    + rewrite Hcat, Hp. cbn [negb]. exact IH.
    + rewrite Hcat, (unplanned_default r Hp). cbn [negb List.map].
      f_equal. exact IH.
    + exact IH.
    + discriminate Hcat.
Qed.

(** X22: the implementation time depends on the number of actions whatever
    their complexity tags: it is one of the three estimates; a plan of at most
    one action always takes ["1-2 weeks"], a plan of four or more never does,
    and a plan of seven or more always takes ["2-3 months"]. *)
Theorem implementation_time_by_plan_size (l : list action) :
  In (_estimate_implementation_time l)
    ["1-2 weeks"; "1 month"; "2-3 months"]%string
  /\ ((length l <= 1)%nat ->
      _estimate_implementation_time l = "1-2 weeks"%string)
  /\ ((4 <= length l)%nat ->
      _estimate_implementation_time l <> "1-2 weeks"%string)
  /\ ((7 <= length l)%nat ->
      _estimate_implementation_time l = "2-3 months"%string).
Proof.
  pose proof (total_complexity_bounds l) as Hb. unfold len in Hb.
  unfold _estimate_implementation_time.
  destruct (Z.leb_spec
              (sumZ (List.map
                       (fun a => complexity_weight (implementation_complexity a))
                       l)) 3) as [H3 | H3];
    [| destruct (Z.leb_spec
                   (sumZ (List.map
                            (fun a =>
                               complexity_weight (implementation_complexity a))
                            l)) 6) as [H6 | H6]].
  - split; [left; reflexivity |]. split; [reflexivity |].
    split; intros Hlen; lia.
  - split; [right; left; reflexivity |]. split; [intros Hlen; lia |].
    split; [intros _; discriminate | intros Hlen; lia].
  - split; [right; right; left; reflexivity |]. split; [intros Hlen; lia |].
    split; [intros _; discriminate | reflexivity].
Qed.

(** X23: on the result of a scan [_create_replication_optimization] is dropped
    exactly when no input file has a replication above 3; otherwise it lists
    every such file, in input order, each with its current replication, which
    exceeds 3, and the suggested replication 3, the sum of their sizes in GB as
    affected data and the recommendation's savings estimate times 0.04. *)
Theorem replication_action_lists_over_replicated_files
    (id : string) (files : list file_info) (st : server) (rec : recommendation) :
  exists r,
    fst (execute_scan id files st) = Ok r
    /\ (_create_replication_optimization r rec = None
        <-> List.filter is_over_replicated files = [])
    /\ match _create_replication_optimization r rec with
       | None => List.filter is_over_replicated files = []
       | Some a =>
           List.filter is_over_replicated files <> []
           /\ targets a
              = Files (List.map replication_entry_of
                         (List.filter is_over_replicated files))
           /\ category a = "replication"%string
           /\ Forall (fun f => (3 < get_replication f)%Z)
                (List.filter is_over_replicated files)
           /\ estimated_monthly_savings a = savings_gb rec * 0.04
           /\ affected_data_gb a
              == inject_Z (sumZ (List.map get_size
                                   (List.filter is_over_replicated files)))
                 / inject_Z (1024 ^ 3)
       end.
Proof.
  destruct files as [| f files].
  - exists (empty_scan id). repeat split.
  - destruct (execute_scan_nonempty id f files st)
      as (r & st' & Hrun & _ & _ & _ & _ & _ & _ & _ & _ & _ & _ & Hover & _).
    exists r. rewrite Hrun. split; [reflexivity |].
    unfold _create_replication_optimization. rewrite Hover.
    change (default [] (Some (List.map mk_overrep
                                (List.filter is_over_replicated (f :: files)))))
      with (List.map mk_overrep (List.filter is_over_replicated (f :: files))).
    rewrite List.map_map. cbn [overrep_file mk_overrep current_replication
                               suggested_replication].
    change (fun x : file_info =>
              ReplicationFile (path x) (get_size x) (gb (get_size x))
                (get_replication x) 3)
      with replication_entry_of.
    assert (H3 : Forall (fun f => (3 < get_replication f)%Z)
                   (List.filter is_over_replicated (f :: files))).
    { apply List.Forall_forall. intros x Hx.
      apply List.filter_In in Hx. destruct Hx as [_ Hx].
      unfold is_over_replicated in Hx. lia. }
    destruct (List.filter is_over_replicated (f :: files)) as [| g over] eqn:E.
    + repeat split.
    + cbn [List.map]. split; [split; discriminate |].
      split; [discriminate |]. split; [reflexivity |].
      split; [reflexivity |]. split; [exact H3 |].
      split; [reflexivity |].
      cbn [affected_data_gb].
      change (sumQ (List.map file_size_gb
                      (List.map replication_entry_of (g :: over)))
              == inject_Z (sumZ (List.map get_size (g :: over)))
                 / inject_Z (1024 ^ 3)).
      rewrite List.map_map. cbn [file_size_gb replication_entry_of].
      rewrite <- (List.map_map get_size gb). apply sumQ_gb.
Qed.

(** ** The efficiency score of the summary *)

Section ScoreFacts.

Lemma py_min_le_r (a b : Q) : py_min a b <= b.
Proof. unfold py_min. destruct (Qlt_le_dec b a); lra. Qed.

Lemma py_min_nonneg (a b : Q) : 0 <= a -> 0 <= b -> 0 <= py_min a b.
Proof. unfold py_min. destruct (Qlt_le_dec b a); lra. Qed.

Lemma py_max_0_of_pos (x : Q) : 0 < x -> py_max 0 x = x.
Proof.
  intros Hx. unfold py_max. destruct (Qlt_le_dec 0 x); [reflexivity | lra].
Qed.

Lemma score_unclamped (s o : Q) :
  py_max 0 (100 - py_min s 50 - py_min o 30) = 100 - py_min s 50 - py_min o 30
  /\ 20 <= 100 - py_min s 50 - py_min o 30.
Proof.
  pose proof (py_min_le_r s 50). pose proof (py_min_le_r o 30).
  split; [apply py_max_0_of_pos |]; lra.
Qed.

Lemma analyze_file_efficiency_percentages (files : list file_info) :
  exists e,
    analyze_file_efficiency files = Ok e
    /\ 0 <= small_files_percentage e <= 100
    /\ 0 <= over_replicated_percentage e <= 100
    /\ empty_files_count e = len (List.filter is_empty files).
Proof.
  unfold analyze_file_efficiency. rewrite efficiency_loop_spec.
  rewrite !percentage_value. cbn [mbind result_bind].
  eexists. split; [reflexivity |].
  cbn [small_files_percentage over_replicated_percentage empty_files_count].
  split; [| split].
  - apply percentage_bounds. unfold len. rewrite List.length_map.
    split; [lia |]. pose proof (List.filter_length_le is_small files). lia.
  - apply percentage_bounds. unfold len. rewrite List.length_map.
    split; [lia |].
    pose proof (List.filter_length_le is_over_replicated files). lia.
  - unfold len. rewrite List.length_map. reflexivity.
Qed.

Lemma execute_scan_efficiency (id : string) (f : file_info)
    (files : list file_info) (st : server) :
  exists r eff,
    fst (execute_scan id (f :: files) st) = Ok r
    /\ analyze_file_efficiency (f :: files) = Ok eff
    /\ total_files r = Some (len (f :: files))
    /\ efficiency_analysis r
       = Some {| se_small_files_count := small_files_count eff;
                 se_small_files_percentage := small_files_percentage eff;
                 se_empty_files_count := empty_files_count eff;
                 se_over_replicated_count := over_replicated_count eff;
                 se_over_replicated_percentage := over_replicated_percentage eff;
                 se_efficiency_summary := eff_summary eff;
                 se_inefficient_replication := None |}.
Proof.
  destruct (analyze_file_efficiency_total (f :: files)) as [eff [He _]].
  destruct (analyze_directory_structure_total (f :: files)) as [dirs Hd].
  destruct (calculate_storage_waste_total (f :: files)) as [waste [Hw _]].
  destruct (generate_optimization_priority_total (f :: files)
              (tick (tick (the_clock st)))) as [prio Hp].
  pose proof (identify_cold_data_positive_threshold
                (next_reading (the_clock st)) 180 (f :: files) ltac:(lia)) as Hc.
  exists
    {| scan_id := id; status := Some "completed"%string;
       total_files := Some (len (f :: files));
       scan_total_size_bytes := Some (sumZ (List.map get_size (f :: files)));
       total_size_gb :=
         Some (inject_Z (sumZ (List.map get_size (f :: files)))
               / inject_Z (1024 ^ 3));
       cold_data :=
         Some (List.map (capped_cold (next_reading (the_clock st)))
                 (List.filter (is_cold (next_reading (the_clock st)) 180)
                    (f :: files)));
       duplicate_candidates := Some (detect_duplicate_candidates (f :: files));
       small_files := Some (eff_small_files eff);
       empty_files := Some (eff_empty_files eff);
       orphaned_files :=
         Some (identify_orphaned_temp_files_at
                 (next_reading (tick (the_clock st))) (f :: files));
       over_replicated_files := Some (inefficient_replication eff);
       efficiency_analysis :=
         Some {| se_small_files_count := small_files_count eff;
                 se_small_files_percentage := small_files_percentage eff;
                 se_empty_files_count := empty_files_count eff;
                 se_over_replicated_count := over_replicated_count eff;
                 se_over_replicated_percentage := over_replicated_percentage eff;
                 se_efficiency_summary := eff_summary eff;
                 se_inefficient_replication := None |};
       scan_directory_analysis := Some dirs;
       waste_analysis := Some waste;
       optimization_priorities := Some prio |}, eff.
  split; [| split; [exact He | split; reflexivity]].
  unfold execute_scan, try_except_reraise.
  cbv [mbind E_bind with_clock pure].
  rewrite identify_cold_data_run, Hc.
  cbn [the_clock]. rewrite He.
  rewrite identify_orphaned_temp_files_run. cbn [the_clock].
  rewrite Hd, Hw, Hp. reflexivity.
Qed.

End ScoreFacts.

(** X24: [_calculate_efficiency_metrics] never raises, and its efficiency
    score is 100 less the two penalties and never below 20 whatever the scan
    holds: the penalties are capped at 50 and 30, so the clamp [max(0, ...)]
    never acts and the announced range 0-100 is not covered below 20.  On the
    result of every [execute_scan] the score lies between 20 and 100 and the
    reported count of empty files is the number of files of size 0. *)
Theorem efficiency_score_never_below_20 :
  (forall scan : scan_results,
     exists m,
       _calculate_efficiency_metrics scan = Ok m
       /\ efficiency_score m
          = 100 - py_min (em_small_files_percentage m) 50
            - py_min (em_over_replicated_percentage m) 30
       /\ 20 <= efficiency_score m
       /\ average_file_size_mb m
          == (if (0 <? default 0%Z (total_files scan))%Z
              then default 0 (total_size_gb scan) * 1024
                   / inject_Z (default 0%Z (total_files scan))
              else 0))
  /\ (forall (id : string) (files : list file_info) (st : server),
        exists r m,
          fst (execute_scan id files st) = Ok r
          /\ _calculate_efficiency_metrics r = Ok m
          /\ 20 <= efficiency_score m <= 100
          /\ em_empty_files_count m = len (List.filter is_empty files)).
Proof.
  assert (Hgen : forall scan : scan_results,
            exists m,
              _calculate_efficiency_metrics scan = Ok m
              /\ efficiency_score m
                 = 100 - py_min (em_small_files_percentage m) 50
                   - py_min (em_over_replicated_percentage m) 30
              /\ 20 <= efficiency_score m
              /\ average_file_size_mb m
                 == (if (0 <? default 0%Z (total_files scan))%Z
                     then default 0 (total_size_gb scan) * 1024
                          / inject_Z (default 0%Z (total_files scan))
                     else 0)).
  { intros scan. unfold _calculate_efficiency_metrics.
    destruct (Z.ltb_spec 0 (default 0%Z (total_files scan))) as [Hpos | Hle].
    - rewrite truediv_nonzero by (apply inject_Z_nonzero; lia).
      cbn [mbind result_bind]. eexists. split; [reflexivity |].
      cbn [efficiency_score em_small_files_percentage
           em_over_replicated_percentage average_file_size_mb].
      split; [apply score_unclamped |]. split; [| reflexivity].
      rewrite (proj1 (score_unclamped _ _)). apply score_unclamped.
    - cbn [mbind result_bind]. eexists. split; [reflexivity |].
      cbn [efficiency_score em_small_files_percentage
           em_over_replicated_percentage average_file_size_mb].
      split; [apply score_unclamped |]. split; [| reflexivity].
      rewrite (proj1 (score_unclamped _ _)). apply score_unclamped. }
  split; [exact Hgen |].
  intros id files st. destruct files as [| f files].
  - exists (empty_scan id). destruct (Hgen (empty_scan id)) as (m & Hm & Hs & H20 & _).
    exists m. split; [reflexivity |]. split; [exact Hm |].
    unfold _calculate_efficiency_metrics in Hm. cbn in Hm.
    injection Hm as <-. cbn. repeat split; discriminate.
  - destruct (execute_scan_efficiency id f files st)
      as (r & eff & Hrun & Heff & Htotal & Hea).
    destruct (analyze_file_efficiency_percentages (f :: files))
      as (eff' & Heff' & [Hs0 Hs1] & [Ho0 Ho1] & Hempty).
    rewrite Heff in Heff'. injection Heff' as <-.
    destruct (Hgen r) as (m & Hm & Hscore & H20 & _).
    exists r, m. split; [exact Hrun |]. split; [exact Hm |].
    assert (Hfields : em_small_files_percentage m = small_files_percentage eff
                      /\ em_over_replicated_percentage m
                         = over_replicated_percentage eff
                      /\ em_empty_files_count m = empty_files_count eff).
    { unfold _calculate_efficiency_metrics in Hm. rewrite Hea in Hm.
      destruct ((0 <? default 0%Z (total_files r))%Z);
        [destruct (truediv _ _) as [q | e]; [| discriminate] |];
        cbn [mbind result_bind] in Hm; injection Hm as <-;
        repeat split. }
    destruct Hfields as (Hfs & Hfo & Hfe).
    split; [split; [exact H20 |] |].
    + rewrite Hscore, Hfs, Hfo.
      pose proof (py_min_nonneg (small_files_percentage eff) 50 Hs0
                    ltac:(discriminate)).
      pose proof (py_min_nonneg (over_replicated_percentage eff) 30 Ho0
                    ltac:(discriminate)).
      lra.
    + rewrite Hfe. exact Hempty.
Qed.

(** ** Batches of the directory scan *)

Section BatchFacts.
Context {A : Type}.

Lemma len_app_one (l : list A) (x : A) : len (l ++ [x]) = (len l + 1)%Z.
Proof. unfold len. rewrite List.length_app. simpl. lia. Qed.

Lemma Forall_removelast_cons (P : list A -> Prop) (b : list A)
    (l : list (list A)) :
  P b -> Forall P (removelast l) -> Forall P (removelast (b :: l)).
Proof.
  intros Hb Hl. destruct l as [| c l]; [constructor |].
  change (removelast (b :: c :: l)) with (b :: removelast (c :: l)).
  constructor; assumption.
Qed.

Lemma batch_loop_spec (infos : list (option A)) :
  forall results : list A,
    (len results < 1000)%Z ->
    concat (batch_loop results infos) = results ++ omap id infos
    /\ Forall (fun b => (1 <= len b <= 1000)%Z) (batch_loop results infos)
    /\ Forall (fun b => len b = 1000%Z) (removelast (batch_loop results infos)).
Proof.
  induction infos as [| [x |] rest IH]; intros results Hlt.
  - cbn [batch_loop omap list_omap]. rewrite List.app_nil_r.
    destruct results as [| y results].
    + repeat split; constructor.
    + cbn [concat]. rewrite List.app_nil_r. split; [reflexivity |].
      split; [| constructor].
      constructor; [| constructor]. unfold len in *. simpl in *. lia.
  - cbn [batch_loop]. pose proof (len_app_one results x) as Hlen.
    assert (H0 : (0 <= len results)%Z) by (unfold len; lia).
    change (omap id (Some x :: rest)) with (x :: omap id rest).
    destruct (Z.leb_spec 1000 (len (results ++ [x]))) as [Hfull | Hroom].
    + destruct (IH [] ltac:(unfold len; simpl; lia)) as (Hc & Hb & Hr).
      split; [| split].
      * cbn [concat]. rewrite Hc. rewrite <- List.app_assoc. reflexivity.
      * constructor; [lia | exact Hb].
      * apply Forall_removelast_cons; [lia | exact Hr].
    + destruct (IH (results ++ [x]) Hroom) as (Hc & Hb & Hr).
      split; [| split; assumption].
      rewrite Hc, <- List.app_assoc. reflexivity.
  - cbn [batch_loop]. change (omap id (None :: rest)) with (omap id rest).
    apply IH. exact Hlt.
Qed.

Lemma extend_all_from (batches : list (list A)) :
  forall all_files : list A,
    fold_left (fun all_files batch => all_files ++ batch) batches all_files
    = all_files ++ concat batches.
Proof.
  induction batches as [| b batches IH]; intros all_files.
  - simpl. rewrite List.app_nil_r. reflexivity.
  - simpl. rewrite IH, List.app_assoc. reflexivity.
Qed.

End BatchFacts.

(** X25: the batches yielded by [scan_directory_batch], put together the way
    [execute_scan] extends [all_files], are exactly the files whose metadata
    could be read, in walk order: none is lost at a batch boundary, none is
    delivered twice.  No batch is empty or longer than 1000 files, and every
    batch but the last holds exactly 1000. *)
Theorem scan_batches_partition_readable_files
    {A : Type} (infos : list (option A)) :
  extend_all (scan_directory_batch infos) = omap id infos
  /\ Forall (fun b => (1 <= len b <= 1000)%Z) (scan_directory_batch infos)
  /\ Forall (fun b => len b = 1000%Z) (removelast (scan_directory_batch infos)).
Proof.
  unfold extend_all, scan_directory_batch.
  destruct (batch_loop_spec infos [] ltac:(unfold len; simpl; lia))
    as (Hc & Hb & Hr).
  split; [| split; assumption].
  rewrite extend_all_from. exact Hc.
Qed.
